(** * mongo-backup.py: interactive database selection and backup orchestration

    A shallow embedding of [MongoBackupTool] (src/mongo-scripts/mongo-backup.py):
    the curses checkbox selector ([checkbox_menu]), the archive file name
    generator ([generate_human_readable_filename]) and the backup pipeline
    ([run_mongodump], [create_zip_archive], [backup_databases]).

    Python values are modelled as follows.
    - [int] is [Z]; [//] by a positive constant is [Z.div] (both floor).
    - [str] is a list of Unicode code points ([list Z]), so that [len] counts
      what Python counts; ASCII literals are written with [lit].
    - [list] is [list]; indexing and slicing follow Python, including negative
      indices and [IndexError].
    - exceptions are the [Raise] branch of [result]. *)

From Stdlib Require Import ZArith Lia Ascii String DecimalString.
From stdpp Require Import base tactics option list sorting.

Local Open Scope Z_scope.

(* ===================================================================== *)
(** * Python values                                                       *)
(* ===================================================================== *)

Abbreviation pystr := (list Z).

Definition ord (c : ascii) : Z := Z.of_N (N_of_ascii c).

Definition lit (s : string) : pystr := ord <$> list_ascii_of_string s.

Definition len {A} (l : list A) : Z := Z.of_nat (length l).

(** The exceptions the modelled code can meet. [CalledProcessError] carries
    the exit status and the captured error stream. *)
Inductive exn :=
| IndexError
| CursesError
| OSError
| FileNotFoundError
| PermissionError
| UnicodeDecodeError
| CalledProcessError (returncode : Z) (stderr : pystr).

Inductive result (A : Type) :=
| Ok (a : A)
| Raise (e : exn).
Arguments Ok {A} a.
Arguments Raise {A} e.

#[global] Instance result_ret : MRet result := fun _ a => Ok a.
#[global] Instance result_bind : MBind result := fun _ _ f m =>
  match m with
  | Ok a => f a
  | Raise e => Raise e
  end.

(** [l[i]]: a negative index counts from the end, anything outside
    [-len(l) .. len(l)-1] raises [IndexError]. *)
Definition py_norm_index (n : nat) (i : Z) : option nat :=
  if (0 <=? i) && (i <? Z.of_nat n) then Some (Z.to_nat i)
  else if (- Z.of_nat n <=? i) && (i <? 0) then Some (Z.to_nat (Z.of_nat n + i))
  else None.

Definition py_getitem {A} (l : list A) (i : Z) : result A :=
  match py_norm_index (length l) i with
  | Some k => match l !! k with Some a => Ok a | None => Raise IndexError end
  | None => Raise IndexError
  end.

(** [l[i] = v] *)
Definition py_setitem {A} (l : list A) (i : Z) (v : A) : result (list A) :=
  match py_norm_index (length l) i with
  | Some k => Ok (<[k := v]> l)
  | None => Raise IndexError
  end.

(** Bound of a slice: negative bounds count from the end, then clamp. *)
Definition py_slice_bound (n : nat) (i : Z) : nat :=
  if i <? 0 then Z.to_nat (Z.max 0 (Z.of_nat n + i))
  else Z.to_nat (Z.min i (Z.of_nat n)).

(** [l[a:b]] *)
Definition py_slice {A} (l : list A) (a b : Z) : list A :=
  let lo := py_slice_bound (length l) a in
  let hi := py_slice_bound (length l) b in
  take (hi - lo)%nat (drop lo l).

(** [l[:b]] *)
Definition py_prefix {A} (l : list A) (b : Z) : list A := py_slice l 0 b.

(** [s * k]: empty when [k <= 0]. *)
Definition py_times {A} (s : list A) (k : Z) : list A :=
  concat (replicate (Z.to_nat k) s).

(** [sum(bools)]: [True] counts 1. *)
Definition py_sum (l : list bool) : Z :=
  len (filter (fun b => b = true) l).

(** [str(n)] and [f"{n}"] for an int. *)
Definition str_of_int (n : Z) : pystr := lit (NilZero.string_of_int (Z.to_int n)).

(** [f"{n:02d}"]: zero-padded on the left to two characters. *)
Definition format_02d (n : Z) : pystr :=
  let s := str_of_int n in
  py_times (lit "0") (2 - len s) ++ s.

Definition key_in (key : Z) (keys : list Z) : bool := existsb (Z.eqb key) keys.

(** [s.lower()] on the ASCII letters (all that the month names contain). *)
Definition py_lower (s : pystr) : pystr :=
  (fun c => if (65 <=? c) && (c <=? 90) then c + 32 else c) <$> s.

(** [a <= b] on [str]: code point by code point, a proper prefix first. *)
Fixpoint str_leb (a b : pystr) : bool :=
  match a, b with
  | [], _ => true
  | _ :: _, [] => false
  | x :: a', y :: b' => (x <? y) || ((x =? y) && str_leb a' b')
  end.

Definition str_le (a b : pystr) : Prop := str_leb a b = true.

#[global] Instance str_le_dec (a b : pystr) : Decision (str_le a b) :=
  decide (str_leb a b = true).

(* ===================================================================== *)
(** * Checkbox selector ([checkbox_menu])                                 *)
(* ===================================================================== *)

(** Key codes. Printable keys are their [ord]; the function keys are the
    constants of the curses module. *)
Definition KEY_DOWN : Z := 258.
Definition KEY_UP : Z := 259.
Definition KEY_NPAGE : Z := 338.
Definition KEY_PPAGE : Z := 339.
Definition KEY_ENTER : Z := 343.

(** Display attribute in force for one [addstr]. *)
Inductive attr :=
| A_NORMAL
| A_BOLD
| color_pair (n : Z).

(** One [stdscr.addstr(y, x, text, attr)] call. *)
Record draw := Draw { draw_y : Z; draw_x : Z; draw_text : pystr; draw_attr : attr }.

(** The two variables the loop keeps between frames. *)
Record menu_state := MenuState { selected : list bool; current_row : Z }.

(** What [stdscr.getch()] gives: a key code, or [KeyboardInterrupt]. *)
Inductive getch_result :=
| Key (key : Z)
| KeyboardInterrupt.

(** One turn of the [while True] loop as the terminal presents it: the size
    read by [getmaxyx] and the key read by [getch]. *)
Record frame_input := Frame { term_height : Z; term_width : Z; keypress : getch_result }.

(** How a key leaves the loop body: next iteration, or [return]. *)
Inductive step_result :=
| Continue (st : menu_state)
| Return (r : option (list pystr)).

(** How a run over finitely many frames ends: [checkbox_menu] returned, an
    exception escaped it, or it is blocked in [getch] waiting for a key. *)
Inductive outcome :=
| Returned (r : option (list pystr))
| Raised (e : exn)
| Waiting (st : menu_state).

Definition title : pystr := lit "MongoDB Backup - Select Databases".

Definition instructions : pystr :=
  [8593] ++ lit "/" ++ [8595] ++
  lit " or k/j: Navigate  |  Space: Toggle  |  a: Select All  |  n: Select None  |  Enter: Confirm  |  q: Quit".

(** U+2500, the rule character. *)
Definition hrule : pystr := [9472].

Definition checkbox_on : pystr := lit "[" ++ [10003] ++ lit "]".
Definition checkbox_off : pystr := lit "[ ]".

Definition start_row : Z := 4.

Definition max_visible (height : Z) : Z := height - start_row - 3.

(** Lines 89-94. *)
Definition scroll_offset (n : Z) (current_row max_visible : Z) : Z :=
  if current_row <? max_visible / 2 then 0
  else if current_row >? n - max_visible / 2 then Z.max 0 (n - max_visible)
  else current_row - max_visible / 2.

Definition footer (selected : list bool) (databases : list pystr) : pystr :=
  lit "Selected: " ++ str_of_int (py_sum selected) ++ lit "/" ++
  str_of_int (len databases) ++ lit " databases".

Section Selector.

(** The terminal library is not part of the program. [addstr_ok height width
    y x text] tells whether [addstr(y, x, text)] returns normally on a
    window of that size; otherwise it raises [curses.error]. *)
Variable addstr_ok : Z -> Z -> Z -> Z -> pystr -> bool.

Section Frame.
Variables height width : Z.

Definition addstr (y x : Z) (text : pystr) (a : attr) : result (list draw) :=
  if addstr_ok height width y x text then Ok [Draw y x text a]
  else Raise CursesError.

(** Lines 71-82: header, instruction line, rule. *)
Definition render_header : result (list draw) :=
  d0 ← addstr 0 ((width - len title) / 2) title A_BOLD;
  d1 ← addstr 1 0 (py_prefix instructions (width - 1)) (color_pair 3);
  d2 ← addstr 2 0 (py_times hrule (width - 1)) A_NORMAL;
  mret (d0 ++ d1 ++ d2).

(** Lines 98-115: the body of [for idx, db in enumerate(visible_databases)],
    from index [idx] on. *)
Fixpoint render_rows (sel : list bool) (current_row scroll_offset : Z)
    (idx : Z) (visible_databases : list pystr) : result (list draw) :=
  match visible_databases with
  | [] => Ok []
  | db :: rest =>
      let actual_idx := idx + scroll_offset in
      on ← py_getitem sel actual_idx;
      let checkbox := if on : bool then checkbox_on else checkbox_off in
      let line := checkbox ++ lit " " ++ db in
      let y_pos := start_row + idx in
      d ← (if actual_idx =? current_row then
             addstr y_pos 2 (py_prefix line (width - 3)) (color_pair 1)
           else if on then
             d1 ← addstr y_pos 2 checkbox (color_pair 2);
             d2 ← addstr y_pos (2 + len checkbox + 1) db A_NORMAL;
             mret (d1 ++ d2)
           else
             addstr y_pos 2 (py_prefix line (width - 3)) A_NORMAL);
      ds ← render_rows sel current_row scroll_offset (idx + 1) rest;
      mret (d ++ ds)
  end.

(** Lines 117-121. *)
Definition render_footer (sel : list bool) (databases : list pystr)
    : result (list draw) :=
  let footer := footer sel databases in
  d0 ← addstr (height - 2) 0 (py_times hrule (width - 1)) A_NORMAL;
  d1 ← addstr (height - 1) ((width - len footer) / 2) footer (color_pair 2);
  mret (d0 ++ d1).

(** Lines 68-123: one redraw; the [addstr] calls in the order they are made. *)
Definition render (databases : list pystr) (st : menu_state) : result (list draw) :=
  hd ← render_header;
  let max_visible := max_visible height in
  let scroll_offset := scroll_offset (len databases) (current_row st) max_visible in
  let visible_databases :=
    py_slice databases scroll_offset (scroll_offset + max_visible) in
  rows ← render_rows (selected st) (current_row st) scroll_offset 0 visible_databases;
  ft ← render_footer (selected st) databases;
  mret (hd ++ rows ++ ft).

End Frame.

(** Line 148: [[db for idx, db in enumerate(databases) if selected[idx]]],
    from index [idx] on. *)
Fixpoint selected_dbs (sel : list bool) (idx : Z) (databases : list pystr)
    : result (list pystr) :=
  match databases with
  | [] => Ok []
  | db :: rest =>
      on ← py_getitem sel idx;
      dbs ← selected_dbs sel (idx + 1) rest;
      mret (if on : bool then db :: dbs else dbs)
  end.

(** Lines 131-149: the key dispatch. A key that matches no branch leaves the
    state as it is. *)
Definition handle_key (databases : list pystr) (st : menu_state)
    (max_visible : Z) (key : Z) : result step_result :=
  let n := length databases in
  if key_in key [ord "q"; ord "Q"; 27] then
    Ok (Return None)
  else if key_in key [ord " "] then
    on ← py_getitem (selected st) (current_row st);
    sel ← py_setitem (selected st) (current_row st) (negb on);
    mret (Continue (MenuState sel (current_row st)))
  else if key_in key [ord "a"; ord "A"] then
    Ok (Continue (MenuState (replicate n true) (current_row st)))
  else if key_in key [ord "n"; ord "N"] then
    Ok (Continue (MenuState (replicate n false) (current_row st)))
  else if key_in key [KEY_UP; ord "k"] then
    Ok (Continue (MenuState (selected st) (Z.max 0 (current_row st - 1))))
  else if key_in key [KEY_DOWN; ord "j"] then
    Ok (Continue (MenuState (selected st) (Z.min (len databases - 1) (current_row st + 1))))
  else if key_in key [KEY_PPAGE] then
    Ok (Continue (MenuState (selected st) (Z.max 0 (current_row st - max_visible))))
  else if key_in key [KEY_NPAGE] then
    Ok (Continue (MenuState (selected st) (Z.min (len databases - 1) (current_row st + max_visible))))
  else if key_in key [10; KEY_ENTER; 10; 13] then
    dbs ← selected_dbs (selected st) 0 databases;
    mret (Return (match dbs with [] => None | _ => Some dbs end))
  else
    Ok (Continue st).

(** Lines 67-149: the loop, one iteration per frame. *)
Fixpoint menu_loop (databases : list pystr) (st : menu_state)
    (frames : list frame_input) : outcome :=
  match frames with
  | [] => Waiting st
  | f :: rest =>
      match render (term_height f) (term_width f) databases st with
      | Raise e => Raised e
      | Ok _ =>
          match keypress f with
          | KeyboardInterrupt => Returned None
          | Key key =>
              match handle_key databases st (max_visible (term_height f)) key with
              | Raise e => Raised e
              | Ok (Return r) => Returned r
              | Ok (Continue st') => menu_loop databases st' rest
              end
          end
      end
  end.

(** Lines 59-60: everything selected, cursor on the first row. *)
Definition initial_state (databases : list pystr) : menu_state :=
  MenuState (replicate (length databases) true) 0.

(** Lines 53-149. The set-up calls of lines 55-56 and 63-65 (cursor
    visibility, colour pairs) draw nothing and keep no state of the loop. *)
Definition checkbox_menu (databases : list pystr) (frames : list frame_input)
    : outcome :=
  menu_loop databases (initial_state databases) frames.

(** The states the loop passes through, one after each key it handles. *)
Fixpoint menu_states (databases : list pystr) (st : menu_state)
    (frames : list frame_input) : list menu_state :=
  match frames with
  | [] => []
  | f :: rest =>
      match render (term_height f) (term_width f) databases st with
      | Raise _ => []
      | Ok _ =>
          match keypress f with
          | KeyboardInterrupt => []
          | Key key =>
              match handle_key databases st (max_visible (term_height f)) key with
              | Ok (Continue st') => st' :: menu_states databases st' rest
              | _ => []
              end
          end
      end
  end.

End Selector.

(** The columns a code point fills on the terminal ([wcwidth]): two for the
    East Asian wide and fullwidth ranges and for the pictograph blocks, one
    otherwise. Control characters and combining marks, which the terminal
    library treats in other ways, are left out: the statements below that
    rest on the terminal model keep to text without them. *)
Definition wcwidth (c : Z) : Z :=
  if ((4352 <=? c) && (c <=? 4447))                               (* 1100-115F *)
     || (c =? 9001) || (c =? 9002)                                (* 2329, 232A *)
     || ((11904 <=? c) && (c <=? 42191) && negb (c =? 12351))     (* 2E80-A4CF, not 303F *)
     || ((44032 <=? c) && (c <=? 55203))                          (* AC00-D7A3 *)
     || ((63744 <=? c) && (c <=? 64255))                          (* F900-FAFF *)
     || ((65040 <=? c) && (c <=? 65049))                          (* FE10-FE19 *)
     || ((65072 <=? c) && (c <=? 65135))                          (* FE30-FE6F *)
     || ((65280 <=? c) && (c <=? 65376))                          (* FF00-FF60 *)
     || ((65504 <=? c) && (c <=? 65510))                          (* FFE0-FFE6 *)
     || ((127744 <=? c) && (c <=? 128591))                        (* 1F300-1F64F *)
     || ((129280 <=? c) && (c <=? 129535))                        (* 1F900-1F9FF *)
     || ((131072 <=? c) && (c <=? 196605))                        (* 20000-2FFFD *)
     || ((196608 <=? c) && (c <=? 262141))                        (* 30000-3FFFD *)
  then 2 else 1.

(** Where the cursor stands after [text] is written from cell [pos] of a
    window [width] columns wide, the cells counted row after row: a character
    that does not fit in what is left of its line goes to the next line. *)
Fixpoint advance (width pos : Z) (text : pystr) : Z :=
  match text with
  | [] => pos
  | c :: rest =>
      let col := pos mod width in
      advance width
        (if width <? col + wcwidth c then pos - col + width + wcwidth c
         else pos + wcwidth c)
        rest
  end.

(** The behaviour of ncurses' [mvwaddstr] on a window without scrolling: the
    start position must be inside the window, and the text, which continues
    on the next line when it passes the right edge, must end before the
    bottom-right cell. *)
Definition ncurses_addstr_ok (height width y x : Z) (text : pystr) : bool :=
  (0 <=? y) && (y <? height) && (0 <=? x) && (x <? width) &&
  (advance width (y * width + x) text <? height * width).

(** An [addstr] whose text passes the right edge continues on the next line. *)
Definition wraps (width : Z) (d : draw) : bool :=
  width <? advance width (draw_x d) (draw_text d).

(** The row on which the text of an [addstr] ends. *)
Definition last_row (width : Z) (d : draw) : Z :=
  draw_y d + Z.max 0 (advance width (draw_x d) (draw_text d) - 1) / width.

(** Text of printable ASCII characters. *)
Definition printable_ascii (text : pystr) : Prop :=
  Forall (fun c => 32 <= c <= 126) text.


(* ===================================================================== *)
(** * File name generator ([generate_human_readable_filename])            *)
(* ===================================================================== *)

(** A [datetime] value; the type keeps month in 1..12, hour in 0..23 and
    minute in 0..59. *)
Record datetime := DateTime {
  dt_year : Z; dt_month : Z; dt_day : Z;
  dt_hour : Z; dt_minute : Z; dt_second : Z
}.

(** [strftime('%B')]: the full month name (English names). *)
Definition strftime_B (month : Z) : pystr :=
  lit (match month with
       | 1 => "January" | 2 => "February" | 3 => "March" | 4 => "April"
       | 5 => "May" | 6 => "June" | 7 => "July" | 8 => "August"
       | 9 => "September" | 10 => "October" | 11 => "November"
       | 12 => "December" | _ => ""
       end).

(** Lines 153-174, as a function of the value [datetime.now()] gave. *)
Definition human_readable_filename (now : datetime) : pystr :=
  let month := py_lower (strftime_B (dt_month now)) in
  let day := dt_day now in
  let year := dt_year now in
  let hour := dt_hour now in
  let minute := dt_minute now in
  let '(hour_12, period) :=
    if hour =? 0 then (12, lit "am")
    else if hour <? 12 then (hour, lit "am")
    else if hour =? 12 then (12, lit "pm")
    else (hour - 12, lit "pm") in
  month ++ lit "_" ++ str_of_int day ++ lit "_" ++ str_of_int year ++ lit "_" ++
  str_of_int hour_12 ++ lit "_" ++ format_02d minute ++ lit "_" ++ period ++ lit ".zip".

(** [strftime('%Y%m%d_%H%M%S')] (line 236), for a four-digit year. *)
Definition strftime_timestamp (now : datetime) : pystr :=
  str_of_int (dt_year now) ++ format_02d (dt_month now) ++ format_02d (dt_day now) ++
  lit "_" ++ format_02d (dt_hour now) ++ format_02d (dt_minute now) ++
  format_02d (dt_second now).

(** ** The file name as the specification words it *)

Definition spec_month_name_lowercase (month : Z) : pystr :=
  lit (nth (Z.to_nat (month - 1))
         ["january"; "february"; "march"; "april"; "may"; "june"; "july";
          "august"; "september"; "october"; "november"; "december"]%string
         ""%string).

(** Hour 0 is 12, hour 12 is 12, every other hour is taken modulo 12. *)
Definition spec_hour_12 (hour : Z) : Z :=
  if hour =? 0 then 12 else if hour =? 12 then 12 else hour mod 12.

(** am when the hour is below 12, pm otherwise. *)
Definition spec_period (hour : Z) : pystr :=
  if hour <? 12 then lit "am" else lit "pm".

(** Exactly two decimal digits. *)
Definition spec_two_digits (n : Z) : pystr := [48 + n / 10; 48 + n mod 10].

Definition spec_filename (month day year hour minute : Z) : pystr :=
  spec_month_name_lowercase month ++ lit "_" ++ str_of_int day ++ lit "_" ++
  str_of_int year ++ lit "_" ++ str_of_int (spec_hour_12 hour) ++ lit "_" ++
  spec_two_digits minute ++ lit "_" ++ spec_period hour ++ lit ".zip".


(* ===================================================================== *)
(** * Backup orchestrator                                                 *)
(* ===================================================================== *)

(** A file system path, as the list of its components: [os.path.join] appends
    a component. *)
Abbreviation path := (list pystr).

(** The fields of [self] that the pipeline reads. *)
Record tool := Tool { mongo_url : pystr; output_dir : path }.

(** The argument vector of line 204:
    [['mongodump', '--uri', uri, '--db', db, '--out', out]]. *)
Record command := Mongodump { arg_uri : pystr; arg_db : pystr; arg_out : path }.

(** What one [subprocess.run] of the dump utility comes to: the process ran
    and exited, leaving the named files in its directory below [--out], and
    what it wrote to its output streams was decoded ([text=True]); or it ran
    and exited likewise, but its output is not text in the encoding of the
    locale; or the executable does not exist; or it could not be started for
    another reason. *)
Inductive spawn_result :=
| Exited (returncode : Z) (stderr : pystr) (written : list pystr)
| Undecodable (returncode : Z) (written : list pystr)
| NoSuchExecutable
| CannotExecute.

(** Everything the script prints, one constructor per [print] call, with the
    interpolated values. *)
Inductive message :=
| NoDatabasesSelected                          (* line 233 *)
| Rule                                         (* lines 239, 243, 271, 281 *)
| StartingBackup (count : Z)                   (* line 240 *)
| TimestampIs (timestamp : pystr)              (* line 241 *)
| OutputDirectory (p : path)                   (* line 242 *)
| BackingUp (database : pystr)                 (* line 212 *)
| Tick                                         (* lines 190, 219, 265 *)
| Cross                                        (* lines 193, 222, 226, 267 *)
| DumpError (stderr : pystr)                   (* line 223 *)
| MongodumpNotFound                            (* line 227 *)
| CreatingZip (zip_filename : pystr)           (* line 181 *)
| ZipError (e : exn)                           (* line 194 *)
| CleaningUp                                   (* line 263 *)
| CleanupWarning (e : exn)                     (* line 268 *)
| BackupComplete                               (* line 272 *)
| Successful (count total : Z)                 (* line 273 *)
| FailedList (count : Z) (names : list pystr)  (* line 275 *)
| Location (p : path).                         (* lines 278, 280 *)

(** What the script does to the outside, in the order it does it. *)
Inductive event :=
| Makedirs (p : path)
| Spawn (cmd : command)
| ZipOpen (p : path)
| ZipWrite (file arcname : path)
| Rmtree (p : path)
| Stdout (m : message)
| Stderr (m : message).

(** The outside as the script finds it: the clock, and for every operation
    that can fail whether it does. [clock k] is the k-th reading of
    [datetime.now()] and [spawn k cmd] the k-th [subprocess.run]. When the
    removal of the tree at [p] fails, [rmtree_deleted p q] tells whether the
    entry [q] below [p] had been deleted by then. [scandir_before p q] tells
    whether the directory listings of the file system bring up [p] before
    [q]. *)
Record env := Env {
  clock : nat -> datetime;
  makedirs_ok : path -> bool;
  spawn : nat -> command -> spawn_result;
  zip_open_ok : path -> bool;
  zip_write_ok : path -> bool;
  rmtree_ok : path -> bool;
  rmtree_deleted : path -> path -> bool;
  scandir_before : path -> path -> bool
}.

(** The state the script changes: directories and regular files on disk, the
    events so far (oldest first), and how often the clock and the dump
    utility were used. *)
Record world := World {
  dirs : list path;
  files : list path;
  log : list event;
  clock_reads : nat;
  spawns : nat
}.

(** Computations that change the world and may raise. The world is kept when
    an exception is raised. *)
Definition M (A : Type) : Type := world -> result A * world.

#[global] Instance M_ret : MRet M := fun _ a w => (Ok a, w).
#[global] Instance M_bind : MBind M := fun _ _ f m w =>
  match m w with
  | (Ok a, w') => f a w'
  | (Raise e, w') => (Raise e, w')
  end.

(** [try: body except ...: handler]; [handler e = None] when no clause
    matches [e]. *)
Definition try_except {A} (body : M A) (handler : exn -> option (M A)) : M A :=
  fun w =>
    match body w with
    | (Ok a, w') => (Ok a, w')
    | (Raise e, w') =>
        match handler e with
        | Some h => h w'
        | None => (Raise e, w')
        end
    end.

Definition raise {A} (e : exn) : M A := fun w => (Raise e, w).

(** Read the world, and change it. *)
Definition gets {A} (f : world -> A) : M A := fun w => (Ok (f w), w).
Definition modify (f : world -> world) : M unit := fun w => (Ok tt, f w).

Definition emit (e : event) : M unit :=
  modify (fun w => World (dirs w) (files w) (log w ++ [e]) (clock_reads w) (spawns w)).

Definition print (m : message) : M unit := emit (Stdout m).
Definition eprint (m : message) : M unit := emit (Stderr m).

Definition is_dir (w : world) (p : path) : bool := bool_decide (p ∈ dirs w).

(** [p] is [d] or lies below it. *)
Definition is_under (d p : path) : bool := bool_decide (d `prefix_of` p).

Definition add_path (l : list path) (p : path) : list path :=
  if bool_decide (p ∈ l) then l else l ++ [p].

(** The path and the directories above it, shortest first. *)
Definition ancestors (p : path) : list path :=
  (fun k => take k p) <$> seq 1 (length p).

Definition listed_before (E : env) (p q : path) : Prop := scandir_before E p q = true.

#[global] Instance listed_before_dec (E : env) (p q : path)
    : Decision (listed_before E p q) :=
  decide (scandir_before E p q = true).

(** The files below [top], as [os.walk] finds them: every one of them once,
    in the order of the directory listings, which is the file system's and
    not the order in which the files were made. *)
Definition walk (E : env) (w : world) (top : path) : list path :=
  merge_sort (listed_before E) (filter (fun p => is_under top p = true) (files w)).

(** [q] lies below [p] and was deleted before the removal of the tree at [p]
    failed. The directory [p] itself is the last thing a removal deletes, so
    it is still there when the removal fails. *)
Definition rmtree_gone (E : env) (p q : path) : bool :=
  is_under p q && negb (bool_decide (q = p)) && rmtree_deleted E p q.

(** [os.path.relpath(p, os.path.dirname(top))] for [p] below [top]. *)
Definition arcname_of (top p : path) : path := drop (length top - 1)%nat p.

Section Orchestrator.

Variable E : env.
Variable self : tool.

(** [datetime.now()] *)
Definition datetime_now : M datetime :=
  k ← gets clock_reads;
  modify (fun w => World (dirs w) (files w) (log w) (S k) (spawns w));;
  mret (clock E k).

(** [os.makedirs(p, exist_ok=True)] *)
Definition os_makedirs (p : path) : M unit :=
  emit (Makedirs p);;
  if makedirs_ok E p then
    modify (fun w => World (foldl add_path (dirs w) (ancestors p)) (files w)
                           (log w) (clock_reads w) (spawns w))
  else raise OSError.

(** [subprocess.run(cmd, capture_output=True, text=True, check=True)]: the
    captured output is decoded when the process has ended, before the exit
    status is looked at. *)
Definition subprocess_run (cmd : command) : M unit :=
  emit (Spawn cmd);;
  k ← gets spawns;
  modify (fun w => World (dirs w) (files w) (log w) (clock_reads w) (S k));;
  match spawn E k cmd with
  | Exited returncode stderr written =>
      modify (fun w =>
        World (dirs w)
              (foldl add_path (files w)
                 ((fun f => arg_out cmd ++ [arg_db cmd; f]) <$> written))
              (log w) (clock_reads w) (spawns w));;
      if returncode =? 0 then mret tt
      else raise (CalledProcessError returncode stderr)
  | Undecodable returncode written =>
      modify (fun w =>
        World (dirs w)
              (foldl add_path (files w)
                 ((fun f => arg_out cmd ++ [arg_db cmd; f]) <$> written))
              (log w) (clock_reads w) (spawns w));;
      raise UnicodeDecodeError
  | NoSuchExecutable => raise FileNotFoundError
  | CannotExecute => raise PermissionError
  end.

(** [zipfile.ZipFile(p, 'w', ...)]: creates the archive file. *)
Definition zip_open (p : path) : M unit :=
  emit (ZipOpen p);;
  if zip_open_ok E p then
    modify (fun w => World (dirs w) (add_path (files w) p) (log w)
                           (clock_reads w) (spawns w))
  else raise OSError.

(** [zipf.write(file_path, arcname)] *)
Definition zip_write (file_path arcname : path) : M unit :=
  emit (ZipWrite file_path arcname);;
  if zip_write_ok E file_path then mret tt else raise OSError.

(** [shutil.rmtree(p)]: removes [p] and what lies below it. When it fails,
    what it had deleted up to then stays deleted. *)
Definition shutil_rmtree (p : path) : M unit :=
  emit (Rmtree p);;
  if rmtree_ok E p then
    modify (fun w => World (filter (fun q => is_under p q = false) (dirs w))
                           (filter (fun q => is_under p q = false) (files w))
                           (log w) (clock_reads w) (spawns w))
  else
    modify (fun w => World (filter (fun q => rmtree_gone E p q = false) (dirs w))
                           (filter (fun q => rmtree_gone E p q = false) (files w))
                           (log w) (clock_reads w) (spawns w));;
    raise OSError.

(** Lines 151-174. *)
Definition generate_human_readable_filename : M pystr :=
  now ← datetime_now;
  mret (human_readable_filename now).

(** Lines 184-189: the two nested [for] loops over the files found. *)
Fixpoint zip_write_all (source_dir : path) (found : list path) : M unit :=
  match found with
  | [] => mret tt
  | file_path :: rest =>
      zip_write file_path (arcname_of source_dir file_path);;
      zip_write_all source_dir rest
  end.

(** Lines 176-195. *)
Definition create_zip_archive (source_dir : path) (zip_filename : pystr)
    : M (option path) :=
  let zip_path := output_dir self ++ [zip_filename] in
  try_except
    (print (CreatingZip zip_filename);;
     zip_open zip_path;;
     found ← gets (fun w => walk E w source_dir);
     zip_write_all source_dir found;;
     print Tick;;
     mret (Some zip_path))
    (fun e => Some (print Cross;; eprint (ZipError e);; mret None)).

(** Lines 197-228. *)
Definition run_mongodump (database timestamp : pystr) : M bool :=
  let output_path := output_dir self ++ [timestamp; database] in
  os_makedirs output_path;;
  let cmd := Mongodump (mongo_url self) database (output_dir self ++ [timestamp]) in
  try_except
    (print (BackingUp database);;
     subprocess_run cmd;;
     print Tick;;
     mret true)
    (fun e =>
       match e with
       | CalledProcessError _ stderr =>
           Some (print Cross;; eprint (DumpError stderr);; mret false)
       | FileNotFoundError =>
           Some (print Cross;; eprint MongodumpNotFound;; mret false)
       | _ => None
       end).

(** Lines 248-252: the [for db in databases] loop, carrying [success_count]
    and [failed_dbs]. *)
Fixpoint dump_loop (databases : list pystr) (timestamp : pystr)
    (success_count : Z) (failed_dbs : list pystr) : M (Z * list pystr) :=
  match databases with
  | [] => mret (success_count, failed_dbs)
  | db :: rest =>
      ok ← run_mongodump db timestamp;
      if ok : bool then dump_loop rest timestamp (success_count + 1) failed_dbs
      else dump_loop rest timestamp success_count (failed_dbs ++ [db])
  end.

(** Lines 254-268. *)
Definition archive_step (create_zip : bool) (success_count : Z)
    (backup_dir : path) : M (option path) :=
  if create_zip && (success_count >? 0) then
    zip_filename ← generate_human_readable_filename;
    zip_path ← create_zip_archive backup_dir zip_filename;
    match zip_path with
    | Some _ =>
        try_except
          (print CleaningUp;;
           shutil_rmtree backup_dir;;
           print Tick)
          (fun e => Some (print Cross;; eprint (CleanupWarning e)));;
        mret zip_path
    | None => mret zip_path
    end
  else mret None.

(** Lines 270-281. *)
Definition print_summary (databases : list pystr) (create_zip : bool)
    (success_count : Z) (failed_dbs : list pystr)
    (zip_path : option path) (backup_dir : path) : M unit :=
  print Rule;;
  print BackupComplete;;
  print (Successful success_count (len databases));;
  match failed_dbs with
  | [] => mret tt
  | _ => print (FailedList (len failed_dbs) failed_dbs)
  end;;
  match create_zip, zip_path with
  | true, Some zp => print (Location zp)
  | _, _ => print (Location backup_dir)
  end;;
  print Rule.

(** Lines 230-281. *)
Definition backup_databases (databases : list pystr) (create_zip : bool) : M unit :=
  match databases with
  | [] => print NoDatabasesSelected
  | _ =>
      now ← datetime_now;
      let timestamp := strftime_timestamp now in
      let backup_dir := output_dir self ++ [timestamp] in
      print Rule;;
      print (StartingBackup (len databases));;
      print (TimestampIs timestamp);;
      print (OutputDirectory backup_dir);;
      print Rule;;
      '(success_count, failed_dbs) ← dump_loop databases timestamp 0 [];
      zip_path ← archive_step create_zip success_count backup_dir;
      print_summary databases create_zip success_count failed_dbs zip_path backup_dir
  end.

End Orchestrator.

(** A world with the given directories and files and nothing done yet. *)
Definition fresh_world (dirs files : list path) : world := World dirs files [] 0 0.



(** ** Observations used in the statements *)

Definition is_ok {A} (r : result A) : bool :=
  match r with Ok _ => true | Raise _ => false end.

(** The redraw of frame [f] in state [st] raises nothing. *)
Definition renders (addstr_ok : Z -> Z -> Z -> Z -> pystr -> bool)
    (f : frame_input) (databases : list pystr) (st : menu_state) : bool :=
  is_ok (render addstr_ok (term_height f) (term_width f) databases st).

(** The cursor is on one of the [n] rows. *)
Definition cursor_in_range (n : nat) (st : menu_state) : Prop :=
  0 <= current_row st <= Z.of_nat n - 1.

(** The dump commands started, the directories removed, and the messages
    written to each stream, each in the order of the log. *)
Definition spawned (l : list event) : list command :=
  omap (fun e => match e with Spawn cmd => Some cmd | _ => None end) l.

Definition rmtrees (l : list event) : list path :=
  omap (fun e => match e with Rmtree p => Some p | _ => None end) l.

Definition stderr_of (l : list event) : list message :=
  omap (fun e => match e with Stderr m => Some m | _ => None end) l.

Definition stdout_of (l : list event) : list message :=
  omap (fun e => match e with Stdout m => Some m | _ => None end) l.

(** The command line 204 builds for one database. *)
Definition dump_cmd (self : tool) (timestamp database : pystr) : command :=
  Mongodump (mongo_url self) database (output_dir self ++ [timestamp]).

(** The k-th run of the dump utility exits with status zero. *)
Definition exits_zero (E : env) (k : nat) (cmd : command) : bool :=
  match spawn E k cmd with
  | Exited returncode _ _ => returncode =? 0
  | _ => false
  end.

(** Each database with the verdict of its own run of the utility: the first
    database is judged by run [k], the next by run [k+1], and so on. *)
Fixpoint verdicts (E : env) (self : tool) (timestamp : pystr) (k : nat)
    (databases : list pystr) : list (pystr * bool) :=
  match databases with
  | [] => []
  | db :: rest =>
      (db, exits_zero E k (dump_cmd self timestamp db))
      :: verdicts E self timestamp (S k) rest
  end.

Definition succeeded (v : list (pystr * bool)) : Z :=
  len (filter (fun x => x.2 = true) v).

Definition failed_names (v : list (pystr * bool)) : list pystr :=
  fst <$> filter (fun x => x.2 = false) v.

(** What one attempt writes to the log when run [k] of the utility serves it. *)
Definition attempt_events (E : env) (self : tool) (timestamp : pystr) (k : nat)
    (db : pystr) : list event :=
  [Makedirs (output_dir self ++ [timestamp; db]); Stdout (BackingUp db);
   Spawn (dump_cmd self timestamp db)] ++
  match spawn E k (dump_cmd self timestamp db) with
  | Exited returncode stderr _ =>
      if returncode =? 0 then [Stdout Tick]
      else [Stdout Cross; Stderr (DumpError stderr)]
  | NoSuchExecutable => [Stdout Cross; Stderr MongodumpNotFound]
  | Undecodable _ _ | CannotExecute => []
  end.

Fixpoint attempts_events (E : env) (self : tool) (timestamp : pystr) (k : nat)
    (databases : list pystr) : list event :=
  match databases with
  | [] => []
  | db :: rest =>
      attempt_events E self timestamp k db
      ++ attempts_events E self timestamp (S k) rest
  end.

(** The closing report of lines 270-281. *)
Definition summary_events (total success_count : Z) (failed_dbs : list pystr)
    (location : path) : list event :=
  [Stdout Rule; Stdout BackupComplete; Stdout (Successful success_count total)]
  ++ match failed_dbs with
     | [] => []
     | _ => [Stdout (FailedList (len failed_dbs) failed_dbs)]
     end
  ++ [Stdout (Location location); Stdout Rule].

(** The outcomes of [subprocess.run] that [run_mongodump] deals with itself:
    the process ran and its output was decoded, or there is no executable. *)
Definition handled (r : spawn_result) : bool :=
  match r with
  | Exited _ _ _ | NoSuchExecutable => true
  | Undecodable _ _ | CannotExecute => false
  end.

(** The outside lets every directory be created and every start of the dump
    utility either runs the process, with output that is decoded, or finds
    no executable. *)
Definition cooperative (E : env) : Prop :=
  (∀ p, makedirs_ok E p = true) ∧ (∀ k cmd, handled (spawn E k cmd) = true).

(** The archive of [source_dir] can be written in world [w]: the archive file
    opens, and every file then found below [source_dir] is stored. *)
Definition archive_writable (E : env) (w : world) (source_dir zip_path : path) : bool :=
  zip_open_ok E zip_path &&
  forallb (zip_write_ok E)
          (filter (fun p => is_under source_dir p = true) (add_path (files w) zip_path)).

(** ** One run of [backup_databases] from world [w0] *)

Section Run.

Context (E : env) (self : tool) (databases : list pystr) (create_zip : bool)
        (w0 : world).

(** The first clock reading names the directory, the second the archive. *)
Definition run_timestamp : pystr :=
  strftime_timestamp (clock E (clock_reads w0)).

Definition run_backup_dir : path := output_dir self ++ [run_timestamp].

Definition run_zip_path : path :=
  output_dir self ++ [human_readable_filename (clock E (S (clock_reads w0)))].

Definition run_verdicts : list (pystr * bool) :=
  verdicts E self run_timestamp (spawns w0) databases.

(** Lines 239-243. *)
Definition header_events : list event :=
  [Stdout Rule; Stdout (StartingBackup (len databases));
   Stdout (TimestampIs run_timestamp); Stdout (OutputDirectory run_backup_dir);
   Stdout Rule].

(** The world when the loop over the databases is through. *)
Definition after_dumps : world :=
  snd (dump_loop E self databases run_timestamp 0 []
         (World (dirs w0) (files w0) (log w0 ++ header_events)
                (S (clock_reads w0)) (spawns w0))).

(** Archiving was requested, at least one dump succeeded, and the archive
    was written without error. *)
Definition archived : bool :=
  create_zip && (succeeded run_verdicts >? 0)
  && archive_writable E after_dumps run_backup_dir run_zip_path.

(** Where the report says the backup is. *)
Definition final_location : path :=
  if archived then run_zip_path else run_backup_dir.

(** The events of the run. *)
Definition run_events : list event :=
  drop (length (log w0)) (log (snd (backup_databases E self databases create_zip w0))).

End Run.


(** The reading under which a missing utility is not tried again: once run
    [i] finds no executable, the run starts the utility no further time. *)
Definition stops_after_missing_tool (E : env) (self : tool)
    (databases : list pystr) (create_zip : bool) (w0 : world) : Prop :=
  ∀ (i : nat) (db : pystr),
    databases !! i = Some db →
    spawn E (spawns w0 + i) (dump_cmd self (run_timestamp E w0) db) = NoSuchExecutable →
    (length (spawned (run_events E self databases create_zip w0)) <= i + 1)%nat.

(** [p <= q] on paths, component by component. *)
Fixpoint path_leb (p q : path) : bool :=
  match p, q with
  | [], _ => true
  | _ :: _, [] => false
  | a :: p', b :: q' => if bool_decide (a = b) then path_leb p' q' else str_leb a b
  end.

(** Fixtures of the examples: a tool, three database names, and an outside
    whose clock advances one hour per reading and whose dump utility answers
    from a list (and is missing beyond it). Its directory listings come in
    descending order of the names, and a removal that fails in it has
    deleted the files of the databases and left their directories. *)
Definition demo_tool : tool := Tool (lit "mongodb://localhost:27017") [lit "backups"].

Definition demo_databases : list pystr := [lit "app"; lit "logs"; lit "users"].

Definition demo_env (results : list spawn_result) (zip_ok rm_ok : bool) : env :=
  Env (fun k => DateTime 2026 11 4 (9 + Z.of_nat k) 5 7) (fun _ => true)
      (fun k _ => nth k results NoSuchExecutable)
      (fun _ => zip_ok) (fun _ => zip_ok) (fun _ => rm_ok)
      (fun p q => bool_decide (length p + 1 < length q)%nat)
      (fun p q => path_leb q p).

(** ** Further observations on the selector *)

(** The names whose entry of the selection array is true, in list order. *)
Definition chosen (databases : list pystr) (sel : list bool) : list pystr :=
  fst <$> filter (fun x => x.2 = true) (zip databases sel).

(** The selection array matches the list and the cursor is on a row. *)
Definition state_ok (n : nat) (st : menu_state) : Prop :=
  length (selected st) = n ∧ cursor_in_range n st.

(** The draws of one item row (lines 100-115), when the entry of the row in
    the selection array is [on]. *)
Definition row_draws (width current_row scroll_offset idx : Z) (db : pystr)
    (on : bool) : list draw :=
  let checkbox := if on then checkbox_on else checkbox_off in
  let line := checkbox ++ lit " " ++ db in
  let y_pos := start_row + idx in
  if idx + scroll_offset =? current_row then
    [Draw y_pos 2 (py_prefix line (width - 3)) (color_pair 1)]
  else if on then
    [Draw y_pos 2 checkbox (color_pair 2);
     Draw y_pos (2 + len checkbox + 1) db A_NORMAL]
  else
    [Draw y_pos 2 (py_prefix line (width - 3)) A_NORMAL].

(** The draws of the item rows from index [idx] on. *)
Fixpoint rows_draws (width : Z) (sel : list bool) (current_row scroll_offset idx : Z)
    (visible_databases : list pystr) : list draw :=
  match visible_databases with
  | [] => []
  | db :: rest =>
      row_draws width current_row scroll_offset idx db
        (default false (sel !! Z.to_nat (idx + scroll_offset)))
      ++ rows_draws width sel current_row scroll_offset (idx + 1) rest
  end.

(** The part of the list one frame shows (line 96). *)
Definition visible_databases (height : Z) (databases : list pystr)
    (st : menu_state) : list pystr :=
  let off := scroll_offset (len databases) (current_row st) (max_visible height) in
  py_slice databases off (off + max_visible height).

(** All [addstr] calls of one frame, in order, as [render] makes them when
    none raises. *)
Definition frame_draws (height width : Z) (databases : list pystr)
    (st : menu_state) : list draw :=
  [Draw 0 ((width - len title) / 2) title A_BOLD;
   Draw 1 0 (py_prefix instructions (width - 1)) (color_pair 3);
   Draw 2 0 (py_times hrule (width - 1)) A_NORMAL]
  ++ rows_draws width (selected st) (current_row st)
       (scroll_offset (len databases) (current_row st) (max_visible height)) 0
       (visible_databases height databases st)
  ++ [Draw (height - 2) 0 (py_times hrule (width - 1)) A_NORMAL;
      Draw (height - 1) ((width - len (footer (selected st) databases)) / 2)
           (footer (selected st) databases) (color_pair 2)].

(** The terminal accepts the draw. *)
Definition draw_ok (addstr_ok : Z -> Z -> Z -> Z -> pystr -> bool)
    (height width : Z) (d : draw) : bool :=
  addstr_ok height width (draw_y d) (draw_x d) (draw_text d).

(** ** Further observations on the orchestrator *)

(** What [shutil.rmtree(p)] leaves of the entries [l], whether it works or
    fails on the way. *)
Definition after_rmtree (E : env) (p : path) (l : list path) : list path :=
  if rmtree_ok E p then filter (fun q => is_under p q = false) l
  else filter (fun q => rmtree_gone E p q = false) l.


Definition is_file (w : world) (p : path) : bool := bool_decide (p ∈ files w).

(** The entries stored in the archive: file on disk and name in the archive,
    in the order they were written. *)
Definition zip_entries (l : list event) : list (path * path) :=
  omap (fun e => match e with
                 | ZipWrite file_path arcname => Some (file_path, arcname)
                 | _ => None
                 end) l.


(* ===================================================================== *)
(** * Database lister ([get_databases]) and entry point ([main])          *)
(* ===================================================================== *)

(** [sorted(l)] on a list of [str]. The order is total and equal names are the
    same name, so the ascending arrangement is unique and does not depend on
    the sorting algorithm. *)
Definition py_sorted (l : list pystr) : list pystr := merge_sort str_le l.

(** Line 25. *)
Definition system_dbs : list pystr := [lit "admin"; lit "local"; lit "config"].

(** What the calls of lines 30-34 come to: the names the server lists, or one
    of the exceptions the three [except] clauses tell apart, with its text. *)
Inductive server_reply :=
| Names (names : list pystr)
| ConnectionFailure (text : pystr)
| OperationFailure (text : pystr)
| OtherFailure (text : pystr).

(** What [get_databases] and [main] print themselves, one constructor per
    [print] call. *)
Inductive main_message :=
| ConnectFailed (text : pystr)                 (* line 44 *)
| OperationFailed (text : pystr)               (* line 47 *)
| PlainError (text : pystr)                    (* line 50 *)
| NoDatabasesFound                             (* line 348 *)
| AvailableDatabases (count : Z)               (* line 353 *)
| Bullet (database : pystr)                    (* line 355 *)
| DatabasesNotFound (invalid : list pystr)     (* line 365 *)
| AvailableList (databases : list pystr)       (* line 366 *)
| InteractiveError (e : exn)                   (* line 373 *)
| BackupCancelled.                             (* line 377 *)

Inductive printed :=
| Out (m : main_message)
| Err (m : main_message).

(** A value, or [sys.exit(code)]. *)
Inductive exit_or (A : Type) :=
| Value (a : A)
| SysExit (code : Z).
Arguments Value {A} a.
Arguments SysExit {A} code.

(** Lines 27-51. *)
Definition get_databases (exclude_system_dbs : bool) (reply : server_reply)
    : list printed * exit_or (list pystr) :=
  match reply with
  | Names databases =>
      let databases :=
        if exclude_system_dbs
        then filter (fun db => db ∉ system_dbs) databases
        else databases in
      ([], Value (py_sorted databases))
  | ConnectionFailure e => ([Err (ConnectFailed e)], SysExit 1)
  | OperationFailure e => ([Err (OperationFailed e)], SysExit 1)
  | OtherFailure e => ([Err (PlainError e)], SysExit 1)
  end.

(** The parsed command line (lines 304-335). *)
Record cli_args := Args {
  args_url : pystr;
  args_databases : option (list pystr);
  args_output : path;
  args_all : bool;
  args_list : bool;
  args_zip : bool
}.

(** How [main] ends: it returns, it leaves through [sys.exit], or it is
    blocked in the selector waiting for a key. *)
Inductive main_end :=
| MainReturns
| MainExits (code : Z)
| MainAwaitsKey.

(** Lines 381: the call of [backup_databases], an exception of which leaves
    [main]. *)
Definition main_backup (E : env) (self : tool) (selected_databases : list pystr)
    (create_zip : bool) (w : world) : list printed * result main_end * world :=
  match backup_databases E self selected_databases create_zip w with
  | (Ok _, w') => ([], Ok MainReturns, w')
  | (Raise e, w') => ([], Raise e, w')
  end.

(** Lines 284-381. The result is what [main] printed itself (all of it comes
    before the backup starts), how it ended, and the world it leaves. *)
Definition main (addstr_ok : Z -> Z -> Z -> Z -> pystr -> bool) (E : env)
    (args : cli_args) (reply : server_reply) (frames : list frame_input)
    (w : world) : list printed * result main_end * world :=
  let self := Tool (args_url args) (args_output args) in
  match get_databases (negb (args_all args)) reply with
  | (out, SysExit code) => (out, Ok (MainExits code), w)
  | (out, Value databases) =>
      match databases with
      | [] => (out ++ [Out NoDatabasesFound], Ok (MainExits 0), w)
      | _ =>
          if args_list args then
            (out ++ (Out (AvailableDatabases (len databases))
                     :: ((fun db => Out (Bullet db)) <$> databases)),
             Ok (MainExits 0), w)
          else
            match args_databases args with
            | Some ((_ :: _) as selected_databases) =>
                let invalid_dbs :=
                  filter (fun db => db ∉ databases) selected_databases in
                match invalid_dbs with
                | [] => main_backup E self selected_databases (args_zip args) w
                | _ =>
                    (out ++ [Err (DatabasesNotFound invalid_dbs);
                             Out (AvailableList databases)],
                     Ok (MainExits 1), w)
                end
            | _ =>
                match checkbox_menu addstr_ok databases frames with
                | Raised e => (out ++ [Err (InteractiveError e)], Ok (MainExits 1), w)
                | Waiting _ => (out, Ok MainAwaitsKey, w)
                | Returned None => (out ++ [Out BackupCancelled], Ok (MainExits 0), w)
                | Returned (Some selected_databases) =>
                    main_backup E self selected_databases (args_zip args) w
                end
            end
      end
  end.

(* ===================================================================== *)
(** * Properties of the checkbox selector                                 *)
(* ===================================================================== *)

Lemma py_norm_index_lt n i k : py_norm_index n i = Some k → (k < n)%nat.
Proof.
  unfold py_norm_index. intros H.
  destruct ((0 <=? i) && (i <? Z.of_nat n)) eqn:E1.
  - injection H as <-. apply andb_true_iff in E1 as [?%Z.leb_le ?%Z.ltb_lt]. lia.
  - destruct ((- Z.of_nat n <=? i) && (i <? 0)) eqn:E2; [|discriminate].
    injection H as <-. apply andb_true_iff in E2 as [?%Z.leb_le ?%Z.ltb_lt]. lia.
Qed.

Lemma py_norm_index_valid n i :
  - Z.of_nat n <= i < Z.of_nat n → ∃ k, py_norm_index n i = Some k ∧ (k < n)%nat.
Proof.
  intros H. unfold py_norm_index.
  destruct (Z.leb_spec 0 i); destruct (Z.ltb_spec i (Z.of_nat n)); simpl;
    try (eexists; split; [reflexivity | lia]); try lia.
  destruct (Z.leb_spec (- Z.of_nat n) i); destruct (Z.ltb_spec i 0); simpl;
    try (eexists; split; [reflexivity | lia]); lia.
Qed.

Lemma py_getitem_nat {A} (l : list A) (k : nat) a :
  l !! k = Some a → py_getitem l (Z.of_nat k) = Ok a.
Proof.
  intros H. pose proof (lookup_lt_Some _ _ _ H) as Hk.
  unfold py_getitem, py_norm_index.
  destruct (Z.leb_spec 0 (Z.of_nat k)); [|lia].
  destruct (Z.ltb_spec (Z.of_nat k) (Z.of_nat (length l))); [|lia].
  simpl. rewrite Nat2Z.id, H. reflexivity.
Qed.

(** The comprehension of line 148 on a uniform selection. *)
Lemma selected_dbs_replicate (b : bool) (databases : list pystr) (idx n : nat) :
  (idx + length databases <= n)%nat →
  selected_dbs (replicate n b) (Z.of_nat idx) databases
  = Ok (if b then databases else []).
Proof.
  revert idx. induction databases as [|db rest IH]; intros idx Hn; simpl in *.
  - destruct b; reflexivity.
  - rewrite (py_getitem_nat _ idx b) by (apply lookup_replicate_2; lia).
    simpl. replace (Z.of_nat idx + 1) with (Z.of_nat (S idx)) by lia.
    rewrite IH by lia. destruct b; reflexivity.
Qed.

Lemma selected_dbs_uniform (b : bool) (databases : list pystr) :
  selected_dbs (replicate (length databases) b) 0 databases
  = Ok (if b then databases else []).
Proof. apply (selected_dbs_replicate b databases 0). lia. Qed.

Lemma all_false_replicate (sel : list bool) :
  true ∉ sel → sel = replicate (length sel) false.
Proof.
  induction sel as [|b sel IH]; intros H; [reflexivity|].
  simpl. destruct b.
  - exfalso. apply H. left.
  - f_equal. apply IH. intros Hin. apply H. right. exact Hin.
Qed.

Lemma handle_key_select_none databases st mv key :
  key = ord "n" ∨ key = ord "N" →
  handle_key databases st mv key
  = Ok (Continue (MenuState (replicate (length databases) false) (current_row st))).
Proof. intros [-> | ->]; reflexivity. Qed.

Lemma handle_key_select_all databases st mv key :
  key = ord "a" ∨ key = ord "A" →
  handle_key databases st mv key
  = Ok (Continue (MenuState (replicate (length databases) true) (current_row st))).
Proof. intros [-> | ->]; reflexivity. Qed.

Lemma handle_key_confirm databases st mv key :
  key = 10 ∨ key = KEY_ENTER ∨ key = 13 →
  handle_key databases st mv key
  = dbs ← selected_dbs (selected st) 0 databases;
    mret (Return (match dbs with [] => None | _ => Some dbs end)).
Proof. intros [-> | [-> | ->]]; reflexivity. Qed.

Lemma menu_loop_step addstr_ok databases st f rest key :
  renders addstr_ok f databases st = true →
  keypress f = Key key →
  menu_loop addstr_ok databases st (f :: rest)
  = match handle_key databases st (max_visible (term_height f)) key with
    | Raise e => Raised e
    | Ok (Return r) => Returned r
    | Ok (Continue st') => menu_loop addstr_ok databases st' rest
    end.
Proof.
  unfold renders. intros Hr Hk. simpl.
  destruct (render _ _ _ _ _); [|discriminate]. rewrite Hk. reflexivity.
Qed.

(** C6: select-none followed by confirm returns Cancelled ([None]), and so
    does confirm alone whenever no entry of the selection array is true;
    both provided the frames involved are drawn without error. *)
Theorem select_none_then_confirm_cancels
    (addstr_ok : Z -> Z -> Z -> Z -> pystr -> bool)
    (databases : list pystr) (f2 : frame_input) (key_confirm : Z) :
  key_confirm = 10 ∨ key_confirm = KEY_ENTER ∨ key_confirm = 13 →
  keypress f2 = Key key_confirm →
  (∀ (st : menu_state) (f1 : frame_input) (key_none : Z),
      key_none = ord "n" ∨ key_none = ord "N" →
      keypress f1 = Key key_none →
      renders addstr_ok f1 databases st = true →
      renders addstr_ok f2 databases
        (MenuState (replicate (length databases) false) (current_row st)) = true →
      menu_loop addstr_ok databases st [f1; f2] = Returned None)
  ∧
  (∀ st : menu_state,
      length (selected st) = length databases →
      true ∉ selected st →
      renders addstr_ok f2 databases st = true →
      menu_loop addstr_ok databases st [f2] = Returned None).
Proof.
  intros Hc Hk2.
  assert (Hfalse : ∀ cur, renders addstr_ok f2 databases
                     (MenuState (replicate (length databases) false) cur) = true →
            menu_loop addstr_ok databases
              (MenuState (replicate (length databases) false) cur) [f2]
            = Returned None).
  { intros cur Hr. rewrite (menu_loop_step _ _ _ _ _ _ Hr Hk2).
    rewrite handle_key_confirm by exact Hc. simpl selected.
    rewrite selected_dbs_uniform.
    reflexivity. }
  split.
  - intros st f1 kn Hn Hk1 Hr1 Hr2.
    rewrite (menu_loop_step _ _ _ _ _ _ Hr1 Hk1).
    rewrite handle_key_select_none by exact Hn. apply Hfalse, Hr2.
  - intros [sel cur] Hlen Hnone Hr. simpl in *.
    rewrite (all_false_replicate sel Hnone), Hlen in Hr |- *.
    apply Hfalse, Hr.
Qed.

(** C7: from any selection state, select-all followed by confirm returns
    exactly the input names in their input order, provided both frames are
    drawn without error. *)
Theorem select_all_then_confirm_returns_all
    (addstr_ok : Z -> Z -> Z -> Z -> pystr -> bool)
    (databases : list pystr) (st : menu_state) (f1 f2 : frame_input)
    (key_all key_confirm : Z) :
  (1 <= length databases)%nat →
  key_all = ord "a" ∨ key_all = ord "A" →
  key_confirm = 10 ∨ key_confirm = KEY_ENTER ∨ key_confirm = 13 →
  keypress f1 = Key key_all →
  keypress f2 = Key key_confirm →
  renders addstr_ok f1 databases st = true →
  renders addstr_ok f2 databases
    (MenuState (replicate (length databases) true) (current_row st)) = true →
  menu_loop addstr_ok databases st [f1; f2] = Returned (Some databases).
Proof.
  intros Hn Ha Hc Hk1 Hk2 Hr1 Hr2.
  rewrite (menu_loop_step _ _ _ _ _ _ Hr1 Hk1).
  rewrite handle_key_select_all by exact Ha.
  rewrite (menu_loop_step _ _ _ _ _ _ Hr2 Hk2).
  rewrite handle_key_confirm by exact Hc. simpl selected.
  rewrite selected_dbs_uniform.
  destruct databases; [simpl in Hn; lia | reflexivity].
Qed.

Lemma select_none_then_confirm_cancels_witness :
  let databases := [lit "app"; lit "logs"; lit "users"] in
  menu_loop ncurses_addstr_ok databases (MenuState [true; false; true] 1)
    [Frame 24 120 (Key (ord "n")); Frame 24 120 (Key 10)] = Returned None
  ∧ menu_loop ncurses_addstr_ok databases (MenuState [false; false; false] 2)
      [Frame 24 120 (Key 10)] = Returned None.
Proof.
  intros databases.
  destruct (select_none_then_confirm_cancels ncurses_addstr_ok databases
              (Frame 24 120 (Key 10)) 10 (or_introl eq_refl) eq_refl) as [H1 H2].
  split.
  - apply (H1 (MenuState [true; false; true] 1) (Frame 24 120 (Key (ord "n"))) (ord "n")).
    + left; reflexivity.
    + reflexivity.
    + vm_compute; reflexivity.
    + vm_compute; reflexivity.
  - apply (H2 (MenuState [false; false; false] 2)).
    + reflexivity.
    + simpl. intros H. repeat (apply elem_of_cons in H as [H | H]; [discriminate|]).
      apply elem_of_nil in H. exact H.
    + vm_compute; reflexivity.
Defined.

Lemma select_all_then_confirm_returns_all_witness :
  let databases := [lit "app"; lit "logs"; lit "users"] in
  menu_loop ncurses_addstr_ok databases (MenuState [false; true; false] 2)
    [Frame 24 120 (Key (ord "a")); Frame 24 120 (Key 13)]
  = Returned (Some databases).
Proof.
  intros databases.
  apply (select_all_then_confirm_returns_all ncurses_addstr_ok databases
           (MenuState [false; true; false] 2)
           (Frame 24 120 (Key (ord "a"))) (Frame 24 120 (Key 13)) (ord "a") 13).
  - simpl; lia.
  - left; reflexivity.
  - right; right; reflexivity.
  - reflexivity.
  - reflexivity.
  - vm_compute; reflexivity.
  - vm_compute; reflexivity.
Defined.

Lemma handle_key_toggle databases st mv :
  handle_key databases st mv (ord " ")
  = on ← py_getitem (selected st) (current_row st);
    sel ← py_setitem (selected st) (current_row st) (negb on);
    mret (Continue (MenuState sel (current_row st))).
Proof. reflexivity. Qed.

(** C9: two toggles at the same cursor position give back the selection
    state they started from. The position may be any index Python accepts,
    the cursor positions [0 .. N-1] among them. *)
Theorem toggle_twice_is_identity
    (databases : list pystr) (sel : list bool) (i mv1 mv2 : Z) :
  - len sel <= i < len sel →
  ∃ sel' : list bool,
    handle_key databases (MenuState sel i) mv1 (ord " ")
    = Ok (Continue (MenuState sel' i))
    ∧ handle_key databases (MenuState sel' i) mv2 (ord " ")
      = Ok (Continue (MenuState sel i)).
Proof.
  intros Hi. unfold len in Hi.
  destruct (py_norm_index_valid _ _ Hi) as (k & Hk & Hlt).
  destruct (lookup_lt_is_Some_2 sel k Hlt) as [b Hb].
  exists (<[k := negb b]> sel). rewrite !handle_key_toggle. simpl.
  unfold py_getitem, py_setitem. rewrite length_insert, Hk, Hb. simpl. split.
  - reflexivity.
  - rewrite list_lookup_insert_eq by exact Hlt. simpl.
    rewrite list_insert_insert_eq, negb_involutive, list_insert_id by exact Hb.
    reflexivity.
Qed.

Lemma toggle_twice_is_identity_witness :
  - len [true; false; true] <= 1 < len [true; false; true]
  ∧ ∃ sel' : list bool,
      handle_key [lit "app"; lit "logs"; lit "users"]
        (MenuState [true; false; true] 1) 17 (ord " ")
      = Ok (Continue (MenuState sel' 1))
      ∧ handle_key [lit "app"; lit "logs"; lit "users"]
          (MenuState sel' 1) 17 (ord " ")
        = Ok (Continue (MenuState [true; false; true] 1)).
Proof.
  split.
  - vm_compute. split; [discriminate | reflexivity].
  - apply (toggle_twice_is_identity _ [true; false; true] 1 17 17).
    vm_compute. split; [discriminate | reflexivity].
Defined.

(** At the edge of what Python accepts: outside [-N .. N-1] the toggle raises
    [IndexError] and the loop ends with it. *)
Lemma toggle_out_of_range databases sel i mv :
  i < - len sel ∨ len sel <= i →
  handle_key databases (MenuState sel i) mv (ord " ") = Raise IndexError.
Proof.
  intros Hi. rewrite handle_key_toggle. simpl. unfold py_getitem, py_norm_index, len in *.
  destruct (Z.leb_spec 0 i); destruct (Z.ltb_spec i (Z.of_nat (length sel)));
    destruct (Z.leb_spec (- Z.of_nat (length sel)) i); destruct (Z.ltb_spec i 0);
    simpl; try reflexivity; lia.
Qed.

(** On a terminal of seven lines or more the page size is not negative, and
    then no key moves the cursor off the list. *)
Lemma handle_key_keeps_cursor databases st mv key st' :
  (1 <= length databases)%nat →
  0 <= mv →
  cursor_in_range (length databases) st →
  handle_key databases st mv key = Ok (Continue st') →
  cursor_in_range (length databases) st'.
Proof.
  unfold cursor_in_range, handle_key, len. intros Hn Hmv Hc.
  repeat match goal with
         | |- context [if key_in ?k ?l then _ else _] => destruct (key_in k l)
         end; try discriminate.
  - destruct (py_getitem _ _); simpl; [|discriminate].
    destruct (py_setitem _ _ _); simpl; [|discriminate].
    intros [= <-]. simpl. lia.
  - intros [= <-]. simpl. lia.
  - intros [= <-]. simpl. lia.
  - intros [= <-]. simpl. lia.
  - intros [= <-]. simpl. lia.
  - intros [= <-]. simpl. lia.
  - intros [= <-]. simpl. lia.
  - destruct (selected_dbs _ _ _); simpl; discriminate.
  - intros [= <-]. lia.
Qed.

Lemma menu_states_keep_cursor addstr_ok databases frames :
  (1 <= length databases)%nat →
  Forall (fun f => 7 <= term_height f) frames →
  ∀ st, cursor_in_range (length databases) st →
  Forall (cursor_in_range (length databases))
         (menu_states addstr_ok databases st frames).
Proof.
  intros Hn Hh. induction Hh as [|f rest Hf _ IH]; intros st Hst; simpl.
  - constructor.
  - destruct (render _ _ _ _ _); [|constructor].
    destruct (keypress f) as [key|]; [|constructor].
    destruct (handle_key _ _ _ _) as [[st'|]|] eqn:Hk; try constructor.
    + eapply handle_key_keeps_cursor; [exact Hn | | exact Hst | exact Hk].
      unfold max_visible, start_row. lia.
    + apply IH. eapply handle_key_keeps_cursor; [exact Hn | | exact Hst | exact Hk].
      unfold max_visible, start_row. lia.
Qed.

(** When the loop is left waiting for a key, it waits in the last of the
    states it passed through. *)
Lemma menu_loop_waits_in_last_state addstr_ok databases frames :
  ∀ st st',
    menu_loop addstr_ok databases st frames = Waiting st' →
    last (st :: menu_states addstr_ok databases st frames) = Some st'.
Proof.
  induction frames as [|f rest IH]; intros st st' H; simpl in *.
  - injection H as ->. reflexivity.
  - destruct (render _ _ _ _ _); [|discriminate].
    destruct (keypress f) as [key|]; [|discriminate].
    destruct (handle_key _ _ _ _) as [[st1|]|]; try discriminate.
    rewrite <- (IH st1 st' H). reflexivity.
Qed.

(** C4: on a terminal five lines high the page size [height - 7] is -2, and
    page-down from the first row of a one-entry list leaves the cursor at -2,
    outside [0, N-1]; page-up leaves it at 2. Every frame is drawn without
    error on the way. *)
Theorem page_keys_leave_range_on_short_terminal :
  let databases := [lit "inventory"] in
  checkbox_menu ncurses_addstr_ok databases [Frame 5 120 (Key KEY_NPAGE)]
  = Waiting (MenuState [true] (-2))
  ∧ menu_states ncurses_addstr_ok databases (initial_state databases)
      [Frame 5 120 (Key KEY_NPAGE)] = [MenuState [true] (-2)]
  ∧ ¬ cursor_in_range (length databases) (MenuState [true] (-2))
  ∧ menu_states ncurses_addstr_ok databases (initial_state databases)
      [Frame 5 120 (Key KEY_PPAGE)] = [MenuState [true] 2]
  ∧ ¬ cursor_in_range (length databases) (MenuState [true] 2)
  ∧ checkbox_menu ncurses_addstr_ok databases
      [Frame 5 120 (Key KEY_NPAGE); Frame 5 120 (Key (ord " "))]
    = Raised IndexError.
Proof.
  intros databases. repeat split.
  - unfold cursor_in_range. simpl. lia.
  - unfold cursor_in_range. simpl. lia.
Qed.

(** C5: on a terminal 20 columns wide the header is passed to [addstr] whole
    (33 characters) at column -7, and [checkbox_menu] ends with
    [curses.error]; on a terminal 40 columns wide the name of a selected row
    that is not the cursor row is passed whole and runs past the right edge,
    while the cursor row path cuts the same line to the width. *)
Theorem narrow_terminal_lines_not_truncated :
  let permissive := fun (_ _ _ _ : Z) (_ : pystr) => true in
  let databases := [lit "app"; lit "customer_analytics_events_archive_2024_eu"] in
  (∃ rest, render permissive 24 20 databases (initial_state databases)
           = Ok (Draw 0 (-7) title A_BOLD :: rest))
  ∧ len title = 33
  ∧ checkbox_menu ncurses_addstr_ok databases [Frame 24 20 (Key 10)]
    = Raised CursesError
  ∧ (∃ ds, render ncurses_addstr_ok 24 40 databases (initial_state databases) = Ok ds
           ∧ Draw 5 6 (lit "customer_analytics_events_archive_2024_eu") A_NORMAL ∈ ds
           ∧ existsb (wraps 40) ds = true)
  ∧ (∃ ds, render ncurses_addstr_ok 24 40 databases (MenuState [true; true] 1) = Ok ds
           ∧ existsb (wraps 40) ds = false).
Proof.
  intros permissive databases. repeat split.
  - eexists. vm_compute. reflexivity.
  - eexists. split; [vm_compute; reflexivity|]. split; [|reflexivity].
    do 5 apply list_elem_of_further. apply list_elem_of_here.
  - eexists. split; [vm_compute; reflexivity|]. reflexivity.
Qed.

(* ===================================================================== *)
(** * Properties of the file name generator                               *)
(* ===================================================================== *)

(** A property checked on every number of a range holds on the range. *)
Lemma Z_range_ind (P : Z → Prop) `{∀ n, Decision (P n)} (lo cnt : Z) :
  bool_decide (Forall P (seqZ lo cnt)) = true →
  ∀ n, lo <= n < lo + cnt → P n.
Proof.
  intros Hall n Hn. apply bool_decide_eq_true_1 in Hall.
  rewrite Forall_forall in Hall. apply Hall, elem_of_seqZ. exact Hn.
Qed.

Lemma format_02d_two_digits n :
  0 <= n <= 99 → format_02d n = spec_two_digits n.
Proof.
  intros Hn.
  apply (Z_range_ind (fun n => format_02d n = spec_two_digits n) 0 100);
    [vm_compute; reflexivity | lia].
Qed.

Lemma month_name_lowercase month :
  1 <= month <= 12 → py_lower (strftime_B month) = spec_month_name_lowercase month.
Proof.
  intros Hm.
  apply (Z_range_ind
           (fun m => py_lower (strftime_B m) = spec_month_name_lowercase m) 1 12);
    [vm_compute; reflexivity | lia].
Qed.

Lemma hour_12_and_period hour :
  0 <= hour <= 23 →
  (if hour =? 0 then (12, lit "am")
   else if hour <? 12 then (hour, lit "am")
   else if hour =? 12 then (12, lit "pm")
   else (hour - 12, lit "pm"))
  = (spec_hour_12 hour, spec_period hour).
Proof.
  intros Hh. unfold spec_hour_12, spec_period.
  destruct (Z.eqb_spec hour 0) as [-> | H0]; [reflexivity|].
  destruct (Z.ltb_spec hour 12) as [Hlt | Hge].
  - destruct (Z.eqb_spec hour 12); [lia|]. rewrite Z.mod_small by lia. reflexivity.
  - destruct (Z.eqb_spec hour 12) as [-> | H12]; [reflexivity|].
    f_equal. replace hour with (hour - 12 + 1 * 12) at 2 by lia.
    rewrite Z.mod_add by lia. rewrite Z.mod_small by lia. reflexivity.
Qed.

(** The file name does not look at the seconds. *)
Lemma filename_ignores_seconds y m d h mi s1 s2 :
  human_readable_filename (DateTime y m d h mi s1)
  = human_readable_filename (DateTime y m d h mi s2).
Proof. reflexivity. Qed.

(** C8: the generated name is the specified function of month, day, year,
    hour and minute of the clock reading: lower-case month name, day, year,
    12-hour clock hour (0 and 12 give 12, the others their value modulo 12,
    which is 1..11), two-digit minute, am below hour 12 and pm from it on. *)
Theorem filename_follows_specification (E : env) (w : world) :
  let now := clock E (clock_reads w) in
  1 <= dt_month now <= 12 →
  0 <= dt_hour now <= 23 →
  0 <= dt_minute now <= 59 →
  fst (generate_human_readable_filename E w)
  = Ok (spec_filename (dt_month now) (dt_day now) (dt_year now)
                      (dt_hour now) (dt_minute now))
  ∧ 1 <= spec_hour_12 (dt_hour now) <= 12
  ∧ (dt_hour now ≠ 0 → dt_hour now ≠ 12 →
     spec_hour_12 (dt_hour now) = dt_hour now mod 12
     ∧ 1 <= dt_hour now mod 12 <= 11)
  ∧ length (format_02d (dt_minute now)) = 2%nat.
Proof.
  intros now Hm Hh Hmi.
  assert (Hmod : dt_hour now ≠ 0 → dt_hour now ≠ 12 → 1 <= dt_hour now mod 12 <= 11).
  { intros H0 H12. pose proof (Z.mod_pos_bound (dt_hour now) 12 ltac:(lia)) as Hb.
    assert (dt_hour now mod 12 ≠ 0); [|lia].
    intros Hz. apply Z.mod_divide in Hz; [|lia]. destruct Hz as [q Hq]. lia. }
  assert (Hspec : dt_hour now ≠ 0 → dt_hour now ≠ 12 →
                  spec_hour_12 (dt_hour now) = dt_hour now mod 12).
  { intros H0 H12. unfold spec_hour_12.
    destruct (Z.eqb_spec (dt_hour now) 0); [contradiction|].
    destruct (Z.eqb_spec (dt_hour now) 12); [contradiction|]. reflexivity. }
  split; [|split; [|split]].
  - unfold generate_human_readable_filename. simpl. fold now. f_equal.
    unfold human_readable_filename, spec_filename.
    rewrite hour_12_and_period, month_name_lowercase, format_02d_two_digits
      by lia. reflexivity.
  - destruct (Z.eq_dec (dt_hour now) 0) as [-> | H0]; [vm_compute; split; discriminate|].
    destruct (Z.eq_dec (dt_hour now) 12) as [-> | H12]; [vm_compute; split; discriminate|].
    rewrite Hspec by assumption. specialize (Hmod H0 H12). lia.
  - intros H0 H12. split; [apply Hspec | apply Hmod]; assumption.
  - rewrite format_02d_two_digits by lia. reflexivity.
Qed.

Lemma filename_follows_specification_witness :
  let E := Env (fun _ => DateTime 2026 11 4 13 5 59) (fun _ => true)
               (fun _ _ => NoSuchExecutable) (fun _ => true) (fun _ => true)
               (fun _ => true) (fun _ _ => false) (fun _ _ => true) in
  fst (generate_human_readable_filename E (World [] [] [] 0 0))
  = Ok (lit "november_4_2026_1_05_pm.zip").
Proof.
  intros E.
  destruct (filename_follows_specification E (World [] [] [] 0 0)) as [H _].
  - simpl; lia.
  - simpl; lia.
  - simpl; lia.
  - exact H.
Defined.

(** The four cases the specification lists. *)
Example filename_midnight :
  human_readable_filename (DateTime 2026 11 4 0 30 0) = lit "november_4_2026_12_30_am.zip".
Proof. reflexivity. Qed.

Example filename_one_pm :
  human_readable_filename (DateTime 2026 11 4 13 30 0) = lit "november_4_2026_1_30_pm.zip".
Proof. reflexivity. Qed.

Example filename_noon :
  human_readable_filename (DateTime 2026 11 4 12 30 0) = lit "november_4_2026_12_30_pm.zip".
Proof. reflexivity. Qed.

Example filename_minute_five :
  human_readable_filename (DateTime 2026 1 31 9 5 0) = lit "january_31_2026_9_05_am.zip".
Proof. reflexivity. Qed.

(* ===================================================================== *)
(** * Properties of the backup orchestrator                               *)
(* ===================================================================== *)

Ltac run_M :=
  unfold print, eprint, emit, modify, gets, raise, try_except;
  unfold mbind, M_bind, mret, M_ret; simpl.

Lemma elem_of_add_path (l : list path) (p q : path) :
  q ∈ add_path l p ↔ q ∈ l ∨ q = p.
Proof.
  unfold add_path. case_bool_decide as Hin.
  - split; [auto|]. intros [? | ->]; assumption.
  - rewrite elem_of_app, list_elem_of_singleton. reflexivity.
Qed.

Lemma elem_of_foldl_add_path (ps l : list path) (q : path) :
  q ∈ foldl add_path l ps ↔ q ∈ l ∨ q ∈ ps.
Proof.
  revert l. induction ps as [|p ps IH]; intros l; simpl.
  - rewrite elem_of_nil. tauto.
  - rewrite IH, elem_of_add_path, elem_of_cons. tauto.
Qed.

Lemma ancestors_take (p : path) (k : nat) :
  (1 <= k <= length p)%nat → take k p ∈ ancestors p.
Proof.
  intros Hk. unfold ancestors. apply list_elem_of_fmap. exists k. split; [reflexivity|].
  apply elem_of_seq. lia.
Qed.

Lemma forallb_Permutation {A} (f : A → bool) (l1 l2 : list A) :
  l1 ≡ₚ l2 → forallb f l1 = forallb f l2.
Proof.
  induction 1 as [|x l1 l2 _ IH|x y l|l1 l2 l3 _ IH1 _ IH2]; simpl.
  - reflexivity.
  - rewrite IH. reflexivity.
  - destruct (f x), (f y); reflexivity.
  - congruence.
Qed.

(** [os.walk] finds every file below [top], each once. *)
Lemma walk_Permutation (E : env) (w : world) (top : path) :
  walk E w top ≡ₚ filter (fun p => is_under top p = true) (files w).
Proof. unfold walk. apply merge_sort_Permutation. Qed.

Section OrchestratorFacts.

Context (E : env) (self : tool).

(** One attempt, when the directory can be made and the utility either
    runs, with output that is decoded, or is missing. *)
Lemma run_mongodump_spec (db timestamp : pystr) (w : world) :
  makedirs_ok E (output_dir self ++ [timestamp; db]) = true →
  handled (spawn E (spawns w) (dump_cmd self timestamp db)) = true →
  ∃ w',
    run_mongodump E self db timestamp w
    = (Ok (exits_zero E (spawns w) (dump_cmd self timestamp db)), w')
    ∧ log w' = log w ++ attempt_events E self timestamp (spawns w) db
    ∧ spawns w' = S (spawns w)
    ∧ clock_reads w' = clock_reads w
    ∧ dirs w' = foldl add_path (dirs w) (ancestors (output_dir self ++ [timestamp; db]))
    ∧ (∀ p, p ∈ files w → p ∈ files w').
Proof.
  intros Hmk Hsp. unfold run_mongodump, os_makedirs, subprocess_run, exits_zero,
    attempt_events. fold (dump_cmd self timestamp db). run_M. rewrite Hmk. simpl.
  destruct (spawn E (spawns w) (dump_cmd self timestamp db))
    as [rc err written | | | ]; [|discriminate| |discriminate]; simpl.
  - destruct (rc =? 0); simpl; eexists; (split; [reflexivity|]); simpl;
      rewrite <- ?app_assoc; simpl; repeat split; try reflexivity;
      intros p Hp; apply elem_of_foldl_add_path; left; exact Hp.
  - eexists; (split; [reflexivity|]); simpl;
      rewrite <- ?app_assoc; simpl; repeat split; try reflexivity; auto.
Qed.

Lemma succeeded_cons (db : pystr) (b : bool) (v : list (pystr * bool)) :
  succeeded ((db, b) :: v) = (if b then 1 else 0) + succeeded v.
Proof.
  unfold succeeded, len. rewrite filter_cons. simpl.
  destruct b; case_decide; try congruence; simpl length; lia.
Qed.

Lemma failed_names_cons (db : pystr) (b : bool) (v : list (pystr * bool)) :
  failed_names ((db, b) :: v) = (if b then [] else [db]) ++ failed_names v.
Proof.
  unfold failed_names. rewrite filter_cons. simpl.
  destruct b; case_decide; try congruence; reflexivity.
Qed.

(** The loop of lines 248-252: every database is attempted, each judged by
    its own run of the utility. *)
Lemma dump_loop_spec (timestamp : pystr) (databases : list pystr) :
  cooperative E →
  ∀ (success_count : Z) (failed_dbs : list pystr) (w : world),
  ∃ w',
    dump_loop E self databases timestamp success_count failed_dbs w
    = (Ok (success_count + succeeded (verdicts E self timestamp (spawns w) databases),
           failed_dbs ++ failed_names (verdicts E self timestamp (spawns w) databases)),
       w')
    ∧ log w' = log w ++ attempts_events E self timestamp (spawns w) databases
    ∧ spawns w' = (spawns w + length databases)%nat
    ∧ clock_reads w' = clock_reads w
    ∧ (∀ p, p ∈ dirs w → p ∈ dirs w')
    ∧ (∀ p, p ∈ files w → p ∈ files w')
    ∧ (∀ db, db ∈ databases →
         output_dir self ++ [timestamp] ∈ dirs w'
         ∧ output_dir self ++ [timestamp; db] ∈ dirs w').
Proof.
  intros [Hmk Hsp]. induction databases as [|db rest IH]; intros sc failed w.
  - exists w. simpl. rewrite Z.add_0_r, !app_nil_r, Nat.add_0_r.
    repeat split; auto; exfalso; eapply elem_of_nil; eassumption.
  - destruct (run_mongodump_spec db timestamp w (Hmk _) (Hsp _ _))
      as (w1 & Hrun & Hlog1 & Hsp1 & Hck1 & Hdirs1 & Hfiles1).
    simpl dump_loop. unfold mbind, M_bind. rewrite Hrun.
    set (b := exits_zero E (spawns w) (dump_cmd self timestamp db)).
    destruct (IH (if b then sc + 1 else sc) (if b then failed else failed ++ [db]) w1)
      as (w' & Hloop & Hlog & Hsp' & Hck & Hdirs & Hfiles & Hmade).
    exists w'. simpl verdicts. fold b.
    rewrite succeeded_cons, failed_names_cons. rewrite Hsp1 in *.
    assert (Hd1 : ∀ p, p ∈ dirs w ∨ p ∈ ancestors (output_dir self ++ [timestamp; db])
                       → p ∈ dirs w').
    { intros p Hp. apply Hdirs. rewrite Hdirs1. apply elem_of_foldl_add_path, Hp. }
    split; [|repeat split].
    + destruct b; simpl in Hloop |- *; rewrite Hloop.
      * f_equal. f_equal. f_equal. lia.
      * rewrite <- app_assoc. reflexivity.
    + rewrite Hlog, Hlog1, <- app_assoc. reflexivity.
    + simpl length. lia.
    + congruence.
    + intros p Hp. apply Hd1. left. exact Hp.
    + intros p Hp. apply Hfiles, Hfiles1, Hp.
    + apply Hd1. right.
      replace (output_dir self ++ [timestamp])
        with (take (length (output_dir self) + 1) (output_dir self ++ [timestamp; db])).
      * apply ancestors_take. rewrite length_app. simpl. lia.
      * rewrite take_app_ge by lia.
        replace (length (output_dir self) + 1 - length (output_dir self))%nat
          with 1%nat by lia. reflexivity.
    + apply elem_of_cons in H as [-> | Hin].
      * apply Hd1. right.
        replace (output_dir self ++ [timestamp; db])
          with (take (length (output_dir self ++ [timestamp; db]))
                     (output_dir self ++ [timestamp; db])) at 1
          by apply firstn_all.
        apply ancestors_take. rewrite length_app. simpl. lia.
      * apply (Hmade _ Hin).
Qed.

(** Lines 184-189: the files are stored one after the other until one
    cannot be. Only the log changes. *)
Lemma zip_write_all_spec (source_dir : path) (found : list path) :
  ∀ w, ∃ l,
    zip_write_all E source_dir found w
    = (if forallb (zip_write_ok E) found then Ok tt else Raise OSError,
       World (dirs w) (files w) (log w ++ l) (clock_reads w) (spawns w))
    ∧ spawned l = [] ∧ rmtrees l = [] ∧ stderr_of l = [] ∧ stdout_of l = [].
Proof.
  induction found as [|f rest IH]; intros w.
  - exists []. simpl. rewrite app_nil_r. destruct w; repeat split.
  - simpl. unfold zip_write. run_M. destruct (zip_write_ok E f); simpl.
    + destruct (IH (World (dirs w) (files w)
                          (log w ++ [ZipWrite f (arcname_of source_dir f)])
                          (clock_reads w) (spawns w))) as (l & Hrun & Hq).
      exists (ZipWrite f (arcname_of source_dir f) :: l).
      rewrite Hrun. simpl. rewrite <- app_assoc. split; [reflexivity | exact Hq].
    + exists [ZipWrite f (arcname_of source_dir f)]. repeat split.
Qed.

(** Lines 176-195: the archive path comes back exactly when the archive
    could be written; a failure is reported and nothing else is touched. *)
Lemma create_zip_archive_spec (source_dir : path) (zip_filename : pystr) (w : world) :
  let zip_path := output_dir self ++ [zip_filename] in
  let ok := archive_writable E w source_dir zip_path in
  ∃ l,
    create_zip_archive E self source_dir zip_filename w
    = (Ok (if ok then Some zip_path else None),
       World (dirs w)
             (if zip_open_ok E zip_path then add_path (files w) zip_path else files w)
             (log w ++ l) (clock_reads w) (spawns w))
    ∧ spawned l = [] ∧ rmtrees l = []
    ∧ stderr_of l = (if ok then [] else [ZipError OSError]).
Proof.
  intros zip_path ok. subst ok. unfold archive_writable, create_zip_archive, zip_open.
  fold zip_path. run_M. destruct (zip_open_ok E zip_path); simpl.
  - match goal with
    | |- context [zip_write_all E source_dir ?found ?w1] =>
        destruct (zip_write_all_spec source_dir found w1)
          as (l & Hrun & Hs & Hr & He & Ho); rewrite Hrun; clear Hrun;
        rewrite (forallb_Permutation _ _ _ (walk_Permutation E w1 source_dir))
    end.
    simpl. destruct (forallb _ _); simpl.
    + eexists. rewrite <- !app_assoc. split; [reflexivity|].
      unfold spawned, rmtrees, stderr_of in *. simpl.
      rewrite !omap_app, Hs, Hr, He. repeat split.
    + eexists. rewrite <- !app_assoc. split; [reflexivity|].
      unfold spawned, rmtrees, stderr_of in *. simpl.
      rewrite !omap_app, Hs, Hr, He. repeat split.
  - eexists. rewrite <- !app_assoc. split; [reflexivity|]. repeat split.
Qed.

Lemma after_rmtree_subset (p : path) (l : list path) (q : path) :
  q ∈ after_rmtree E p l → q ∈ l.
Proof.
  unfold after_rmtree. destruct (rmtree_ok E p); intros H;
    apply list_elem_of_filter in H as [_ H]; exact H.
Qed.

Lemma after_rmtree_outside (p : path) (l : list path) (q : path) :
  is_under p q = false → q ∈ l → q ∈ after_rmtree E p l.
Proof.
  intros Hout Hin. unfold after_rmtree. destruct (rmtree_ok E p);
    apply list_elem_of_filter; (split; [|exact Hin]); [exact Hout|].
  unfold rmtree_gone. rewrite Hout. reflexivity.
Qed.



(** Lines 254-268. *)
Lemma archive_step_spec (create_zip : bool) (success_count : Z)
    (backup_dir : path) (w : world) :
  let zip_path :=
    output_dir self ++ [human_readable_filename (clock E (clock_reads w))] in
  let wanted := create_zip && (success_count >? 0) in
  let written := archive_writable E w backup_dir zip_path in
  let files1 := if wanted && zip_open_ok E zip_path
                then add_path (files w) zip_path else files w in
  ∃ l w2,
    archive_step E self create_zip success_count backup_dir w
    = (Ok (if wanted && written then Some zip_path else None), w2)
    ∧ log w2 = log w ++ l
    ∧ spawned l = []
    ∧ rmtrees l = (if wanted && written then [backup_dir] else [])
    ∧ stderr_of l = (if wanted
                     then if written
                          then if rmtree_ok E backup_dir then []
                               else [CleanupWarning OSError]
                          else [ZipError OSError]
                     else [])
    ∧ dirs w2 = (if wanted && written then after_rmtree E backup_dir (dirs w)
                 else dirs w)
    ∧ files w2 = (if wanted && written then after_rmtree E backup_dir files1
                  else files1).
Proof.
  intros zip_path wanted written files1. subst wanted files1.
  unfold archive_step. destruct (create_zip && (success_count >? 0)); simpl.
  2:{ exists [], w. rewrite app_nil_r. repeat split; auto. }
  unfold generate_human_readable_filename, datetime_now. run_M.
  match goal with
  | |- context [create_zip_archive E self backup_dir ?n ?w1] =>
      destruct (create_zip_archive_spec backup_dir n w1)
        as (l & Hrun & Hs & Hr & He); rewrite Hrun; clear Hrun
  end.
  simpl in *. fold zip_path in He |- *.
  change (archive_writable E _ backup_dir zip_path) with written in He |- *.
  assert (Hopen : written = true → zip_open_ok E zip_path = true).
  { unfold written, archive_writable. intros H.
    apply andb_true_iff in H as [H _]. exact H. }
  destruct written; simpl.
  - rewrite (Hopen eq_refl). unfold shutil_rmtree, after_rmtree. run_M.
    destruct (rmtree_ok E backup_dir); simpl.
    + eexists _, _. split; [reflexivity|]. simpl. rewrite <- !app_assoc.
      split; [reflexivity|].
      unfold spawned, rmtrees, stderr_of in *.
      rewrite !omap_app, Hs, Hr, He. simpl. repeat split.
    + eexists _, _. split; [reflexivity|]. simpl. rewrite <- !app_assoc.
      split; [reflexivity|].
      unfold spawned, rmtrees, stderr_of in *.
      rewrite !omap_app, Hs, Hr, He. simpl. repeat split.
  - eexists _, _. split; [reflexivity|]. simpl.
    split; [reflexivity|]. repeat split; assumption.
Qed.

(** Lines 270-281. *)
Lemma print_summary_spec (databases : list pystr) (create_zip : bool)
    (success_count : Z) (failed_dbs : list pystr) (zip_path : option path)
    (backup_dir : path) (w : world) :
  print_summary databases create_zip success_count failed_dbs zip_path backup_dir w
  = (Ok tt,
     World (dirs w) (files w)
           (log w ++ summary_events (len databases) success_count failed_dbs
                       (match create_zip, zip_path with
                        | true, Some zp => zp
                        | _, _ => backup_dir
                        end))
           (clock_reads w) (spawns w)).
Proof.
  unfold print_summary, summary_events.
  destruct failed_dbs, create_zip, zip_path; run_M;
    rewrite <- !app_assoc; reflexivity.
Qed.

(** The world when the loop is through, for an outside that cooperates. *)
Lemma after_dumps_spec (databases : list pystr) (w0 : world) :
  cooperative E →
  dump_loop E self databases (run_timestamp E w0) 0 []
    (World (dirs w0) (files w0) (log w0 ++ header_events E self databases w0)
           (S (clock_reads w0)) (spawns w0))
  = (Ok (succeeded (run_verdicts E self databases w0),
         failed_names (run_verdicts E self databases w0)),
     after_dumps E self databases w0)
  ∧ log (after_dumps E self databases w0)
    = log w0 ++ header_events E self databases w0
      ++ attempts_events E self (run_timestamp E w0) (spawns w0) databases
  ∧ clock_reads (after_dumps E self databases w0) = S (clock_reads w0)
  ∧ (∀ p, p ∈ dirs w0 → p ∈ dirs (after_dumps E self databases w0))
  ∧ (∀ p, p ∈ files w0 → p ∈ files (after_dumps E self databases w0))
  ∧ (∀ db, db ∈ databases →
       run_backup_dir E self w0 ∈ dirs (after_dumps E self databases w0)
       ∧ output_dir self ++ [run_timestamp E w0; db]
         ∈ dirs (after_dumps E self databases w0)).
Proof.
  intros Hco. unfold after_dumps, run_verdicts, run_backup_dir.
  destruct (dump_loop_spec (run_timestamp E w0) databases Hco 0 []
              (World (dirs w0) (files w0) (log w0 ++ header_events E self databases w0)
                     (S (clock_reads w0)) (spawns w0)))
    as (w1 & Hloop & Hlog & _ & Hck & Hdirs & Hfiles & Hmade).
  rewrite Hloop. simpl in *. rewrite Z.add_0_l.
  rewrite Hlog, <- app_assoc. repeat split; auto; apply (Hmade _ H).
Qed.

(** Lines 230-281, for a non-empty list and an outside that cooperates. *)
Lemma backup_databases_spec (databases : list pystr) (create_zip : bool) (w0 : world) :
  databases ≠ [] →
  cooperative E →
  let w1 := after_dumps E self databases w0 in
  let backup_dir := run_backup_dir E self w0 in
  let v := run_verdicts E self databases w0 in
  let zipped := archived E self databases create_zip w0 in
  let files1 := if create_zip && (succeeded v >? 0)
                   && zip_open_ok E (run_zip_path E self w0)
                then add_path (files w1) (run_zip_path E self w0) else files w1 in
  ∃ w' l_arch,
    backup_databases E self databases create_zip w0 = (Ok tt, w')
    ∧ log w' = log w0 ++ header_events E self databases w0
               ++ attempts_events E self (run_timestamp E w0) (spawns w0) databases
               ++ l_arch
               ++ summary_events (len databases) (succeeded v) (failed_names v)
                    (final_location E self databases create_zip w0)
    ∧ spawned l_arch = []
    ∧ rmtrees l_arch = (if zipped then [backup_dir] else [])
    ∧ stderr_of l_arch
      = (if create_zip && (succeeded v >? 0)
         then if archive_writable E w1 backup_dir (run_zip_path E self w0)
              then if rmtree_ok E backup_dir then [] else [CleanupWarning OSError]
              else [ZipError OSError]
         else [])
    ∧ dirs w' = (if zipped then after_rmtree E backup_dir (dirs w1) else dirs w1)
    ∧ files w' = (if zipped then after_rmtree E backup_dir files1 else files1).
Proof.
  intros Hne Hco w1 backup_dir v zipped files1.
  destruct (after_dumps_spec databases w0 Hco) as (Hloop & Hlog1 & Hck1 & _).
  fold w1 in Hloop, Hlog1, Hck1. fold v in Hloop.
  destruct (archive_step_spec create_zip (succeeded v) backup_dir w1)
    as (l & w2 & Harch & Hlog2 & Hs & Hr & He & Hd & Hf).
  rewrite Hck1 in Harch, Hr, He, Hd, Hf.
  fold (run_zip_path E self w0) in Harch, He, Hd, Hf, Hr.
  change (create_zip && (succeeded v >? 0)
          && archive_writable E w1 backup_dir (run_zip_path E self w0))
    with zipped in Harch, Hr, Hd, Hf.
  fold files1 in Hf.
  destruct databases as [|d ds]; [contradiction|].
  remember (d :: ds) as dbs eqn:Hdbs.
  assert (Hrun : backup_databases E self dbs create_zip w0
                 = (Ok tt, World (dirs w2) (files w2)
                                 (log w2 ++ summary_events (len dbs) (succeeded v)
                                      (failed_names v)
                                      (final_location E self dbs create_zip w0))
                                 (clock_reads w2) (spawns w2))).
  { rewrite Hdbs at 1. unfold backup_databases. rewrite <- Hdbs.
    unfold datetime_now, print, emit, modify, gets, mbind, M_bind, mret, M_ret.
    cbn [dirs files log clock_reads spawns].
    cbv beta iota zeta in Hloop |- *.
    unfold run_timestamp, header_events, run_backup_dir, run_timestamp in Hloop.
    rewrite <- !app_assoc. simpl app.
    rewrite Hloop. cbv beta iota zeta. fold (run_timestamp E w0).
    fold (run_backup_dir E self w0). fold backup_dir. rewrite Harch.
    rewrite print_summary_spec. unfold final_location. subst zipped backup_dir.
    destruct (archived E self dbs create_zip w0) eqn:Hz;
      destruct create_zip; try reflexivity.
    unfold archived in Hz. simpl in Hz. discriminate. }
  eexists. exists l. split; [exact Hrun|]. cbn [log dirs files].
  rewrite Hlog2, Hlog1, <- !app_assoc.
  repeat split; assumption.
Qed.

Lemma spawned_attempts (timestamp : pystr) (databases : list pystr) (k : nat) :
  spawned (attempts_events E self timestamp k databases)
  = dump_cmd self timestamp <$> databases.
Proof.
  revert k. induction databases as [|db rest IH]; intros k; [reflexivity|].
  simpl. unfold spawned in *. rewrite omap_app, IH. unfold attempt_events.
  destruct (spawn E k _) as [rc ? ?| | |]; [destruct (rc =? 0)| | |]; reflexivity.
Qed.

Lemma rmtrees_attempts (timestamp : pystr) (databases : list pystr) (k : nat) :
  rmtrees (attempts_events E self timestamp k databases) = [].
Proof.
  revert k. induction databases as [|db rest IH]; intros k; [reflexivity|].
  simpl. unfold rmtrees in *. rewrite omap_app, IH. unfold attempt_events.
  destruct (spawn E k _) as [rc ? ?| | |]; [destruct (rc =? 0)| | |]; reflexivity.
Qed.

Lemma spawned_summary total sc failed location :
  spawned (summary_events total sc failed location) = [].
Proof. destruct failed; reflexivity. Qed.


Lemma stderr_summary total sc failed location :
  stderr_of (summary_events total sc failed location) = [].
Proof. destruct failed; reflexivity. Qed.

(** The i-th database is judged by run [k + i] of the utility. *)
Lemma verdicts_lookup (timestamp : pystr) (databases : list pystr) :
  ∀ (k i : nat) (db : pystr),
    databases !! i = Some db →
    verdicts E self timestamp k databases !! i
    = Some (db, exits_zero E (k + i) (dump_cmd self timestamp db)).
Proof.
  induction databases as [|d rest IH]; intros k i db Hi; [discriminate|].
  destruct i as [|i]; simpl in *.
  - injection Hi as ->. rewrite Nat.add_0_r. reflexivity.
  - rewrite (IH (S k) i db Hi).
    replace (S k + i)%nat with (k + S i)%nat by lia. reflexivity.
Qed.

Lemma failed_names_elem (v : list (pystr * bool)) (i : nat) (db : pystr) :
  v !! i = Some (db, false) → db ∈ failed_names v.
Proof.
  intros Hi. unfold failed_names. apply list_elem_of_fmap. exists (db, false).
  split; [reflexivity|]. apply list_elem_of_filter. split; [reflexivity|].
  apply list_elem_of_lookup. exists i. exact Hi.
Qed.

(** Every database is counted once: as a success or as a failure. *)
Lemma verdicts_partition (timestamp : pystr) (databases : list pystr) (k : nat) :
  succeeded (verdicts E self timestamp k databases)
  + len (failed_names (verdicts E self timestamp k databases))
  = len databases.
Proof.
  revert k. induction databases as [|db rest IH]; intros k; [reflexivity|].
  simpl verdicts. rewrite succeeded_cons, failed_names_cons.
  specialize (IH (S k)). unfold len in *. rewrite length_app.
  destruct (exits_zero E k _); simpl length; lia.
Qed.

(** When no run of the utility exits with status zero, every database is
    listed as failed. *)
Lemma verdicts_all_failed (timestamp : pystr) (databases : list pystr) (k : nat) :
  (∀ k cmd, exits_zero E k cmd = false) →
  succeeded (verdicts E self timestamp k databases) = 0
  ∧ failed_names (verdicts E self timestamp k databases) = databases.
Proof.
  intros Hall. revert k. induction databases as [|db rest IH]; intros k.
  - split; reflexivity.
  - simpl verdicts. rewrite succeeded_cons, failed_names_cons, Hall.
    destruct (IH (S k)) as [-> ->]. split; reflexivity.
Qed.

Lemma stderr_attempts_missing (timestamp : pystr) (databases : list pystr) (k : nat) :
  (∀ k cmd, spawn E k cmd = NoSuchExecutable) →
  stderr_of (attempts_events E self timestamp k databases)
  = (fun _ => MongodumpNotFound) <$> databases.
Proof.
  intros Hall. revert k. induction databases as [|db rest IH]; intros k; [reflexivity|].
  simpl. unfold stderr_of in *. rewrite omap_app, IH. unfold attempt_events.
  rewrite Hall. reflexivity.
Qed.

(** The events of a run are what the log gained. *)
Lemma run_events_spec databases create_zip w0 w' l :
  backup_databases E self databases create_zip w0 = (Ok tt, w') →
  log w' = log w0 ++ l →
  run_events E self databases create_zip w0 = l.
Proof.
  intros Hrun Hlog. unfold run_events. rewrite Hrun. simpl. rewrite Hlog.
  apply drop_app_length.
Qed.

End OrchestratorFacts.

(** X17: for a non-empty list, and an outside where directories can be made
    and every start of the utility either runs it, with output that is
    decoded, or finds it missing, [backup_databases] returns normally; it
    starts the dump utility once per database, in list order, whatever the
    earlier runs gave; the i-th database counts as failed when its own run
    did not exit with status zero; and the log ends with the report of the
    total, the number of successes, the failed names and the location, which
    is the archive when one was written and the timestamp directory
    otherwise. *)
Theorem backup_attempts_every_database_and_reports
    (E : env) (self : tool) (databases : list pystr) (create_zip : bool) (w0 : world) :
  databases ≠ [] →
  cooperative E →
  let timestamp := run_timestamp E w0 in
  let v := run_verdicts E self databases w0 in
  ∃ w' before,
    backup_databases E self databases create_zip w0 = (Ok tt, w')
    ∧ spawned (run_events E self databases create_zip w0)
      = dump_cmd self timestamp <$> databases
    ∧ (∀ i db, databases !! i = Some db →
         v !! i = Some (db, exits_zero E (spawns w0 + i) (dump_cmd self timestamp db)))
    ∧ (∀ i db, databases !! i = Some db →
         exits_zero E (spawns w0 + i) (dump_cmd self timestamp db) = false →
         db ∈ failed_names v)
    ∧ succeeded v + len (failed_names v) = len databases
    ∧ log w' = before ++ summary_events (len databases) (succeeded v) (failed_names v)
                           (final_location E self databases create_zip w0).
Proof.
  intros Hne Hco timestamp v.
  destruct (backup_databases_spec E self databases create_zip w0 Hne Hco)
    as (w' & l & Hrun & Hlog & Hs & _).
  fold v timestamp in Hlog.
  exists w'. eexists. split; [exact Hrun|]. split; [|split; [|split; [|split]]].
  - rewrite (run_events_spec E self _ _ _ _ _ Hrun Hlog). unfold spawned in *.
    rewrite !omap_app, Hs. fold (spawned (attempts_events E self timestamp (spawns w0) databases)).
    rewrite spawned_attempts.
    fold (spawned (summary_events (len databases) (succeeded v) (failed_names v)
                     (final_location E self databases create_zip w0))).
    rewrite spawned_summary, app_nil_r. reflexivity.
  - intros i db Hi. apply verdicts_lookup, Hi.
  - intros i db Hi Hz. apply (failed_names_elem v i). unfold v, run_verdicts.
    rewrite (verdicts_lookup E self _ _ _ _ _ Hi). fold timestamp. rewrite Hz. reflexivity.
  - apply verdicts_partition.
  - rewrite Hlog, !app_assoc. reflexivity.
Qed.

Lemma demo_env_cooperative results zip_ok rm_ok :
  forallb handled results = true → cooperative (demo_env results zip_ok rm_ok).
Proof.
  intros Hall. split; [reflexivity|]. intros k cmd. simpl. clear cmd. revert k.
  induction results as [|r rest IH]; intros [|k]; simpl; try reflexivity;
    simpl in Hall; apply andb_true_iff in Hall as [Hr Hrest].
  - exact Hr.
  - apply IH. exact Hrest.
Qed.

Lemma backup_attempts_every_database_and_reports_witness :
  let E := demo_env [Exited 0 [] [lit "app.bson"]; Exited 1 (lit "auth failed") [];
                     Exited 0 [] [lit "users.bson"]] true true in
  let w0 := fresh_world [] [] in
  ∃ w' before,
    backup_databases E demo_tool demo_databases true w0 = (Ok tt, w')
    ∧ spawned (run_events E demo_tool demo_databases true w0)
      = dump_cmd demo_tool (run_timestamp E w0) <$> demo_databases
    ∧ (∀ i db, demo_databases !! i = Some db →
         run_verdicts E demo_tool demo_databases w0 !! i
         = Some (db, exits_zero E (spawns w0 + i)
                       (dump_cmd demo_tool (run_timestamp E w0) db)))
    ∧ (∀ i db, demo_databases !! i = Some db →
         exits_zero E (spawns w0 + i) (dump_cmd demo_tool (run_timestamp E w0) db) = false →
         db ∈ failed_names (run_verdicts E demo_tool demo_databases w0))
    ∧ succeeded (run_verdicts E demo_tool demo_databases w0)
      + len (failed_names (run_verdicts E demo_tool demo_databases w0))
      = len demo_databases
    ∧ log w' = before ++ summary_events (len demo_databases)
                           (succeeded (run_verdicts E demo_tool demo_databases w0))
                           (failed_names (run_verdicts E demo_tool demo_databases w0))
                           (final_location E demo_tool demo_databases true w0).
Proof.
  intros E w0.
  apply (backup_attempts_every_database_and_reports E demo_tool demo_databases true w0).
  - discriminate.
  - apply demo_env_cooperative. reflexivity.
Defined.

(** The case the specification lists: three databases, the second dump exits
    nonzero. All three are attempted, two succeed, the second is named as
    failed; with the archive written the report points to the archive, and
    without archiving to the timestamp directory. *)
Example second_of_three_fails :
  let E := demo_env [Exited 0 [] [lit "app.bson"]; Exited 1 (lit "auth failed") [];
                     Exited 0 [] [lit "users.bson"]] true true in
  let w0 := fresh_world [] [] in
  length (spawned (run_events E demo_tool demo_databases true w0)) = 3%nat
  ∧ succeeded (run_verdicts E demo_tool demo_databases w0) = 2
  ∧ failed_names (run_verdicts E demo_tool demo_databases w0) = [lit "logs"]
  ∧ stdout_of (drop 26 (run_events E demo_tool demo_databases true w0))
    = [Rule; BackupComplete; Successful 2 3; FailedList 1 [lit "logs"];
       Location [lit "backups"; lit "november_4_2026_10_05_am.zip"]; Rule]
  ∧ stdout_of (drop 18 (run_events E demo_tool demo_databases false w0))
    = [Rule; BackupComplete; Successful 2 3; FailedList 1 [lit "logs"];
       Location [lit "backups"; lit "20261104_090507"]; Rule].
Proof. vm_compute. repeat split. Qed.

(** C1: three databases, of which the second dump exits with status 1 after
    writing to its error stream what is not text in the encoding of the
    locale. [subprocess.run] raises [UnicodeDecodeError] when it decodes the
    captured output, before it looks at the exit status; [run_mongodump]
    catches [CalledProcessError] and [FileNotFoundError] only, so the
    exception leaves [backup_databases]: the second database is not recorded
    as failed, the third is never attempted, and no report is printed. With
    the same exit status and an error stream that is decoded, the sibling
    [except] clause records the failure, the third database is attempted and
    the report names the second as failed. *)
Theorem undecodable_dump_output_ends_backup :
  let outside bad :=
    demo_env [Exited 0 [] [lit "app.bson"]; bad; Exited 0 [] [lit "users.bson"]]
             true true in
  let w0 := fresh_world [] [] in
  let run bad := backup_databases (outside bad) demo_tool demo_databases false w0 in
  let events bad := run_events (outside bad) demo_tool demo_databases false w0 in
  fst (run (Undecodable 1 [])) = Raise UnicodeDecodeError
  ∧ arg_db <$> spawned (events (Undecodable 1 [])) = [lit "app"; lit "logs"]
  ∧ stdout_of (events (Undecodable 1 []))
    = [Rule; StartingBackup 3; TimestampIs (lit "20261104_090507");
       OutputDirectory [lit "backups"; lit "20261104_090507"]; Rule;
       BackingUp (lit "app"); Tick; BackingUp (lit "logs")]
  ∧ stderr_of (events (Undecodable 1 [])) = []
  ∧ fst (run (Exited 1 (lit "auth failed") [])) = Ok tt
  ∧ arg_db <$> spawned (events (Exited 1 (lit "auth failed") []))
    = [lit "app"; lit "logs"; lit "users"]
  ∧ stderr_of (events (Exited 1 (lit "auth failed") [])) = [DumpError (lit "auth failed")]
  ∧ stdout_of (drop 18 (events (Exited 1 (lit "auth failed") [])))
    = [Rule; BackupComplete; Successful 2 3; FailedList 1 [lit "logs"];
       Location [lit "backups"; lit "20261104_090507"]; Rule].
Proof. vm_compute. repeat split. Qed.







(** The two failure paths on the fixtures: an archive that cannot be written
    leaves the error on the error stream, no removal, and the timestamp
    directory as location; a removal that fails leaves the warning and the
    archive as location, with the same counts. *)
Example archive_failures_on_fixtures :
  let results := [Exited 0 [] [lit "app.bson"]; Exited 1 (lit "auth failed") [];
                  Exited 0 [] [lit "users.bson"]] in
  let w0 := fresh_world [] [] in
  let run zip_ok rm_ok := run_events (demo_env results zip_ok rm_ok) demo_tool
                                     demo_databases true w0 in
  stderr_of (run false true) = [DumpError (lit "auth failed"); ZipError OSError]
  ∧ rmtrees (run false true) = []
  ∧ last (removelast (stdout_of (run false true)))
    = Some (Location [lit "backups"; lit "20261104_090507"])
  ∧ stderr_of (run true false) = [DumpError (lit "auth failed"); CleanupWarning OSError]
  ∧ last (removelast (stdout_of (run true false)))
    = Some (Location [lit "backups"; lit "november_4_2026_10_05_am.zip"])
  ∧ stderr_of (run true true) = [DumpError (lit "auth failed")]
  ∧ rmtrees (run true true) = [[lit "backups"; lit "20261104_090507"]].
Proof. vm_compute. repeat split. Qed.

Lemma dump_dir_in_ancestors (out : path) (timestamp db : pystr) (l : list path) :
  out ++ [timestamp; db] ∈ foldl add_path l (ancestors (out ++ [timestamp; db]))
  ∧ out ++ [timestamp] ∈ foldl add_path l (ancestors (out ++ [timestamp; db])).
Proof.
  split; apply elem_of_foldl_add_path; right.
  - replace (out ++ [timestamp; db])
      with (take (length (out ++ [timestamp; db])) (out ++ [timestamp; db])) at 1
      by apply firstn_all.
    apply ancestors_take. rewrite length_app. simpl. lia.
  - replace (out ++ [timestamp])
      with (take (length out + 1) (out ++ [timestamp; db])).
    + apply ancestors_take. rewrite length_app. simpl. lia.
    + rewrite take_app_ge by lia.
      replace (length out + 1 - length out)%nat with 1%nat by lia. reflexivity.
Qed.

(** C3 as the code has it: an attempt that finds no executable is reported
    with the "mongodump not found" message and counts as failed, and the
    next attempt asks for the utility again; when the utility is missing
    throughout, it is started once per database all the same, every attempt
    is reported with that message, and every database is listed as failed. *)
Theorem missing_tool_reported_and_every_database_still_tried (E : env) (self : tool) :
  (∀ db timestamp w,
      makedirs_ok E (output_dir self ++ [timestamp; db]) = true →
      spawn E (spawns w) (dump_cmd self timestamp db) = NoSuchExecutable →
      ∃ w',
        run_mongodump E self db timestamp w = (Ok false, w')
        ∧ stderr_of (drop (length (log w)) (log w')) = [MongodumpNotFound]
        ∧ spawns w' = S (spawns w))
  ∧
  (∀ databases create_zip w0,
      databases ≠ [] →
      (∀ p, makedirs_ok E p = true) →
      (∀ k cmd, spawn E k cmd = NoSuchExecutable) →
      ∃ w' before,
        backup_databases E self databases create_zip w0 = (Ok tt, w')
        ∧ spawned (run_events E self databases create_zip w0)
          = dump_cmd self (run_timestamp E w0) <$> databases
        ∧ stderr_of (run_events E self databases create_zip w0)
          = (fun _ => MongodumpNotFound) <$> databases
        ∧ log w' = before ++ summary_events (len databases) 0 databases
                               (run_backup_dir E self w0)).
Proof.
  split.
  - intros db timestamp w Hmk Hsp.
    destruct (run_mongodump_spec E self db timestamp w Hmk) as (w' & Hrun & Hlog & Hk & _).
    { rewrite Hsp. reflexivity. }
    exists w'. unfold exits_zero in Hrun. unfold attempt_events in Hlog.
    rewrite Hsp in Hrun, Hlog. split; [exact Hrun|]. split; [|exact Hk].
    rewrite Hlog, drop_app_length. reflexivity.
  - intros databases create_zip w0 Hne Hmk Hsp.
    assert (Hco : cooperative E).
    { split; [exact Hmk|]. intros k cmd. rewrite Hsp. reflexivity. }
    assert (Hz : ∀ k cmd, exits_zero E k cmd = false).
    { intros k cmd. unfold exits_zero. rewrite Hsp. reflexivity. }
    destruct (backup_databases_spec E self databases create_zip w0 Hne Hco)
      as (w' & l & Hrun & Hlog & Hs & _ & He & _).
    destruct (verdicts_all_failed E self (run_timestamp E w0) databases (spawns w0) Hz)
      as [Hsc Hfailed].
    unfold final_location, archived, run_verdicts in Hlog, He.
    rewrite Hsc, Hfailed in Hlog. rewrite Hsc in He.
    replace (create_zip && (0 >? 0)) with false in Hlog, He by (destruct create_zip; reflexivity).
    cbn [andb] in Hlog, He.
    pose proof (run_events_spec E self _ _ _ _ _ Hrun Hlog) as Hev.
    exists w'. eexists. split; [exact Hrun|]. rewrite Hev. split; [|split].
    + unfold spawned in *. rewrite !omap_app, Hs.
      fold (spawned (attempts_events E self (run_timestamp E w0) (spawns w0) databases)).
      rewrite spawned_attempts.
      fold (spawned (summary_events (len databases) 0 databases (run_backup_dir E self w0))).
      rewrite spawned_summary, app_nil_r. reflexivity.
    + unfold stderr_of in *. rewrite !omap_app, He.
      fold (stderr_of (attempts_events E self (run_timestamp E w0) (spawns w0) databases)).
      rewrite (stderr_attempts_missing E self _ _ _ Hsp).
      fold (stderr_of (summary_events (len databases) 0 databases (run_backup_dir E self w0))).
      rewrite stderr_summary, app_nil_r. reflexivity.
    + rewrite Hlog, !app_assoc. reflexivity.
Qed.

Lemma missing_tool_reported_and_every_database_still_tried_witness :
  let E := demo_env [] true true in
  let w0 := fresh_world [] [] in
  ∃ w' before,
    backup_databases E demo_tool demo_databases true w0 = (Ok tt, w')
    ∧ spawned (run_events E demo_tool demo_databases true w0)
      = dump_cmd demo_tool (run_timestamp E w0) <$> demo_databases
    ∧ stderr_of (run_events E demo_tool demo_databases true w0)
      = [MongodumpNotFound; MongodumpNotFound; MongodumpNotFound]
    ∧ log w' = before ++ summary_events 3 0 demo_databases (run_backup_dir E demo_tool w0).
Proof.
  intros E w0.
  destruct (missing_tool_reported_and_every_database_still_tried E demo_tool) as [_ H].
  apply (H demo_databases true w0).
  - discriminate.
  - reflexivity.
  - intros [|k] cmd; reflexivity.
Defined.

(** C3 as worded does not hold: with two databases and the utility missing,
    the utility is started a second time after the first attempt found it
    missing. *)
Lemma missing_tool_is_tried_again :
  ¬ stops_after_missing_tool (demo_env [] false true) demo_tool
      [lit "app"; lit "logs"] false (fresh_world [] []).
Proof.
  intros H. specialize (H 0%nat (lit "app") eq_refl eq_refl).
  vm_compute in H. lia.
Qed.

(** The later attempt is judged by its own run: a utility that is missing at
    the first attempt and present at the second gives one success. *)
Example tool_found_on_later_attempt :
  let E := Env (fun _ => DateTime 2026 11 4 9 5 7) (fun _ => true)
               (fun k _ => match k with
                           | O => NoSuchExecutable
                           | _ => Exited 0 [] [lit "logs.bson"]
                           end)
               (fun _ => true) (fun _ => true) (fun _ => true)
               (fun _ _ => false) (fun _ _ => true) in
  stdout_of (drop 14 (run_events E demo_tool [lit "app"; lit "logs"] false
                                 (fresh_world [] [])))
  = [Rule; BackupComplete; Successful 1 2; FailedList 1 [lit "app"];
     Location [lit "backups"; lit "20261104_090507"]; Rule].
Proof. vm_compute. reflexivity. Qed.

(** C10: when the directory can be made, an attempt first makes
    output_dir/timestamp/database and only then starts the dump utility, once;
    whatever that run comes to (exit status zero or not, output that is not
    decoded, no executable, or no start at all), the directory and the
    timestamp directory above it exist afterwards. And when every dump of a run fails, the timestamp directory
    and the directory of every database exist at the end of the run. *)
Theorem dump_directory_made_before_dump (E : env) (self : tool) :
  (∀ db timestamp w,
      makedirs_ok E (output_dir self ++ [timestamp; db]) = true →
      ∃ r w' rest,
        run_mongodump E self db timestamp w = (r, w')
        ∧ log w' = log w ++ Makedirs (output_dir self ++ [timestamp; db])
                            :: Stdout (BackingUp db)
                            :: Spawn (dump_cmd self timestamp db) :: rest
        ∧ spawned rest = [] ∧ rmtrees rest = []
        ∧ is_dir w' (output_dir self ++ [timestamp; db]) = true
        ∧ is_dir w' (output_dir self ++ [timestamp]) = true)
  ∧
  (∀ databases create_zip w0,
      databases ≠ [] →
      cooperative E →
      (∀ k cmd, exits_zero E k cmd = false) →
      ∃ w',
        backup_databases E self databases create_zip w0 = (Ok tt, w')
        ∧ is_dir w' (run_backup_dir E self w0) = true
        ∧ ∀ db, db ∈ databases →
            is_dir w' (output_dir self ++ [run_timestamp E w0; db]) = true).
Proof.
  split.
  - intros db timestamp w Hmk.
    destruct (dump_dir_in_ancestors (output_dir self) timestamp db (dirs w)) as [Hd1 Hd2].
    unfold run_mongodump, os_makedirs, subprocess_run, is_dir.
    fold (dump_cmd self timestamp db). run_M. rewrite Hmk. simpl.
    destruct (spawn E (spawns w) (dump_cmd self timestamp db))
      as [rc err written | rc written | | ];
      simpl; [destruct (rc =? 0); simpl| | |];
      eexists _, _, _; (split; [reflexivity|]); simpl; rewrite <- ?app_assoc; simpl;
      (split; [reflexivity|]); repeat split;
      apply bool_decide_eq_true_2; assumption.
  - intros databases create_zip w0 Hne Hco Hz.
    destruct (backup_databases_spec E self databases create_zip w0 Hne Hco)
      as (w' & l & Hrun & _ & _ & _ & _ & Hd & _).
    destruct (verdicts_all_failed E self (run_timestamp E w0) databases (spawns w0) Hz)
      as [Hsc _].
    unfold archived, run_verdicts in Hd. rewrite Hsc in Hd.
    replace (create_zip && (0 >? 0)) with false in Hd by (destruct create_zip; reflexivity).
    cbn [andb] in Hd.
    destruct (after_dumps_spec E self databases w0 Hco) as (_ & _ & _ & _ & _ & Hmade).
    exists w'. split; [exact Hrun|]. unfold is_dir. rewrite Hd. split.
    + destruct databases as [|d ds]; [contradiction|].
      apply bool_decide_eq_true_2, (Hmade d). left.
    + intros db Hdb. apply bool_decide_eq_true_2, (Hmade db Hdb).
Qed.

Lemma dump_directory_made_before_dump_witness :
  let E := demo_env [Exited 2 (lit "connection refused") []] true true in
  let w0 := fresh_world [] [] in
  (∃ r w' rest,
      run_mongodump E demo_tool (lit "app") (lit "20261104_090507") w0 = (r, w')
      ∧ log w' = log w0 ++ Makedirs [lit "backups"; lit "20261104_090507"; lit "app"]
                           :: Stdout (BackingUp (lit "app"))
                           :: Spawn (dump_cmd demo_tool (lit "20261104_090507") (lit "app"))
                           :: rest
      ∧ spawned rest = [] ∧ rmtrees rest = []
      ∧ is_dir w' [lit "backups"; lit "20261104_090507"; lit "app"] = true
      ∧ is_dir w' [lit "backups"; lit "20261104_090507"] = true)
  ∧ (∃ w',
      backup_databases E demo_tool demo_databases true w0 = (Ok tt, w')
      ∧ is_dir w' [lit "backups"; lit "20261104_090507"] = true
      ∧ ∀ db, db ∈ demo_databases →
          is_dir w' [lit "backups"; lit "20261104_090507"; db] = true).
Proof.
  intros E w0.
  destruct (dump_directory_made_before_dump E demo_tool) as [H1 H2]. split.
  - apply (H1 (lit "app") (lit "20261104_090507") w0). reflexivity.
  - apply (H2 demo_databases true w0).
    + discriminate.
    + apply demo_env_cooperative. reflexivity.
    + intros [|[|k]] cmd; reflexivity.
Defined.

(** On the fixtures: a dump that exits nonzero, a missing utility and a
    utility that cannot be started all leave the directory behind. *)
Example directory_left_by_failed_attempts :
  let after result :=
    snd (run_mongodump (demo_env [result] true true) demo_tool (lit "app")
                       (lit "20261104_090507") (fresh_world [] [])) in
  dirs (after (Exited 2 (lit "connection refused") []))
  = [[lit "backups"]; [lit "backups"; lit "20261104_090507"];
     [lit "backups"; lit "20261104_090507"; lit "app"]]
  ∧ dirs (after NoSuchExecutable) = dirs (after (Exited 2 (lit "connection refused") []))
  ∧ dirs (after CannotExecute) = dirs (after (Exited 2 (lit "connection refused") []))
  ∧ fst (run_mongodump (demo_env [CannotExecute] true true) demo_tool (lit "app")
                       (lit "20261104_090507") (fresh_world [] []))
    = Raise PermissionError.
Proof. vm_compute. repeat split. Qed.

(* ===================================================================== *)
(** * Further properties of the checkbox selector                         *)
(* ===================================================================== *)

Lemma selected_dbs_chosen (databases : list pystr) :
  ∀ (before sel : list bool),
    length sel = length databases →
    selected_dbs (before ++ sel) (Z.of_nat (length before)) databases
    = Ok (chosen databases sel).
Proof.
  induction databases as [|db rest IH]; intros before sel Hlen.
  - destruct sel; [reflexivity | discriminate].
  - destruct sel as [|b sel]; [discriminate|]. simpl in Hlen.
    cbn [selected_dbs].
    rewrite (py_getitem_nat (before ++ b :: sel) (length before) b)
      by (rewrite lookup_app_r, Nat.sub_diag by lia; reflexivity).
    replace (Z.of_nat (length before) + 1) with (Z.of_nat (length (before ++ [b])))
      by (rewrite length_app; simpl; lia).
    replace (before ++ b :: sel) with ((before ++ [b]) ++ sel)
      by (rewrite <- app_assoc; reflexivity).
    rewrite IH by lia. unfold chosen. simpl. rewrite filter_cons. simpl.
    destruct b; case_decide; try congruence; reflexivity.
Qed.

(** X1: with a selection array as long as the list, the confirm key returns
    the names whose entry is true, in list order, and Cancelled when there is
    none; whatever the cursor and the page size are. *)
Theorem confirm_returns_chosen_names
    (databases : list pystr) (sel : list bool) (cur mv key : Z) :
  length sel = length databases →
  key = 10 ∨ key = KEY_ENTER ∨ key = 13 →
  handle_key databases (MenuState sel cur) mv key
  = Ok (Return (match chosen databases sel with
                | [] => None
                | l => Some l
                end)).
Proof.
  intros Hlen Hkey. rewrite handle_key_confirm by exact Hkey. simpl selected.
  pose proof (selected_dbs_chosen databases [] sel Hlen) as Hs.
  change (selected_dbs sel 0 databases = Ok (chosen databases sel)) in Hs.
  rewrite Hs. simpl. destruct (chosen databases sel); reflexivity.
Qed.

Lemma confirm_returns_chosen_names_witness :
  handle_key [lit "app"; lit "logs"; lit "users"]
    (MenuState [true; false; true] 1) 17 KEY_ENTER
  = Ok (Return (Some [lit "app"; lit "users"])).
Proof.
  apply (confirm_returns_chosen_names [lit "app"; lit "logs"; lit "users"]
           [true; false; true] 1 17 KEY_ENTER).
  - reflexivity.
  - right; left; reflexivity.
Defined.

Lemma selected_dbs_sublist (sel : list bool) (databases : list pystr) :
  ∀ idx l, selected_dbs sel idx databases = Ok l → l `sublist_of` databases.
Proof.
  induction databases as [|db rest IH]; intros idx l H; simpl in H.
  - injection H as <-. constructor.
  - destruct (py_getitem sel idx) as [on|]; simpl in H; [|discriminate].
    destruct (selected_dbs sel (idx + 1) rest) as [l'|] eqn:Hrest; simpl in H;
      [|discriminate].
    injection H as <-. specialize (IH _ _ Hrest).
    destruct on; [apply sublist_skip | apply sublist_cons]; exact IH.
Qed.

Lemma handle_key_returns_sublist databases st mv key l :
  handle_key databases st mv key = Ok (Return (Some l)) →
  l ≠ [] ∧ l `sublist_of` databases.
Proof.
  unfold handle_key.
  repeat match goal with
         | |- context [if key_in ?k ?ks then _ else _] => destruct (key_in k ks)
         end; try discriminate.
  - destruct (py_getitem _ _); simpl; [|discriminate].
    destruct (py_setitem _ _ _); simpl; discriminate.
  - destruct (selected_dbs _ _ _) as [dbs|] eqn:Hs; simpl; [|discriminate].
    destruct dbs as [|d dbs]; [discriminate|]. intros [= <-].
    split; [discriminate|]. exact (selected_dbs_sublist _ _ _ _ Hs).
Qed.

Lemma menu_loop_returns_sublist addstr_ok databases frames l :
  ∀ st, menu_loop addstr_ok databases st frames = Returned (Some l) →
        l ≠ [] ∧ l `sublist_of` databases.
Proof.
  induction frames as [|f rest IH]; intros st H; simpl in H; [discriminate|].
  destruct (render _ _ _ _ _); [|discriminate].
  destruct (keypress f) as [key|]; [|discriminate].
  destruct (handle_key _ _ _ _) as [[st'|r]|] eqn:Hk; try discriminate.
  - exact (IH st' H).
  - injection H as ->. exact (handle_key_returns_sublist _ _ _ _ _ Hk).
Qed.

(** X2: whatever the terminal does and whatever keys arrive, a list that
    [checkbox_menu] returns is never empty and is made of names of the input
    list in their input order. *)
Theorem checkbox_menu_returns_nonempty_sublist
    (addstr_ok : Z -> Z -> Z -> Z -> pystr -> bool)
    (databases : list pystr) (frames : list frame_input) (l : list pystr) :
  checkbox_menu addstr_ok databases frames = Returned (Some l) →
  l ≠ [] ∧ l `sublist_of` databases.
Proof. apply menu_loop_returns_sublist. Qed.

Lemma checkbox_menu_returns_nonempty_sublist_witness :
  checkbox_menu ncurses_addstr_ok [lit "app"; lit "logs"; lit "users"]
    [Frame 24 120 (Key (ord " ")); Frame 24 120 (Key 10)]
  = Returned (Some [lit "logs"; lit "users"])
  ∧ [lit "logs"; lit "users"] ≠ []
  ∧ [lit "logs"; lit "users"] `sublist_of` [lit "app"; lit "logs"; lit "users"].
Proof.
  assert (H : checkbox_menu ncurses_addstr_ok [lit "app"; lit "logs"; lit "users"]
                [Frame 24 120 (Key (ord " ")); Frame 24 120 (Key 10)]
              = Returned (Some [lit "logs"; lit "users"]))
    by (vm_compute; reflexivity).
  split; [exact H|].
  exact (checkbox_menu_returns_nonempty_sublist ncurses_addstr_ok _ _ _ H).
Defined.

Lemma scroll_offset_nonneg n cr mv : 0 <= scroll_offset n cr mv.
Proof.
  unfold scroll_offset.
  destruct (Z.ltb_spec cr (mv / 2)); [lia|].
  destruct (cr >? n - mv / 2); lia.
Qed.

Lemma py_slice_from_length {A} (l : list A) (a b : Z) :
  0 <= a →
  py_slice l a b = [] ∨ (Z.to_nat a + length (py_slice l a b) <= length l)%nat.
Proof.
  intros Ha. unfold py_slice. generalize (py_slice_bound (length l) b). intros hi.
  unfold py_slice_bound.
  destruct (Z.ltb_spec a 0); [lia|].
  destruct (Z.le_gt_cases a (Z.of_nat (length l))) as [Hle | Hgt].
  - right. rewrite Z.min_l by lia. rewrite length_take, length_drop. lia.
  - left. rewrite Z.min_r by lia. rewrite Nat2Z.id, drop_all. apply take_nil.
Qed.

Lemma py_slice_length_le {A} (l : list A) (a b : Z) :
  0 <= a → a <= b → Z.of_nat (length (py_slice l a b)) <= b - a.
Proof.
  intros Ha Hb. unfold py_slice, py_slice_bound.
  destruct (Z.ltb_spec a 0); [lia|]. destruct (Z.ltb_spec b 0); [lia|].
  rewrite length_take, length_drop. lia.
Qed.

Lemma py_slice_lookup {A} (l : list A) (a b : Z) (i : nat) (x : A) :
  0 <= a → py_slice l a b !! i = Some x → l !! (Z.to_nat a + i)%nat = Some x.
Proof.
  intros Ha. unfold py_slice. generalize (py_slice_bound (length l) b). intros hi.
  unfold py_slice_bound.
  destruct (Z.ltb_spec a 0); [lia|]. intros Hx.
  apply lookup_take_Some in Hx as [Hx _]. rewrite lookup_drop in Hx.
  assert (Hlt : (Z.to_nat (Z.min a (Z.of_nat (length l))) + i < length l)%nat)
    by (apply lookup_lt_Some in Hx; exact Hx).
  replace (Z.to_nat a) with (Z.to_nat (Z.min a (Z.of_nat (length l)))) by lia.
  exact Hx.
Qed.

Section RenderFacts.

Context (addstr_ok : Z -> Z -> Z -> Z -> pystr -> bool) (height width : Z).

Lemma addstr_spec y x text a :
  addstr addstr_ok height width y x text a
  = if draw_ok addstr_ok height width (Draw y x text a)
    then Ok [Draw y x text a] else Raise CursesError.
Proof. reflexivity. Qed.

(** The item rows: with the selection array long enough for the rows shown,
    the only thing that can go wrong is a draw the terminal refuses. *)
Lemma render_rows_spec (sel : list bool) (cr off : Z) (visible : list pystr) :
  ∀ idx,
    0 <= idx + off →
    visible = [] ∨ (Z.to_nat (idx + off) + length visible <= length sel)%nat →
    render_rows addstr_ok height width sel cr off idx visible
    = if forallb (draw_ok addstr_ok height width)
                 (rows_draws width sel cr off idx visible)
      then Ok (rows_draws width sel cr off idx visible)
      else Raise CursesError.
Proof.
  induction visible as [|db rest IH]; intros idx Hidx Hlen; [reflexivity|].
  destruct Hlen as [|Hlen]; [discriminate|]. simpl in Hlen.
  destruct (lookup_lt_is_Some_2 sel (Z.to_nat (idx + off)) ltac:(lia)) as [on Hon].
  assert (Hget : py_getitem sel (idx + off) = Ok on).
  { replace (idx + off) with (Z.of_nat (Z.to_nat (idx + off))) by lia.
    apply py_getitem_nat. exact Hon. }
  cbn [render_rows rows_draws]. rewrite Hon, Hget. cbn [default mbind result_bind].
  rewrite (IH (idx + 1)) by (first [lia | right; lia]).
  rewrite forallb_app. unfold row_draws. rewrite !addstr_spec.
  destruct on; destruct (idx + off =? cr);
    cbn [id forallb mbind result_bind mret result_ret];
    repeat match goal with
           | |- context [draw_ok addstr_ok height width ?d] =>
               destruct (draw_ok addstr_ok height width d)
           end; cbn [andb mbind result_bind mret result_ret];
    repeat match goal with
           | |- context [forallb ?f ?l] => destruct (forallb f l)
           end; reflexivity.
Qed.

(** One redraw: with a selection array as long as the list, [render] either
    makes exactly the draws of [frame_draws] or stops with [curses.error] at
    one the terminal refuses. *)
Lemma render_spec (databases : list pystr) (st : menu_state) :
  length (selected st) = length databases →
  render addstr_ok height width databases st
  = if forallb (draw_ok addstr_ok height width)
               (frame_draws height width databases st)
    then Ok (frame_draws height width databases st)
    else Raise CursesError.
Proof.
  intros Hlen. unfold render, render_header, render_footer, frame_draws,
    visible_databases.
  set (off := scroll_offset (len databases) (current_row st) (max_visible height)).
  pose proof (scroll_offset_nonneg (len databases) (current_row st)
                (max_visible height)) as Hoff. fold off in Hoff.
  rewrite (render_rows_spec (selected st) (current_row st) off _ 0)
    by (first [lia
              | rewrite Hlen;
                apply (py_slice_from_length databases off (off + max_visible height) Hoff)]).
  rewrite !addstr_spec. rewrite !forallb_app. cbn [forallb].
  repeat match goal with
         | |- context [draw_ok addstr_ok height width ?d] =>
             destruct (draw_ok addstr_ok height width d)
         end; cbn [andb mbind result_bind mret result_ret];
    repeat match goal with
           | |- context [forallb ?f ?l] => destruct (forallb f l)
           end; reflexivity.
Qed.

End RenderFacts.

(** With a matching selection array and the cursor on a row, no key raises,
    and the state a key leaves is of the same kind, as long as the page size
    is not negative. *)
Lemma handle_key_keeps_state databases st mv key :
  (1 <= length databases)%nat →
  0 <= mv →
  state_ok (length databases) st →
  ∃ r, handle_key databases st mv key = Ok r
       ∧ ∀ st', r = Continue st' → state_ok (length databases) st'.
Proof.
  intros Hn Hmv [Hlen Hcur].
  assert (Hkeep : ∀ r, handle_key databases st mv key = Ok r →
            ∀ st', r = Continue st' → cursor_in_range (length databases) st').
  { intros r Hr st' ->. exact (handle_key_keeps_cursor _ _ _ _ _ Hn Hmv Hcur Hr). }
  destruct st as [sel cur]. simpl in Hlen. unfold cursor_in_range in Hcur. simpl in Hcur.
  revert Hkeep. unfold handle_key. cbn [selected current_row].
  repeat match goal with
         | |- context [if key_in ?k ?ks then _ else _] => destruct (key_in k ks)
         end; intros Hkeep;
    try (eexists; split; [reflexivity|]; intros st' Hst';
         split; [injection Hst' as <-; cbn [selected]; rewrite ?length_replicate;
                 first [exact Hlen | reflexivity]
                | exact (Hkeep _ eq_refl _ Hst')]).
  - eexists. split; [reflexivity|]. discriminate.
  - destruct (py_norm_index_valid (length sel) cur ltac:(lia)) as (k & Hk & Hlt).
    destruct (lookup_lt_is_Some_2 sel k Hlt) as [b Hb].
    unfold py_getitem, py_setitem in *. rewrite Hk, Hb in *. cbn in *.
    eexists. split; [reflexivity|]. intros st' Hst'. split.
    + injection Hst' as <-. cbn. rewrite length_insert. exact Hlen.
    + exact (Hkeep _ eq_refl _ Hst').
  - pose proof (selected_dbs_chosen databases [] sel Hlen) as Hs.
    change (selected_dbs sel 0 databases = Ok (chosen databases sel)) in Hs.
    rewrite Hs. cbn. eexists. split; [reflexivity|]. discriminate.
Qed.

(** X3: for a list of at least one name on terminals of seven lines or
    more, the only exception that can leave [checkbox_menu] is the terminal
    library's own; in particular no key sequence leads to [IndexError]. *)
Theorem checkbox_menu_raises_only_curses_error
    (addstr_ok : Z -> Z -> Z -> Z -> pystr -> bool)
    (databases : list pystr) (frames : list frame_input) (e : exn) :
  (1 <= length databases)%nat →
  Forall (fun f => 7 <= term_height f) frames →
  checkbox_menu addstr_ok databases frames = Raised e →
  e = CursesError.
Proof.
  intros Hn Hh. unfold checkbox_menu.
  assert (Hst : state_ok (length databases) (initial_state databases)).
  { split; [apply length_replicate|]. unfold cursor_in_range. simpl. lia. }
  revert Hst. generalize (initial_state databases).
  induction Hh as [|f rest Hf _ IH]; intros st Hst H; simpl in H; [discriminate|].
  rewrite render_spec in H by apply Hst.
  destruct (forallb _ _); [|injection H as <-; reflexivity].
  destruct (keypress f) as [key|]; [|discriminate].
  destruct (handle_key_keeps_state databases st (max_visible (term_height f)) key Hn
              ltac:(unfold max_visible, start_row; lia) Hst) as (r & Hr & Hnext).
  rewrite Hr in H. destruct r as [st'|r]; [|discriminate].
  exact (IH st' (Hnext st' eq_refl) H).
Qed.

Lemma checkbox_menu_raises_only_curses_error_witness :
  checkbox_menu ncurses_addstr_ok [lit "app"; lit "logs"]
    [Frame 24 120 (Key KEY_NPAGE); Frame 7 20 (Key (ord " "))]
  = Raised CursesError.
Proof.
  assert (H : ∃ e, checkbox_menu ncurses_addstr_ok [lit "app"; lit "logs"]
                     [Frame 24 120 (Key KEY_NPAGE); Frame 7 20 (Key (ord " "))]
                   = Raised e)
    by (eexists; vm_compute; reflexivity).
  destruct H as [e He]. rewrite He. f_equal.
  apply (checkbox_menu_raises_only_curses_error ncurses_addstr_ok
           [lit "app"; lit "logs"]
           [Frame 24 120 (Key KEY_NPAGE); Frame 7 20 (Key (ord " "))] e).
  - simpl; lia.
  - repeat constructor; simpl; lia.
  - exact He.
Defined.

Lemma scroll_offset_window n cr mv :
  1 <= mv → 0 <= cr < n →
  0 <= scroll_offset n cr mv <= cr ∧ cr < scroll_offset n cr mv + mv.
Proof.
  intros Hmv Hcr. unfold scroll_offset.
  assert (Hhalf : 0 <= mv / 2 < mv)
    by (split; [apply Z.div_pos; lia | apply Z.div_lt_upper_bound; lia]).
  destruct (Z.ltb_spec cr (mv / 2)); [lia|].
  destruct (Z.gtb_spec cr (n - mv / 2)); lia.
Qed.

Lemma py_slice_lookup_in {A} (l : list A) (a b j : Z) :
  0 <= a <= j → j < b → j < len l →
  py_slice l a b !! Z.to_nat (j - a) = l !! Z.to_nat j.
Proof.
  unfold len. intros Ha Hb Hl. unfold py_slice, py_slice_bound.
  destruct (Z.ltb_spec a 0); [lia|]. destruct (Z.ltb_spec b 0); [lia|].
  rewrite lookup_take_lt by lia. rewrite lookup_drop. f_equal. lia.
Qed.

Lemma py_slice_elem_of {A} (l : list A) (a b : Z) (x : A) :
  x ∈ py_slice l a b → x ∈ l.
Proof.
  unfold py_slice. intros H.
  apply list_elem_of_lookup in H as [i Hi].
  apply lookup_take_Some in Hi as [Hi _]. rewrite lookup_drop in Hi.
  apply list_elem_of_lookup. eexists. exact Hi.
Qed.

Lemma py_prefix_length {A} (l : list A) (b : Z) :
  0 <= b → len (py_prefix l b) <= b.
Proof.
  intros Hb. unfold len, py_prefix.
  pose proof (py_slice_length_le l 0 b ltac:(lia) Hb). lia.
Qed.

Lemma py_times_hrule_length (k : Z) : 0 <= k → len (py_times hrule k) = k.
Proof.
  intros Hk. unfold len, py_times, hrule.
  assert (H : ∀ n, length (concat (replicate n [9472])) = n)
    by (induction n as [|n IH]; simpl; [reflexivity | rewrite IH; reflexivity]).
  rewrite H. lia.
Qed.

Lemma rows_draws_Forall (P : draw → Prop) width sel cr off visible :
  ∀ idx,
    (∀ (i : nat) db on, visible !! i = Some db →
        Forall P (row_draws width cr off (idx + Z.of_nat i) db on)) →
    Forall P (rows_draws width sel cr off idx visible).
Proof.
  induction visible as [|db rest IH]; intros idx Hrow; simpl; [constructor|].
  apply Forall_app. split.
  - specialize (Hrow 0%nat db). rewrite Z.add_0_r in Hrow. apply Hrow. reflexivity.
  - apply IH. intros i db' on Hi.
    replace (idx + 1 + Z.of_nat i) with (idx + Z.of_nat (S i)) by lia.
    apply Hrow. exact Hi.
Qed.

Lemma rows_draws_cursor width sel cr off visible :
  ∀ idx (i : nat) (db : pystr) (on : bool),
    visible !! i = Some db →
    idx + Z.of_nat i + off = cr →
    sel !! Z.to_nat cr = Some on →
    Draw (start_row + idx + Z.of_nat i) 2
         (py_prefix ((if on then checkbox_on else checkbox_off) ++ lit " " ++ db)
                    (width - 3))
         (color_pair 1)
    ∈ rows_draws width sel cr off idx visible.
Proof.
  induction visible as [|d rest IH]; intros idx i db on Hi Hcr Hon; [discriminate|].
  simpl. apply elem_of_app. destruct i as [|i]; simpl in Hi.
  - left. injection Hi as ->. replace (idx + off) with cr by lia.
    rewrite Hon. simpl. unfold row_draws.
    replace (idx + off) with cr by lia. rewrite Z.eqb_refl.
    replace (start_row + idx + Z.of_nat 0) with (start_row + idx) by lia.
    destruct on; left.
  - right.
    replace (start_row + idx + Z.of_nat (S i)) with (start_row + (idx + 1) + Z.of_nat i)
      by lia.
    apply IH; [exact Hi | lia | exact Hon].
Qed.

(** X4: on a terminal of eight lines or more, with the cursor on a row, the
    window of rows shown always contains the cursor row, and a frame that is
    drawn shows that row highlighted, between the header and the footer. *)
Theorem cursor_row_is_shown_highlighted
    (addstr_ok : Z -> Z -> Z -> Z -> pystr -> bool)
    (height width : Z) (databases : list pystr) (st : menu_state)
    (ds : list draw) :
  8 <= height →
  state_ok (length databases) st →
  render addstr_ok height width databases st = Ok ds →
  let off := scroll_offset (len databases) (current_row st) (max_visible height) in
  0 <= off <= current_row st
  ∧ current_row st < off + max_visible height
  ∧ ∃ (db : pystr) (on : bool),
      databases !! Z.to_nat (current_row st) = Some db
      ∧ selected st !! Z.to_nat (current_row st) = Some on
      ∧ start_row <= start_row + (current_row st - off) <= height - 4
      ∧ Draw (start_row + (current_row st - off)) 2
             (py_prefix ((if on then checkbox_on else checkbox_off) ++ lit " " ++ db)
                        (width - 3))
             (color_pair 1) ∈ ds.
Proof.
  intros Hh [Hlen Hcur] Hr off. unfold cursor_in_range in Hcur.
  assert (Hmv : 1 <= max_visible height) by (unfold max_visible, start_row; lia).
  destruct (scroll_offset_window (len databases) (current_row st) (max_visible height)
              Hmv ltac:(unfold len; lia)) as [Hoff Hwin].
  fold off in Hoff, Hwin. split; [exact Hoff|]. split; [exact Hwin|].
  destruct (lookup_lt_is_Some_2 databases (Z.to_nat (current_row st)) ltac:(lia))
    as [db Hdb].
  destruct (lookup_lt_is_Some_2 (selected st) (Z.to_nat (current_row st)) ltac:(lia))
    as [on Hon].
  exists db, on. split; [exact Hdb|]. split; [exact Hon|]. split.
  { unfold max_visible, start_row in *. lia. }
  rewrite render_spec in Hr by exact Hlen.
  destruct (forallb _ _); [|discriminate]. injection Hr as <-.
  unfold frame_draws. apply elem_of_app. right. apply elem_of_app. left.
  fold off.
  replace (start_row + (current_row st - off))
    with (start_row + 0 + Z.of_nat (Z.to_nat (current_row st - off))) by lia.
  apply rows_draws_cursor; [|lia|exact Hon].
  unfold visible_databases. fold off.
  rewrite py_slice_lookup_in by (unfold len; lia). exact Hdb.
Qed.

Lemma cursor_row_is_shown_highlighted_witness :
  ∃ ds,
    render ncurses_addstr_ok 10 120 [lit "a"; lit "b"; lit "c"; lit "d"; lit "e"]
           (MenuState [true; true; false; true; true] 2) = Ok ds
    ∧ Draw 5 2 (lit "[ ] c") (color_pair 1) ∈ ds.
Proof.
  assert (Hr : ∃ ds, render ncurses_addstr_ok 10 120
                       [lit "a"; lit "b"; lit "c"; lit "d"; lit "e"]
                       (MenuState [true; true; false; true; true] 2) = Ok ds)
    by (eexists; vm_compute; reflexivity).
  destruct Hr as [ds Hr]. exists ds. split; [exact Hr|].
  destruct (cursor_row_is_shown_highlighted ncurses_addstr_ok 10 120
              [lit "a"; lit "b"; lit "c"; lit "d"; lit "e"]
              (MenuState [true; true; false; true; true] 2) ds
              ltac:(lia)
              ltac:(split; [reflexivity | unfold cursor_in_range; simpl; lia])
              Hr)
    as (_ & _ & db & on & Hdb & Hon & _ & Hin).
  injection Hdb as <-. injection Hon as <-. exact Hin.
Defined.

Lemma visible_databases_length height databases st :
  7 <= height →
  Z.of_nat (length (visible_databases height databases st)) <= max_visible height.
Proof.
  intros Hh. unfold visible_databases.
  pose proof (scroll_offset_nonneg (len databases) (current_row st) (max_visible height)).
  pose proof (py_slice_length_le databases
                (scroll_offset (len databases) (current_row st) (max_visible height))
                (scroll_offset (len databases) (current_row st) (max_visible height)
                 + max_visible height)) as Hle.
  unfold max_visible, start_row in *. lia.
Qed.

Lemma row_draws_y width cr off idx db on :
  Forall (fun d => draw_y d = start_row + idx) (row_draws width cr off idx db on).
Proof.
  unfold row_draws. destruct (idx + off =? cr); [|destruct on];
    repeat constructor.
Qed.

(** Text of characters below U+1100 fills one column per character. *)
Lemma wcwidth_narrow (c : Z) : c < 4352 → wcwidth c = 1.
Proof.
  intros Hc. unfold wcwidth.
  repeat match goal with
         | |- context [?lo <=? c] =>
             replace (lo <=? c) with false by (symmetry; apply Z.leb_gt; lia)
         | |- context [c =? ?k] =>
             replace (c =? k) with false by (symmetry; apply Z.eqb_neq; lia)
         end.
  reflexivity.
Qed.

Lemma advance_single_width (width pos : Z) (text : pystr) :
  0 < width →
  Forall (fun c => wcwidth c = 1) text →
  advance width pos text = pos + len text.
Proof.
  intros Hw Hall. revert pos.
  induction Hall as [|c rest Hc _ IH]; intros pos; cbn [advance].
  - unfold len. simpl. lia.
  - rewrite Hc. pose proof (Z.mod_pos_bound pos width Hw).
    destruct (Z.ltb_spec width (pos mod width + 1)); [lia|].
    rewrite IH. unfold len. simpl length. lia.
Qed.

Lemma printable_ascii_single_width (text : pystr) :
  printable_ascii text → Forall (fun c => wcwidth c = 1) text.
Proof.
  intros H. eapply Forall_impl; [exact H|].
  intros c Hc. apply wcwidth_narrow. cbn in Hc. lia.
Qed.

Lemma printable_ascii_check (text : pystr) :
  forallb (fun c => (32 <=? c) && (c <=? 126)) text = true → printable_ascii text.
Proof.
  intros H. apply Forall_forall. intros c Hc.
  rewrite forallb_forall in H. specialize (H c).
  rewrite <- list_elem_of_In in H. specialize (H Hc). cbn in H.
  apply andb_true_iff in H as [H1 H2].
  apply Z.leb_le in H1. apply Z.leb_le in H2. lia.
Qed.

Lemma lit_single_width (s : string) : Forall (fun c => wcwidth c = 1) (lit s).
Proof.
  unfold lit. apply Forall_fmap, Forall_forall. intros c _. cbn.
  apply wcwidth_narrow. unfold ord.
  pose proof (N_ascii_bounded c). lia.
Qed.

Lemma py_slice_Forall {A} (P : A → Prop) (l : list A) (a b : Z) :
  Forall P l → Forall P (py_slice l a b).
Proof. intros H. unfold py_slice. apply Forall_take, Forall_drop, H. Qed.

Lemma py_prefix_Forall {A} (P : A → Prop) (l : list A) (b : Z) :
  Forall P l → Forall P (py_prefix l b).
Proof. apply py_slice_Forall. Qed.

Lemma py_times_Forall {A} (P : A → Prop) (l : list A) (k : Z) :
  Forall P l → Forall P (py_times l k).
Proof.
  intros H. unfold py_times. induction (Z.to_nat k) as [|n IH]; simpl.
  - constructor.
  - apply Forall_app. split; assumption.
Qed.

Lemma footer_single_width (sel : list bool) (databases : list pystr) :
  Forall (fun c => wcwidth c = 1) (footer sel databases).
Proof.
  unfold footer, str_of_int. repeat (apply Forall_app; split); apply lit_single_width.
Qed.

Lemma item_line_single_width (on : bool) (db : pystr) :
  Forall (fun c => wcwidth c = 1) db →
  Forall (fun c => wcwidth c = 1)
         ((if on then checkbox_on else checkbox_off) ++ lit " " ++ db).
Proof.
  intros Hdb. apply Forall_app. split; [|apply Forall_app; split].
  - destruct on; [|apply lit_single_width].
    unfold checkbox_on. apply Forall_app. split; [apply lit_single_width|].
    apply Forall_app. split; [|apply lit_single_width]. repeat constructor.
  - apply lit_single_width.
  - exact Hdb.
Qed.

(** A text of one column per character that fits in what is left of its
    line does not wrap and ends on the row it starts on. *)
Lemma stays_on_row width y x text a :
  Forall (fun c => wcwidth c = 1) text →
  0 < width → 0 <= x →
  x + len text <= width →
  wraps width (Draw y x text a) = false
  ∧ last_row width (Draw y x text a) = y.
Proof.
  intros Hone Hw Hx Hfit.
  unfold wraps, last_row. cbn [draw_y draw_x draw_text].
  rewrite !advance_single_width by (first [lia | exact Hone]).
  assert (0 <= len text) by (unfold len; lia).
  split.
  - apply Z.ltb_ge. lia.
  - rewrite Z.div_small by lia. lia.
Qed.

(** Such a text, on a line above the last one or ending before the last cell
    of the last line, is accepted by the terminal model. *)
Lemma ncurses_accepts height width y x text a :
  Forall (fun c => wcwidth c = 1) text →
  0 <= y < height → 0 <= x < width →
  x + len text <= width →
  (y = height - 1 → x + len text < width) →
  draw_ok ncurses_addstr_ok height width (Draw y x text a) = true
  ∧ wraps width (Draw y x text a) = false
  ∧ last_row width (Draw y x text a) = y.
Proof.
  intros Hone Hy Hx Hfit Hlast.
  split; [|apply stays_on_row; first [lia | exact Hone]].
  unfold draw_ok, ncurses_addstr_ok. cbn [draw_y draw_x draw_text].
  rewrite !advance_single_width by (first [lia | exact Hone]).
  assert (0 <= len text) by (unfold len; lia).
  repeat (apply andb_true_intro; split);
    try (apply Z.leb_le; lia); try (apply Z.ltb_lt; lia).
  apply Z.ltb_lt. destruct (Z.eq_dec y (height - 1)) as [-> | Hne].
  - specialize (Hlast eq_refl). nia.
  - assert ((y + 1) * width <= (height - 1) * width)
      by (apply Z.mul_le_mono_nonneg_r; lia). nia.
Qed.

Section ItemRow.

Context (width cr off idx : Z) (db : pystr) (on : bool).
Hypothesis Hascii : printable_ascii db.
Hypothesis Hfit : 6 + len db <= width.

Lemma item_row_texts :
  0 <= len db
  ∧ len checkbox_on = 3
  ∧ Forall (fun c => wcwidth c = 1) db
  ∧ Forall (fun c => wcwidth c = 1) checkbox_on
  ∧ Forall (fun c => wcwidth c = 1)
           (py_prefix ((if on then checkbox_on else checkbox_off) ++ lit " " ++ db)
                      (width - 3))
  ∧ len (py_prefix ((if on then checkbox_on else checkbox_off) ++ lit " " ++ db)
                   (width - 3)) <= width - 3.
Proof.
  assert (H0 : 0 <= len db) by (unfold len; lia).
  pose proof (printable_ascii_single_width db Hascii) as Hdb.
  split; [exact H0|]. split; [reflexivity|]. split; [exact Hdb|]. split; [|split].
  - unfold checkbox_on. repeat (apply Forall_app; split);
      first [apply lit_single_width | repeat constructor].
  - apply py_prefix_Forall, item_line_single_width, Hdb.
  - apply py_prefix_length. lia.
Qed.

(** The draws of one item row when the name is printable ASCII and fits
    after the checkbox: none wraps. *)
Lemma row_draws_on_row :
  Forall (fun d => wraps width d = false ∧ last_row width d = draw_y d)
         (row_draws width cr off idx db on).
Proof.
  destruct item_row_texts as (H0 & Hon & Hdb & Hck & Hline & Hcut).
  unfold row_draws.
  destruct (_ =? _); [|destruct on];
    repeat (constructor;
            [cbn [draw_y]; apply stays_on_row; first [lia | assumption]|]);
    constructor.
Qed.

(** On a terminal wider than six columns the model accepts them, on every
    row but the last. *)
Lemma row_draws_accepted height :
  6 < width →
  0 <= start_row + idx < height - 1 →
  Forall (fun d => draw_ok ncurses_addstr_ok height width d = true
                   ∧ wraps width d = false
                   ∧ last_row width d = draw_y d)
         (row_draws width cr off idx db on).
Proof.
  intros Hw Hy.
  destruct item_row_texts as (H0 & Hon & Hdb & Hck & Hline & Hcut).
  unfold row_draws, start_row in *.
  destruct (_ =? _); [|destruct on];
    repeat (constructor;
            [cbn [draw_y]; apply ncurses_accepts; first [lia | assumption]|]);
    constructor.
Qed.

End ItemRow.

(** X5: on a terminal of seven lines or more, a frame that is drawn consists
    of the three header lines, started on rows 0-2, then item rows that all
    start on rows 4 to height-4, then the two footer lines, started on the
    last two rows. When every name is printable ASCII and fits after column
    6, the text of every item row also ends on the row it starts on, so that
    no item is drawn over the header or the footer. (A longer name that is
    passed whole continues on the rows below, see the example that
    follows.) *)
Theorem item_rows_between_header_and_footer
    (addstr_ok : Z -> Z -> Z -> Z -> pystr -> bool)
    (height width : Z) (databases : list pystr) (st : menu_state)
    (ds : list draw) :
  7 <= height →
  length (selected st) = length databases →
  render addstr_ok height width databases st = Ok ds →
  ∃ hd rows ft,
    ds = hd ++ rows ++ ft
    ∧ draw_y <$> hd = [0; 1; 2]
    ∧ Forall (fun d => start_row <= draw_y d <= height - 4) rows
    ∧ draw_y <$> ft = [height - 2; height - 1]
    ∧ ((∀ db, db ∈ databases → printable_ascii db ∧ 6 + len db <= width) →
       Forall (fun d => last_row width d = draw_y d) rows).
Proof.
  intros Hh Hlen Hr. rewrite render_spec in Hr by exact Hlen.
  destruct (forallb _ _); [|discriminate]. injection Hr as <-.
  pose proof (visible_databases_length height databases st Hh) as Hvis.
  unfold frame_draws. eexists _, _, _. split; [reflexivity|].
  split; [reflexivity|]. split; [|split; [reflexivity|]].
  - apply rows_draws_Forall. intros i db on Hi.
    apply lookup_lt_Some in Hi.
    eapply Forall_impl; [apply row_draws_y|]. intros d Hd. simpl in Hd.
    unfold max_visible, start_row in *. lia.
  - intros Hnames. apply rows_draws_Forall. intros i db on Hi.
    assert (Hdb : db ∈ databases).
    { apply (py_slice_elem_of _ _ _ _ (proj2 (list_elem_of_lookup _ _) (ex_intro _ i Hi))). }
    destruct (Hnames db Hdb) as [Hascii Hfit]. apply lookup_lt_Some in Hi.
    eapply Forall_impl; [apply row_draws_on_row; assumption|].
    intros d [_ Hd]. exact Hd.
Qed.

Lemma item_rows_between_header_and_footer_witness :
  ∃ hd rows ft,
    render ncurses_addstr_ok 9 120 [lit "a"; lit "b"; lit "c"; lit "d"; lit "e"]
           (MenuState [true; true; false; true; true] 4) = Ok (hd ++ rows ++ ft)
    ∧ draw_y <$> hd = [0; 1; 2]
    ∧ Forall (fun d => start_row <= draw_y d <= 9 - 4) rows
    ∧ draw_y <$> ft = [9 - 2; 9 - 1]
    ∧ Forall (fun d => last_row 120 d = draw_y d) rows.
Proof.
  assert (Hr : ∃ ds, render ncurses_addstr_ok 9 120
                       [lit "a"; lit "b"; lit "c"; lit "d"; lit "e"]
                       (MenuState [true; true; false; true; true] 4) = Ok ds)
    by (eexists; vm_compute; reflexivity).
  destruct Hr as [ds Hr].
  destruct (item_rows_between_header_and_footer ncurses_addstr_ok 9 120
              [lit "a"; lit "b"; lit "c"; lit "d"; lit "e"]
              (MenuState [true; true; false; true; true] 4) ds
              ltac:(lia) eq_refl Hr)
    as (hd & rows & ft & Heq & H1 & H2 & H3 & H4).
  exists hd, rows, ft. rewrite <- Heq. split; [exact Hr|].
  split; [exact H1|]. split; [exact H2|]. split; [exact H3|].
  apply H4. intros db Hdb.
  repeat (apply elem_of_cons in Hdb as [-> | Hdb];
          [split; [apply printable_ascii_check; reflexivity
                  | vm_compute; discriminate]|]).
  apply elem_of_nil in Hdb. contradiction.
Defined.

(** On a terminal of nine lines and 33 columns, a name of 63 characters on a
    selected row that is not the cursor row is passed whole: it starts on
    row 5 and ends on row 7, where the rule of the footer goes. *)
Example long_name_runs_into_footer :
  let name := py_times (lit "x") 63 in
  let databases := [lit "a"; name] in
  let st := MenuState [true; true] 0 in
  render ncurses_addstr_ok 9 33 databases st = Ok (frame_draws 9 33 databases st)
  ∧ Draw 5 6 name A_NORMAL ∈ frame_draws 9 33 databases st
  ∧ last_row 33 (Draw 5 6 name A_NORMAL) = 9 - 2.
Proof.
  split; [vm_compute; reflexivity|]. split; [|vm_compute; reflexivity].
  vm_compute. do 5 apply list_elem_of_further. apply list_elem_of_here.
Qed.

(** On a terminal of five lines the same loop draws an item on the last row,
    where the footer goes. *)
Example item_row_on_footer_line_of_short_terminal :
  render ncurses_addstr_ok 5 120 [lit "a"; lit "b"; lit "c"] (MenuState [true; true; true] 0)
  = Ok (frame_draws 5 120 [lit "a"; lit "b"; lit "c"] (MenuState [true; true; true] 0))
  ∧ Draw 4 6 (lit "b") A_NORMAL
    ∈ frame_draws 5 120 [lit "a"; lit "b"; lit "c"] (MenuState [true; true; true] 0)
  ∧ Draw 4 48 (lit "Selected: 3/3 databases") (color_pair 2)
    ∈ frame_draws 5 120 [lit "a"; lit "b"; lit "c"] (MenuState [true; true; true] 0).
Proof.
  split; [vm_compute; reflexivity|]. split.
  - vm_compute. do 4 apply list_elem_of_further. apply list_elem_of_here.
  - vm_compute. do 6 apply list_elem_of_further. apply list_elem_of_here.
Qed.

Lemma forallb_Forall_true {A} (f : A → bool) (l : list A) :
  Forall (fun x => f x = true) l → forallb f l = true.
Proof. induction 1 as [|x l Hx _ IH]; simpl; [reflexivity | rewrite Hx, IH; reflexivity]. Qed.

Lemma existsb_Forall_false {A} (f : A → bool) (l : list A) :
  Forall (fun x => f x = false) l → existsb f l = false.
Proof. induction 1 as [|x l Hx _ IH]; simpl; [reflexivity | rewrite Hx, IH; reflexivity]. Qed.

(** X6: under the terminal model, a frame is drawn without error and without
    any text running past the right edge whenever the terminal has seven
    lines or more and 33 columns or more, the footer text is shorter than
    the width, and every name is printable ASCII and fits after column 6;
    whatever the cursor is. (A name of wide characters can run past the edge
    with the same number of characters, see the example that follows.) *)
Theorem frame_drawn_cleanly_on_large_terminal
    (height width : Z) (databases : list pystr) (st : menu_state) :
  7 <= height →
  33 <= width →
  length (selected st) = length databases →
  len (footer (selected st) databases) < width →
  (∀ db, db ∈ databases → printable_ascii db ∧ 6 + len db <= width) →
  ∃ ds,
    render ncurses_addstr_ok height width databases st = Ok ds
    ∧ existsb (wraps width) ds = false.
Proof.
  intros Hh Hw Hlen Hfoot Hnames.
  assert (Hall : Forall (fun d => draw_ok ncurses_addstr_ok height width d = true
                                  ∧ wraps width d = false
                                  ∧ last_row width d = draw_y d)
                        (frame_draws height width databases st)).
  { unfold frame_draws. apply Forall_app. split; [|apply Forall_app; split].
    - assert (Htitle : len title = 33) by reflexivity.
      pose proof (Z.mul_div_le (width - len title) 2 ltac:(lia)).
      pose proof (Z.div_pos (width - len title) 2 ltac:(lia) ltac:(lia)).
      pose proof (py_prefix_length instructions (width - 1) ltac:(lia)).
      pose proof (py_times_hrule_length (width - 1) ltac:(lia)).
      assert (Hins : Forall (fun c => wcwidth c = 1) instructions).
      { unfold instructions. repeat (apply Forall_app; split);
          first [apply lit_single_width | repeat constructor]. }
      repeat (constructor;
              [cbn [draw_y]; apply ncurses_accepts;
               first [lia | apply lit_single_width
                     | apply py_prefix_Forall; exact Hins
                     | apply py_times_Forall; repeat constructor]|]);
        constructor.
    - apply rows_draws_Forall. intros i db on Hi.
      pose proof (visible_databases_length height databases st Hh) as Hvis.
      assert (Hdb : db ∈ databases).
      { apply (py_slice_elem_of _ _ _ _ (proj2 (list_elem_of_lookup _ _) (ex_intro _ i Hi))). }
      destruct (Hnames db Hdb) as [Hascii Hfit]. apply lookup_lt_Some in Hi.
      apply row_draws_accepted; [exact Hascii|exact Hfit|lia|].
      unfold max_visible, start_row in *. lia.
    - pose proof (Z.mul_div_le (width - len (footer (selected st) databases)) 2 ltac:(lia)).
      pose proof (Z.div_pos (width - len (footer (selected st) databases)) 2
                    ltac:(lia) ltac:(lia)).
      pose proof (py_times_hrule_length (width - 1) ltac:(lia)).
      assert (0 <= len (footer (selected st) databases)) by (unfold len; lia).
      repeat (constructor;
              [cbn [draw_y]; apply ncurses_accepts;
               first [lia | apply footer_single_width
                     | apply py_times_Forall; repeat constructor]|]);
        constructor. }
  exists (frame_draws height width databases st). split.
  - rewrite render_spec by exact Hlen.
    rewrite forallb_Forall_true; [reflexivity|].
    eapply Forall_impl; [exact Hall|]. intros d (Hd & _). exact Hd.
  - apply existsb_Forall_false.
    eapply Forall_impl; [exact Hall|]. intros d (_ & Hd & _). exact Hd.
Qed.

Lemma frame_drawn_cleanly_on_large_terminal_witness :
  ∃ ds,
    render ncurses_addstr_ok 24 80 [lit "app"; lit "logs"; lit "users"]
           (MenuState [true; false; true] 1) = Ok ds
    ∧ existsb (wraps 80) ds = false.
Proof.
  apply (frame_drawn_cleanly_on_large_terminal 24 80 [lit "app"; lit "logs"; lit "users"]
           (MenuState [true; false; true] 1)).
  - lia.
  - lia.
  - reflexivity.
  - vm_compute. reflexivity.
  - intros db Hdb.
    repeat (apply elem_of_cons in Hdb as [-> | Hdb];
            [split; [apply printable_ascii_check; reflexivity
                  | vm_compute; discriminate]|]).
    apply elem_of_nil in Hdb. contradiction.
Defined.

(** A name of twenty wide characters has the length of one that fits after
    column 6 of a terminal 40 columns wide, and fills forty columns: the
    frame is drawn, and the name runs past the right edge. *)
Example wide_name_runs_past_the_edge :
  let name := py_times [20013] 20 in
  let databases := [lit "a"; name] in
  6 + len name <= 40
  ∧ ∃ ds, render ncurses_addstr_ok 24 40 databases (MenuState [true; true] 0) = Ok ds
          ∧ Draw 5 6 name A_NORMAL ∈ ds
          ∧ wraps 40 (Draw 5 6 name A_NORMAL) = true.
Proof.
  split; [vm_compute; discriminate|].
  eexists. split; [vm_compute; reflexivity|]. split; [|vm_compute; reflexivity].
  do 5 apply list_elem_of_further. apply list_elem_of_here.
Qed.

(* ===================================================================== *)
(** * Further properties of the backup orchestrator                       *)
(* ===================================================================== *)

Section ArchiveFacts.

Context (E : env) (self : tool).



(** The archive step when no archive is wanted. *)
Lemma archive_step_skipped (create_zip : bool) (success_count : Z)
    (backup_dir : path) (w : world) :
  create_zip && (success_count >? 0) = false →
  archive_step E self create_zip success_count backup_dir w = (Ok None, w).
Proof. intros H. unfold archive_step. rewrite H. reflexivity. Qed.

(** A run is the loop over the databases, then the archive step, then the
    report. *)
Lemma backup_databases_run (databases : list pystr) (create_zip : bool) (w0 : world)
    (zip_path : option path) (w2 : world) :
  databases ≠ [] →
  cooperative E →
  archive_step E self create_zip (succeeded (run_verdicts E self databases w0))
    (run_backup_dir E self w0) (after_dumps E self databases w0)
  = (Ok zip_path, w2) →
  backup_databases E self databases create_zip w0
  = (Ok tt,
     World (dirs w2) (files w2)
           (log w2 ++ summary_events (len databases)
                        (succeeded (run_verdicts E self databases w0))
                        (failed_names (run_verdicts E self databases w0))
                        (match create_zip, zip_path with
                         | true, Some zp => zp
                         | _, _ => run_backup_dir E self w0
                         end))
           (clock_reads w2) (spawns w2)).
Proof.
  intros Hne Hco Harch.
  destruct (after_dumps_spec E self databases w0 Hco) as (Hloop & _).
  destruct databases as [|d ds]; [contradiction|].
  remember (d :: ds) as dbs eqn:Hdbs.
  rewrite Hdbs at 1. unfold backup_databases. rewrite <- Hdbs.
  unfold datetime_now, print, emit, modify, gets, mbind, M_bind, mret, M_ret.
  cbn [dirs files log clock_reads spawns].
  cbv beta iota zeta in Hloop |- *.
  unfold run_timestamp, header_events, run_backup_dir, run_timestamp in Hloop.
  rewrite <- !app_assoc. simpl app.
  rewrite Hloop. cbv beta iota zeta. fold (run_timestamp E w0).
  fold (run_backup_dir E self w0). rewrite Harch.
  rewrite print_summary_spec. reflexivity.
Qed.

End ArchiveFacts.

Lemma human_readable_filename_last now :
  last (human_readable_filename now) = Some (ord "p").
Proof.
  unfold human_readable_filename.
  destruct (dt_hour now =? 0); [|destruct (dt_hour now <? 12); [|destruct (dt_hour now =? 12)]];
    change (lit ".zip") with ([46; 122; 105] ++ [ord "p"]);
    rewrite !app_assoc; apply last_snoc.
Qed.

Lemma strftime_timestamp_last now :
  0 <= dt_second now <= 59 →
  last (strftime_timestamp now) = Some (48 + dt_second now mod 10).
Proof.
  intros Hs. unfold strftime_timestamp.
  rewrite (format_02d_two_digits (dt_second now)) by lia.
  change (spec_two_digits (dt_second now))
    with ([48 + dt_second now / 10] ++ [48 + dt_second now mod 10]).
  rewrite !app_assoc. apply last_snoc.
Qed.

(** The directory name and the archive name of a run differ: one ends in a
    digit, the other in ".zip". *)
Lemma timestamp_is_no_zip_name now1 now2 :
  0 <= dt_second now1 <= 59 →
  strftime_timestamp now1 ≠ human_readable_filename now2.
Proof.
  intros Hs Heq.
  pose proof (strftime_timestamp_last now1 Hs) as H1.
  rewrite Heq, human_readable_filename_last in H1.
  injection H1 as H1. change (ord "p") with 112 in H1.
  pose proof (Z.mod_pos_bound (dt_second now1) 10 ltac:(lia)). lia.
Qed.

Lemma is_under_sibling (out : path) (a b : pystr) :
  a ≠ b → is_under (out ++ [a]) (out ++ [b]) = false.
Proof.
  intros Hne. unfold is_under. apply bool_decide_eq_false_2. intros Hp.
  apply prefix_app_inv, prefix_cons_inv_1 in Hp. contradiction.
Qed.




Lemma rmtrees_app l1 l2 : rmtrees (l1 ++ l2) = rmtrees l1 ++ rmtrees l2.
Proof. apply omap_app. Qed.

Lemma spawned_app l1 l2 : spawned (l1 ++ l2) = spawned l1 ++ spawned l2.
Proof. apply omap_app. Qed.

Section RunFacts.

Context (E : env) (self : tool).





End RunFacts.

Lemma stdout_of_app l1 l2 : stdout_of (l1 ++ l2) = stdout_of l1 ++ stdout_of l2.
Proof. apply omap_app. Qed.

(** The report ends with the line that names the location. *)
Lemma stdout_summary total sc failed location :
  ∃ before,
    stdout_of (summary_events total sc failed location)
    = before ++ [Location location; Rule].
Proof.
  destruct failed as [|db rest].
  - exists [Rule; BackupComplete; Successful sc total]. reflexivity.
  - exists [Rule; BackupComplete; Successful sc total;
            FailedList (len (db :: rest)) (db :: rest)]. reflexivity.
Qed.

(** X7: the last line but one that a run prints names a location, and that
    location exists when the run ends: it is the archive file when an
    archive was written (also after the directory was removed, in full or in
    part), and the timestamp directory otherwise. *)
Theorem reported_location_exists
    (E : env) (self : tool) (databases : list pystr) (create_zip : bool) (w0 : world) :
  databases ≠ [] →
  cooperative E →
  0 <= dt_second (clock E (clock_reads w0)) <= 59 →
  ∃ w' before loc,
    backup_databases E self databases create_zip w0 = (Ok tt, w')
    ∧ stdout_of (run_events E self databases create_zip w0)
      = before ++ [Location loc; Rule]
    ∧ (if archived E self databases create_zip w0
       then loc = run_zip_path E self w0 ∧ is_file w' loc = true
       else loc = run_backup_dir E self w0 ∧ is_dir w' loc = true).
Proof.
  intros Hne Hco Hsec.
  destruct (backup_databases_spec E self databases create_zip w0 Hne Hco)
    as (w' & l & Hrun & Hlog & _ & _ & _ & Hd & Hf).
  pose proof (run_events_spec E self _ _ _ _ _ Hrun Hlog) as Hev.
  destruct (stdout_summary (len databases)
              (succeeded (run_verdicts E self databases w0))
              (failed_names (run_verdicts E self databases w0))
              (final_location E self databases create_zip w0)) as [pre Hpre].
  exists w'. eexists. exists (final_location E self databases create_zip w0).
  split; [exact Hrun|]. split.
  { rewrite Hev, !stdout_of_app, Hpre, !app_assoc. reflexivity. }
  unfold final_location.
  destruct (archived E self databases create_zip w0) eqn:Harch.
  - split; [reflexivity|].
    assert (create_zip = true) as ->
      by (destruct create_zip; [reflexivity | discriminate]).
    assert (Hout : is_under (run_backup_dir E self w0) (run_zip_path E self w0) = false).
    { apply is_under_sibling, timestamp_is_no_zip_name, Hsec. }
    unfold archived in Harch. cbn [andb] in Harch.
    apply andb_true_iff in Harch as [Hsc Hw]. rewrite Hsc in Hf. cbn [andb] in Hf.
    unfold archive_writable in Hw. apply andb_true_iff in Hw as [Hopen _].
    rewrite Hopen in Hf.
    unfold is_file. rewrite Hf. apply bool_decide_eq_true_2.
    apply after_rmtree_outside; [exact Hout|].
    apply elem_of_add_path. right. reflexivity.
  - split; [reflexivity|].
    unfold is_dir. rewrite Hd. apply bool_decide_eq_true_2.
    destruct (after_dumps_spec E self databases w0 Hco) as (_ & _ & _ & _ & _ & Hmade).
    destruct databases as [|d ds]; [contradiction|]. apply (Hmade d). left.
Qed.

Lemma reported_location_exists_witness :
  let E := demo_env [Exited 0 [] [lit "app.bson"]; Exited 1 (lit "auth failed") [];
                     Exited 0 [] [lit "users.bson"]] true true in
  let w0 := fresh_world [] [] in
  ∃ w' before,
    backup_databases E demo_tool demo_databases true w0 = (Ok tt, w')
    ∧ stdout_of (run_events E demo_tool demo_databases true w0)
      = before ++ [Location [lit "backups"; lit "november_4_2026_10_05_am.zip"]; Rule]
    ∧ is_file w' [lit "backups"; lit "november_4_2026_10_05_am.zip"] = true
    ∧ is_dir w' [lit "backups"; lit "20261104_090507"] = false.
Proof.
  intros E w0.
  destruct (reported_location_exists E demo_tool demo_databases true w0)
    as (w' & before & loc & Hrun & Hout & Hloc).
  - discriminate.
  - apply demo_env_cooperative. reflexivity.
  - simpl. lia.
  - change (archived E demo_tool demo_databases true w0) with true in Hloc.
    destruct Hloc as [-> Hfile].
    exists w', before. split; [exact Hrun|]. split; [exact Hout|]. split; [exact Hfile|].
    assert (Hw : snd (backup_databases E demo_tool demo_databases true w0) = w')
      by (rewrite Hrun; reflexivity).
    rewrite <- Hw. vm_compute. reflexivity.
Defined.



(** The order of the entries is the file system's: in the outside of the
    fixtures, whose listings are in descending order, the file made last is
    stored first. *)
Example archive_entries_in_listing_order :
  let E := demo_env [Exited 0 [] [lit "app.bson"]; Exited 1 (lit "auth failed") [];
                     Exited 0 [] [lit "users.bson"; lit "users.metadata.json"]]
                    true true in
  let w0 := fresh_world [[lit "backups"]] [[lit "backups"; lit "old.zip"]] in
  snd <$> zip_entries (run_events E demo_tool demo_databases true w0)
  = [[lit "20261104_090507"; lit "users"; lit "users.metadata.json"];
     [lit "20261104_090507"; lit "users"; lit "users.bson"];
     [lit "20261104_090507"; lit "app"; lit "app.bson"]].
Proof. vm_compute. reflexivity. Qed.

(** X9: a run never removes a directory or a file that was on disk before
    and is not the timestamp directory of the run or below it, with or
    without archiving, whether the removal of the timestamp directory works
    or not. *)
Theorem run_keeps_what_is_outside_its_directory
    (E : env) (self : tool) (databases : list pystr) (create_zip : bool) (w0 : world)
    (p : path) :
  databases ≠ [] →
  cooperative E →
  0 <= dt_second (clock E (clock_reads w0)) <= 59 →
  is_under (run_backup_dir E self w0) p = false →
  ∃ w',
    backup_databases E self databases create_zip w0 = (Ok tt, w')
    ∧ (p ∈ dirs w0 → p ∈ dirs w')
    ∧ (p ∈ files w0 → p ∈ files w').
Proof.
  intros Hne Hco Hsec Hp.
  destruct (after_dumps_spec E self databases w0 Hco) as (_ & _ & _ & Hd1 & Hf1 & _).
  destruct (backup_databases_spec E self databases create_zip w0 Hne Hco)
    as (w' & l & Hrun & _ & _ & _ & _ & Hd & Hf).
  exists w'. split; [exact Hrun|]. split; intros Hin.
  - rewrite Hd. destruct (archived E self databases create_zip w0);
      [apply after_rmtree_outside; [exact Hp|]|]; exact (Hd1 _ Hin).
  - rewrite Hf.
    match goal with
    | |- context [after_rmtree E _ ?files1] =>
        assert (Hin1 : p ∈ files1)
          by (destruct (_ && zip_open_ok E _);
              [apply elem_of_add_path; left|]; exact (Hf1 _ Hin))
    end.
    destruct (archived E self databases create_zip w0);
      [apply after_rmtree_outside; [exact Hp|]|]; exact Hin1.
Qed.

Lemma run_keeps_what_is_outside_its_directory_witness :
  let E := demo_env [Exited 0 [] [lit "app.bson"]; Exited 0 [] []; Exited 0 [] []]
                    true true in
  let w0 := fresh_world [[lit "backups"]; [lit "backups"; lit "20261103_230000"]]
                        [[lit "backups"; lit "20261103_230000"; lit "app.bson"]] in
  ∃ w',
    backup_databases E demo_tool demo_databases true w0 = (Ok tt, w')
    ∧ [lit "backups"; lit "20261103_230000"] ∈ dirs w'
    ∧ [lit "backups"; lit "20261103_230000"; lit "app.bson"] ∈ files w'.
Proof.
  intros E w0.
  assert (Hco : cooperative E) by (apply demo_env_cooperative; reflexivity).
  destruct (run_keeps_what_is_outside_its_directory E demo_tool demo_databases true w0
              [lit "backups"; lit "20261103_230000"])
    as (w' & Hrun & Hd & _); [discriminate | exact Hco | simpl; lia
                             | vm_compute; reflexivity |].
  destruct (run_keeps_what_is_outside_its_directory E demo_tool demo_databases true w0
              [lit "backups"; lit "20261103_230000"; lit "app.bson"])
    as (w'' & Hrun' & _ & Hf); [discriminate | exact Hco | simpl; lia
                               | vm_compute; reflexivity |].
  rewrite Hrun in Hrun'. injection Hrun' as <-.
  exists w'. split; [exact Hrun|]. split.
  - apply Hd. right. left.
  - apply Hf. left.
Defined.

(** X10: when archiving is requested but no dump exits with status zero, the
    archive step does nothing: the clock is not read for an archive name, no
    archive is opened, nothing is removed, and the log is the header, the
    attempts and the report, which names the timestamp directory. *)
Theorem no_successful_dump_means_no_archive
    (E : env) (self : tool) (databases : list pystr) (w0 : world) :
  databases ≠ [] →
  cooperative E →
  (∀ k cmd, exits_zero E k cmd = false) →
  ∃ w',
    backup_databases E self databases true w0 = (Ok tt, w')
    ∧ run_events E self databases true w0
      = header_events E self databases w0
        ++ attempts_events E self (run_timestamp E w0) (spawns w0) databases
        ++ summary_events (len databases) 0 databases (run_backup_dir E self w0)
    ∧ dirs w' = dirs (after_dumps E self databases w0)
    ∧ files w' = files (after_dumps E self databases w0)
    ∧ clock_reads w' = S (clock_reads w0).
Proof.
  intros Hne Hco Hz.
  destruct (verdicts_all_failed E self (run_timestamp E w0) databases (spawns w0) Hz)
    as [Hsc Hfailed].
  destruct (after_dumps_spec E self databases w0 Hco) as (_ & Hlog1 & Hck & _).
  pose proof (backup_databases_run E self databases true w0 None
                (after_dumps E self databases w0) Hne Hco) as Hrun.
  unfold run_verdicts in Hrun. rewrite Hsc, Hfailed in Hrun.
  specialize (Hrun (archive_step_skipped E self true 0 _ _ eq_refl)).
  eexists. split; [exact Hrun|]. cbn [dirs files clock_reads].
  split; [|split; [reflexivity|split; [reflexivity|exact Hck]]].
  apply (run_events_spec E self _ _ _ _ _ Hrun). cbn [log].
  rewrite Hlog1, <- !app_assoc. reflexivity.
Qed.

Lemma no_successful_dump_means_no_archive_witness :
  let E := demo_env [Exited 1 (lit "auth failed") []] true true in
  let w0 := fresh_world [] [] in
  ∃ w',
    backup_databases E demo_tool demo_databases true w0 = (Ok tt, w')
    ∧ files w' = []
    ∧ clock_reads w' = 1%nat.
Proof.
  intros E w0.
  destruct (no_successful_dump_means_no_archive E demo_tool demo_databases w0)
    as (w' & Hrun & _ & _ & Hf & Hck).
  - discriminate.
  - apply demo_env_cooperative. reflexivity.
  - intros [|[|k]] cmd; reflexivity.
  - exists w'. split; [exact Hrun|]. split; [rewrite Hf; vm_compute; reflexivity | exact Hck].
Defined.

Section AbortFacts.

Context (E : env) (self : tool).

(** Lines 230-281 for a non-empty list, phase by phase. *)
Lemma backup_databases_unfold (databases : list pystr) (create_zip : bool) (w0 : world) :
  databases ≠ [] →
  backup_databases E self databases create_zip w0
  = match dump_loop E self databases (run_timestamp E w0) 0 []
            (World (dirs w0) (files w0) (log w0 ++ header_events E self databases w0)
                   (S (clock_reads w0)) (spawns w0)) with
    | (Ok (success_count, failed_dbs), w1) =>
        match archive_step E self create_zip success_count (run_backup_dir E self w0) w1 with
        | (Ok zip_path, w2) =>
            print_summary databases create_zip success_count failed_dbs zip_path
              (run_backup_dir E self w0) w2
        | (Raise e, w2) => (Raise e, w2)
        end
    | (Raise e, w1) => (Raise e, w1)
    end.
Proof.
  intros Hne. destruct databases as [|d ds]; [contradiction|].
  remember (d :: ds) as dbs eqn:Hdbs.
  rewrite Hdbs at 1. unfold backup_databases. rewrite <- Hdbs.
  unfold datetime_now, print, emit, modify, gets, mbind, M_bind, mret, M_ret.
  cbn [dirs files log clock_reads spawns]. cbv beta iota zeta.
  unfold header_events, run_backup_dir, run_timestamp.
  rewrite <- !app_assoc. simpl app.
  destruct (dump_loop _ _ _ _ _ _ _) as [[[sc failed]|e] w1]; reflexivity.
Qed.

Lemma run_mongodump_cannot_execute (db timestamp : pystr) (w : world) :
  makedirs_ok E (output_dir self ++ [timestamp; db]) = true →
  spawn E (spawns w) (dump_cmd self timestamp db) = CannotExecute →
  run_mongodump E self db timestamp w
  = (Raise PermissionError,
     World (foldl add_path (dirs w) (ancestors (output_dir self ++ [timestamp; db])))
           (files w)
           (log w ++ [Makedirs (output_dir self ++ [timestamp; db]);
                      Stdout (BackingUp db); Spawn (dump_cmd self timestamp db)])
           (clock_reads w) (S (spawns w))).
Proof.
  intros Hmk Hsp. unfold run_mongodump, os_makedirs, subprocess_run.
  fold (dump_cmd self timestamp db). run_M. rewrite Hmk. simpl. rewrite Hsp. simpl.
  rewrite <- !app_assoc. reflexivity.
Qed.

Lemma run_mongodump_undecodable (db timestamp : pystr) (w : world)
    (rc : Z) (written : list pystr) :
  makedirs_ok E (output_dir self ++ [timestamp; db]) = true →
  spawn E (spawns w) (dump_cmd self timestamp db) = Undecodable rc written →
  run_mongodump E self db timestamp w
  = (Raise UnicodeDecodeError,
     World (foldl add_path (dirs w) (ancestors (output_dir self ++ [timestamp; db])))
           (foldl add_path (files w)
              ((fun f => (output_dir self ++ [timestamp]) ++ [db; f]) <$> written))
           (log w ++ [Makedirs (output_dir self ++ [timestamp; db]);
                      Stdout (BackingUp db); Spawn (dump_cmd self timestamp db)])
           (clock_reads w) (S (spawns w))).
Proof.
  intros Hmk Hsp. unfold run_mongodump, os_makedirs, subprocess_run.
  fold (dump_cmd self timestamp db). run_M. rewrite Hmk. simpl. rewrite Hsp. simpl.
  rewrite <- !app_assoc. reflexivity.
Qed.

Lemma run_mongodump_makedirs_fails (db timestamp : pystr) (w : world) :
  makedirs_ok E (output_dir self ++ [timestamp; db]) = false →
  run_mongodump E self db timestamp w
  = (Raise OSError,
     World (dirs w) (files w)
           (log w ++ [Makedirs (output_dir self ++ [timestamp; db])])
           (clock_reads w) (spawns w)).
Proof.
  intros Hmk. unfold run_mongodump, os_makedirs. run_M. rewrite Hmk. reflexivity.
Qed.

(** The loop up to a database: as long as the directories can be made and
    the utility runs, with output that is decoded, or is missing, the loop
    goes on to the next database. *)
Lemma dump_loop_prefix (timestamp : pystr) (pre rest : list pystr) :
  (∀ d, d ∈ pre → makedirs_ok E (output_dir self ++ [timestamp; d]) = true) →
  ∀ sc failed w,
    (∀ k cmd, (k < spawns w + length pre)%nat → handled (spawn E k cmd) = true) →
    ∃ sc1 failed1 w1,
      dump_loop E self (pre ++ rest) timestamp sc failed w
      = dump_loop E self rest timestamp sc1 failed1 w1
      ∧ log w1 = log w ++ attempts_events E self timestamp (spawns w) pre
      ∧ spawns w1 = (spawns w + length pre)%nat.
Proof.
  induction pre as [|d pre IH]; intros Hmk sc failed w Hsp.
  - exists sc, failed, w. simpl. rewrite app_nil_r, Nat.add_0_r. auto.
  - destruct (run_mongodump_spec E self d timestamp w)
      as (w' & Hrun & Hlog & Hk & _).
    { apply Hmk. left. }
    { apply Hsp. simpl. lia. }
    assert (Hmk' : ∀ d', d' ∈ pre →
               makedirs_ok E (output_dir self ++ [timestamp; d']) = true)
      by (intros d' Hd'; apply Hmk; right; exact Hd').
    assert (Hsp' : ∀ k cmd, (k < spawns w' + length pre)%nat →
               handled (spawn E k cmd) = true)
      by (intros k cmd Hlt; apply Hsp; simpl; lia).
    cbn [app dump_loop]. unfold mbind, M_bind. rewrite Hrun.
    destruct (exits_zero E (spawns w) (dump_cmd self timestamp d));
      [destruct (IH Hmk' (sc + 1) failed w' Hsp') as (sc1 & f1 & w1 & Heq & Hl & Hs)
      |destruct (IH Hmk' sc (failed ++ [d]) w' Hsp') as (sc1 & f1 & w1 & Heq & Hl & Hs)];
      exists sc1, f1, w1; (split; [exact Heq|]);
      (split; [rewrite Hl, Hlog, Hk, <- app_assoc; reflexivity | rewrite Hs, Hk; simpl; lia]).
Qed.

Lemma no_report_in_attempts (timestamp : pystr) (databases : list pystr) (k : nat) :
  ¬ (Stdout BackupComplete ∈ attempts_events E self timestamp k databases).
Proof.
  revert k. induction databases as [|db rest IH]; intros k H; cbn [attempts_events] in H.
  - apply elem_of_nil in H. exact H.
  - apply elem_of_app in H as [H | H]; [|exact (IH _ H)].
    unfold attempt_events in H.
    destruct (spawn E k _) as [rc ? ?| | |]; [destruct (rc =? 0)| | |];
      repeat (apply elem_of_cons in H as [H | H]; [discriminate|]);
      apply elem_of_nil in H; exact H.
Qed.



End AbortFacts.




(** X11: a dump utility that exists but cannot be started is not among the
    failures the loop records. The [PermissionError] of that attempt leaves
    [backup_databases]: the databases after it are not attempted, no archive
    step runs and no report is printed. *)
Theorem unstartable_utility_aborts_run
    (E : env) (self : tool) (pre post : list pystr) (db : pystr)
    (create_zip : bool) (w0 : world) :
  (∀ p, makedirs_ok E p = true) →
  (∀ k cmd, (k < spawns w0 + length pre)%nat → handled (spawn E k cmd) = true) →
  spawn E (spawns w0 + length pre) (dump_cmd self (run_timestamp E w0) db)
  = CannotExecute →
  let events := run_events E self (pre ++ db :: post) create_zip w0 in
  fst (backup_databases E self (pre ++ db :: post) create_zip w0) = Raise PermissionError
  ∧ spawned events = dump_cmd self (run_timestamp E w0) <$> (pre ++ [db])
  ∧ rmtrees events = []
  ∧ ¬ (Stdout BackupComplete ∈ events).
Proof.
  intros Hmk Hsp Hbad events.
  assert (Hne : pre ++ db :: post ≠ []) by (destruct pre; discriminate).
  pose proof (backup_databases_unfold E self (pre ++ db :: post) create_zip w0 Hne) as Hun.
  destruct (dump_loop_prefix E self (run_timestamp E w0) pre (db :: post)
              (fun d _ => Hmk _) 0 []
              (World (dirs w0) (files w0)
                     (log w0 ++ header_events E self (pre ++ db :: post) w0)
                     (S (clock_reads w0)) (spawns w0)) Hsp)
    as (sc1 & f1 & w1 & Heq & Hlog1 & Hk1).
  cbn [log spawns] in Hlog1, Hk1.
  rewrite Heq in Hun. cbn [dump_loop] in Hun. unfold mbind, M_bind in Hun.
  rewrite (run_mongodump_cannot_execute E self db (run_timestamp E w0) w1 (Hmk _)) in Hun
    by (rewrite Hk1; exact Hbad).
  assert (Hev : events
                = header_events E self (pre ++ db :: post) w0
                  ++ attempts_events E self (run_timestamp E w0) (spawns w0) pre
                  ++ [Makedirs (output_dir self ++ [run_timestamp E w0; db]);
                      Stdout (BackingUp db);
                      Spawn (dump_cmd self (run_timestamp E w0) db)]).
  { unfold events, run_events. rewrite Hun. cbn [snd log]. rewrite Hlog1.
    rewrite <- !app_assoc. apply drop_app_length. }
  rewrite Hun. split; [reflexivity|]. rewrite Hev. split; [|split].
  - rewrite !spawned_app, spawned_attempts, fmap_app. reflexivity.
  - rewrite !rmtrees_app, rmtrees_attempts. reflexivity.
  - intros Hin. apply elem_of_app in Hin as [Hin | Hin].
    + unfold header_events in Hin.
      repeat (apply elem_of_cons in Hin as [Hin | Hin]; [discriminate|]).
      apply elem_of_nil in Hin. exact Hin.
    + apply elem_of_app in Hin as [Hin | Hin];
        [exact (no_report_in_attempts E self _ _ _ Hin)|].
      repeat (apply elem_of_cons in Hin as [Hin | Hin]; [discriminate|]).
      apply elem_of_nil in Hin. exact Hin.
Qed.

Lemma unstartable_utility_aborts_run_witness :
  let E := demo_env [Exited 0 [] [lit "app.bson"]; CannotExecute] true true in
  let w0 := fresh_world [] [] in
  fst (backup_databases E demo_tool ([lit "app"] ++ lit "logs" :: [lit "users"]) true w0)
  = Raise PermissionError
  ∧ length (spawned (run_events E demo_tool ([lit "app"] ++ lit "logs" :: [lit "users"])
                                true w0)) = 2%nat.
Proof.
  intros E w0.
  destruct (unstartable_utility_aborts_run E demo_tool [lit "app"] [lit "users"]
              (lit "logs") true w0) as (Hr & Hs & _).
  - reflexivity.
  - intros k cmd Hk. simpl in Hk. assert (k = 0%nat) as -> by lia. reflexivity.
  - reflexivity.
  - split; [exact Hr|]. rewrite Hs. reflexivity.
Defined.

(** X12: when the directory of a database cannot be made, the [OSError]
    leaves [backup_databases] before the dump utility is started for that
    database: it and the databases after it are not attempted, and no report
    is printed. *)
Theorem makedirs_failure_aborts_run
    (E : env) (self : tool) (pre post : list pystr) (db : pystr)
    (create_zip : bool) (w0 : world) :
  (∀ d, d ∈ pre → makedirs_ok E (output_dir self ++ [run_timestamp E w0; d]) = true) →
  (∀ k cmd, (k < spawns w0 + length pre)%nat → handled (spawn E k cmd) = true) →
  makedirs_ok E (output_dir self ++ [run_timestamp E w0; db]) = false →
  let events := run_events E self (pre ++ db :: post) create_zip w0 in
  fst (backup_databases E self (pre ++ db :: post) create_zip w0) = Raise OSError
  ∧ spawned events = dump_cmd self (run_timestamp E w0) <$> pre
  ∧ rmtrees events = []
  ∧ ¬ (Stdout BackupComplete ∈ events).
Proof.
  intros Hmk Hsp Hbad events.
  assert (Hne : pre ++ db :: post ≠ []) by (destruct pre; discriminate).
  pose proof (backup_databases_unfold E self (pre ++ db :: post) create_zip w0 Hne) as Hun.
  destruct (dump_loop_prefix E self (run_timestamp E w0) pre (db :: post) Hmk 0 []
              (World (dirs w0) (files w0)
                     (log w0 ++ header_events E self (pre ++ db :: post) w0)
                     (S (clock_reads w0)) (spawns w0)) Hsp)
    as (sc1 & f1 & w1 & Heq & Hlog1 & Hk1).
  cbn [log spawns] in Hlog1, Hk1.
  rewrite Heq in Hun. cbn [dump_loop] in Hun. unfold mbind, M_bind in Hun.
  rewrite (run_mongodump_makedirs_fails E self db (run_timestamp E w0) w1 Hbad) in Hun.
  assert (Hev : events
                = header_events E self (pre ++ db :: post) w0
                  ++ attempts_events E self (run_timestamp E w0) (spawns w0) pre
                  ++ [Makedirs (output_dir self ++ [run_timestamp E w0; db])]).
  { unfold events, run_events. rewrite Hun. cbn [snd log]. rewrite Hlog1.
    rewrite <- !app_assoc. apply drop_app_length. }
  rewrite Hun. split; [reflexivity|]. rewrite Hev. split; [|split].
  - rewrite !spawned_app, spawned_attempts. simpl. rewrite app_nil_r. reflexivity.
  - rewrite !rmtrees_app, rmtrees_attempts. reflexivity.
  - intros Hin. apply elem_of_app in Hin as [Hin | Hin].
    + unfold header_events in Hin.
      repeat (apply elem_of_cons in Hin as [Hin | Hin]; [discriminate|]).
      apply elem_of_nil in Hin. exact Hin.
    + apply elem_of_app in Hin as [Hin | Hin];
        [exact (no_report_in_attempts E self _ _ _ Hin)|].
      repeat (apply elem_of_cons in Hin as [Hin | Hin]; [discriminate|]).
      apply elem_of_nil in Hin. exact Hin.
Qed.

Lemma makedirs_failure_aborts_run_witness :
  let E := Env (fun _ => DateTime 2026 11 4 9 5 7)
               (fun p => negb (bool_decide (p = [lit "backups"; lit "20261104_090507"; lit "logs"])))
               (fun _ _ => Exited 0 [] []) (fun _ => true) (fun _ => true)
               (fun _ => true) (fun _ _ => false) (fun _ _ => true) in
  let w0 := fresh_world [] [] in
  fst (backup_databases E demo_tool ([lit "app"] ++ lit "logs" :: [lit "users"]) false w0)
  = Raise OSError
  ∧ length (spawned (run_events E demo_tool ([lit "app"] ++ lit "logs" :: [lit "users"])
                                false w0)) = 1%nat.
Proof.
  intros E w0.
  destruct (makedirs_failure_aborts_run E demo_tool [lit "app"] [lit "users"]
              (lit "logs") false w0) as (Hr & Hs & _).
  - intros d Hd. apply list_elem_of_singleton in Hd as ->. vm_compute. reflexivity.
  - intros k cmd _. reflexivity.
  - vm_compute. reflexivity.
  - split; [exact Hr|]. rewrite Hs. reflexivity.
Defined.

(** X18: a dump whose output cannot be decoded is not among the failures
    the loop records, whatever its exit status. The [UnicodeDecodeError] of
    that attempt leaves [backup_databases]: the files that dump wrote are on
    disk, the databases after it are not attempted, nothing is removed and
    no report is printed. *)
Theorem undecodable_output_aborts_run
    (E : env) (self : tool) (pre post : list pystr) (db : pystr)
    (create_zip : bool) (w0 : world) (rc : Z) (written : list pystr) :
  (∀ p, makedirs_ok E p = true) →
  (∀ k cmd, (k < spawns w0 + length pre)%nat → handled (spawn E k cmd) = true) →
  spawn E (spawns w0 + length pre) (dump_cmd self (run_timestamp E w0) db)
  = Undecodable rc written →
  let events := run_events E self (pre ++ db :: post) create_zip w0 in
  let w' := snd (backup_databases E self (pre ++ db :: post) create_zip w0) in
  fst (backup_databases E self (pre ++ db :: post) create_zip w0)
  = Raise UnicodeDecodeError
  ∧ spawned events = dump_cmd self (run_timestamp E w0) <$> (pre ++ [db])
  ∧ rmtrees events = []
  ∧ ¬ (Stdout BackupComplete ∈ events)
  ∧ ∀ f, f ∈ written → run_backup_dir E self w0 ++ [db; f] ∈ files w'.
Proof.
  intros Hmk Hsp Hbad events w'.
  assert (Hne : pre ++ db :: post ≠ []) by (destruct pre; discriminate).
  pose proof (backup_databases_unfold E self (pre ++ db :: post) create_zip w0 Hne) as Hun.
  destruct (dump_loop_prefix E self (run_timestamp E w0) pre (db :: post)
              (fun d _ => Hmk _) 0 []
              (World (dirs w0) (files w0)
                     (log w0 ++ header_events E self (pre ++ db :: post) w0)
                     (S (clock_reads w0)) (spawns w0)) Hsp)
    as (sc1 & f1 & w1 & Heq & Hlog1 & Hk1).
  cbn [log spawns] in Hlog1, Hk1.
  rewrite Heq in Hun. cbn [dump_loop] in Hun. unfold mbind, M_bind in Hun.
  rewrite (run_mongodump_undecodable E self db (run_timestamp E w0) w1 rc written
             (Hmk _)) in Hun
    by (rewrite Hk1; exact Hbad).
  assert (Hev : events
                = header_events E self (pre ++ db :: post) w0
                  ++ attempts_events E self (run_timestamp E w0) (spawns w0) pre
                  ++ [Makedirs (output_dir self ++ [run_timestamp E w0; db]);
                      Stdout (BackingUp db);
                      Spawn (dump_cmd self (run_timestamp E w0) db)]).
  { unfold events, run_events. rewrite Hun. cbn [snd log]. rewrite Hlog1.
    rewrite <- !app_assoc. apply drop_app_length. }
  unfold w'. rewrite Hun. split; [reflexivity|]. rewrite Hev.
  split; [|split; [|split]].
  - rewrite !spawned_app, spawned_attempts, fmap_app. reflexivity.
  - rewrite !rmtrees_app, rmtrees_attempts. reflexivity.
  - intros Hin. apply elem_of_app in Hin as [Hin | Hin].
    + unfold header_events in Hin.
      repeat (apply elem_of_cons in Hin as [Hin | Hin]; [discriminate|]).
      apply elem_of_nil in Hin. exact Hin.
    + apply elem_of_app in Hin as [Hin | Hin];
        [exact (no_report_in_attempts E self _ _ _ Hin)|].
      repeat (apply elem_of_cons in Hin as [Hin | Hin]; [discriminate|]).
      apply elem_of_nil in Hin. exact Hin.
  - intros f Hf. cbn [snd files]. apply elem_of_foldl_add_path. right.
    apply list_elem_of_fmap. exists f. split; [reflexivity | exact Hf].
Qed.

Lemma undecodable_output_aborts_run_witness :
  let E := demo_env [Exited 0 [] [lit "app.bson"]; Undecodable 0 [lit "logs.bson"]]
                    true true in
  let w0 := fresh_world [] [] in
  let dbs := [lit "app"] ++ lit "logs" :: [lit "users"] in
  fst (backup_databases E demo_tool dbs true w0) = Raise UnicodeDecodeError
  ∧ length (spawned (run_events E demo_tool dbs true w0)) = 2%nat
  ∧ [lit "backups"; lit "20261104_090507"; lit "logs"; lit "logs.bson"]
    ∈ files (snd (backup_databases E demo_tool dbs true w0)).
Proof.
  intros E w0 dbs.
  destruct (undecodable_output_aborts_run E demo_tool [lit "app"] [lit "users"]
              (lit "logs") true w0 0 [lit "logs.bson"]) as (Hr & Hs & _ & _ & Hf).
  - reflexivity.
  - intros k cmd Hk. simpl in Hk. assert (k = 0%nat) as -> by lia. reflexivity.
  - reflexivity.
  - split; [exact Hr|]. split; [unfold dbs; rewrite Hs; reflexivity|].
    apply (Hf (lit "logs.bson")). left.
Defined.

(* ===================================================================== *)
(** * Properties of the database lister and of the entry point            *)
(* ===================================================================== *)

Lemma str_leb_total (a b : pystr) : str_leb a b = true ∨ str_leb b a = true.
Proof.
  revert b. induction a as [|x a IH]; intros [|y b]; simpl; auto.
  destruct (Z.ltb_spec x y); [left; reflexivity|].
  destruct (Z.ltb_spec y x); [right; reflexivity|].
  assert (x = y) as -> by lia. rewrite Z.eqb_refl. simpl. apply IH.
Qed.

Lemma str_leb_trans (a b c : pystr) :
  str_leb a b = true → str_leb b c = true → str_leb a c = true.
Proof.
  revert b c. induction a as [|x a IH]; intros [|y b] [|z c]; simpl; auto;
    try discriminate.
  intros Hab Hbc.
  apply orb_true_iff in Hab as [Hab%Z.ltb_lt | [Hab%Z.eqb_eq Hab']%andb_true_iff];
    apply orb_true_iff in Hbc as [Hbc%Z.ltb_lt | [Hbc%Z.eqb_eq Hbc']%andb_true_iff];
    apply orb_true_iff.
  - left. apply Z.ltb_lt. lia.
  - left. apply Z.ltb_lt. lia.
  - left. apply Z.ltb_lt. lia.
  - right. apply andb_true_iff. split; [apply Z.eqb_eq; lia | exact (IH _ _ Hab' Hbc')].
Qed.

Lemma str_leb_antisym (a b : pystr) :
  str_leb a b = true → str_leb b a = true → a = b.
Proof.
  revert b. induction a as [|x a IH]; intros [|y b]; simpl; auto; try discriminate.
  intros Hab Hba.
  apply orb_true_iff in Hab as [Hab%Z.ltb_lt | [Hab%Z.eqb_eq Hab']%andb_true_iff];
    apply orb_true_iff in Hba as [Hba%Z.ltb_lt | [Hba%Z.eqb_eq Hba']%andb_true_iff];
    try lia.
  subst. f_equal. exact (IH _ Hab' Hba').
Qed.

#[global] Instance str_le_total : Total str_le.
Proof. intros a b. apply str_leb_total. Qed.

#[global] Instance str_le_trans : Transitive str_le.
Proof. intros a b c. apply str_leb_trans. Qed.

#[global] Instance str_le_antisym : AntiSymm (=) str_le.
Proof. intros a b. apply str_leb_antisym. Qed.

Lemma get_databases_members (exclude_system_dbs : bool) (names : list pystr) :
  ∃ databases,
    get_databases exclude_system_dbs (Names names) = ([], Value databases)
    ∧ ∀ db, db ∈ databases
            ↔ db ∈ names ∧ (exclude_system_dbs = true → db ∉ system_dbs).
Proof.
  eexists. split; [reflexivity|].
  intros db. unfold py_sorted. rewrite (merge_sort_Permutation str_le).
  destruct exclude_system_dbs.
  - rewrite list_elem_of_filter. split.
    + intros [Hn Hin]. split; [exact Hin | intros _; exact Hn].
    + intros [Hin Hn]. split; [exact (Hn eq_refl) | exact Hin].
  - split; [intros Hin; split; [exact Hin | discriminate] | intros [Hin _]; exact Hin].
Qed.

(** X13: when the server answers with its names, [get_databases] returns
    them in ascending order, each as often as the server listed it, without
    the three reserved names when they are excluded and with them otherwise;
    and this is the only ascending arrangement of these names. *)
Theorem get_databases_sorted_without_reserved_names
    (exclude_system_dbs : bool) (names : list pystr) :
  ∃ databases,
    get_databases exclude_system_dbs (Names names) = ([], Value databases)
    ∧ Sorted str_le databases
    ∧ databases ≡ₚ (if exclude_system_dbs
                    then filter (fun db => db ∉ system_dbs) names
                    else names)
    ∧ (∀ db, db ∈ databases
             ↔ db ∈ names ∧ (exclude_system_dbs = true → db ∉ system_dbs))
    ∧ (∀ other, Sorted str_le other → other ≡ₚ databases → other = databases).
Proof.
  destruct (get_databases_members exclude_system_dbs names) as (databases & Hget & Hmem).
  exists databases. split; [exact Hget|]. injection Hget as <-.
  split; [apply (Sorted_merge_sort str_le)|].
  split; [apply (merge_sort_Permutation str_le)|]. split; [exact Hmem|].
  intros other Hs Hp.
  apply (Sorted_unique str_le); [exact Hs | apply (Sorted_merge_sort str_le) | exact Hp].
Qed.

Example get_databases_on_fixture :
  get_databases true (Names [lit "users"; lit "admin"; lit "app"; lit "local"; lit "Logs"])
  = ([], Value [lit "Logs"; lit "app"; lit "users"])
  ∧ get_databases false (Names [lit "users"; lit "admin"; lit "app"])
    = ([], Value [lit "admin"; lit "app"; lit "users"])
  ∧ get_databases true (ConnectionFailure (lit "timed out"))
    = ([Err (ConnectFailed (lit "timed out"))], SysExit 1).
Proof. vm_compute. repeat split. Qed.

(** X14: a name given with [--databases] that the lister did not return,
    because the server does not have it or because it is a reserved name and
    [--all] was not given, makes [main] leave with status 1 before anything
    is dumped: the world is as it was, the names not found are reported in
    the order they were given, and the names available are listed. *)
Theorem main_rejects_unknown_database
    (addstr_ok : Z -> Z -> Z -> Z -> pystr -> bool) (E : env) (args : cli_args)
    (names requested : list pystr) (frames : list frame_input) (w : world)
    (good bad : pystr) :
  args_list args = false →
  args_databases args = Some requested →
  good ∈ names ∧ (args_all args = false → good ∉ system_dbs) →
  bad ∈ requested →
  bad ∉ names ∨ (args_all args = false ∧ bad ∈ system_dbs) →
  ∃ databases invalid,
    get_databases (negb (args_all args)) (Names names) = ([], Value databases)
    ∧ invalid = filter (fun db => db ∉ databases) requested
    ∧ bad ∈ invalid
    ∧ main addstr_ok E args (Names names) frames w
      = ([Err (DatabasesNotFound invalid); Out (AvailableList databases)],
         Ok (MainExits 1), w).
Proof.
  intros Hlist Hreq [Hgood Hgood'] Hbad Hwhy.
  destruct (get_databases_members (negb (args_all args)) names)
    as (databases & Hget & Hmem).
  exists databases, (filter (fun db => db ∉ databases) requested).
  split; [exact Hget|]. split; [reflexivity|].
  assert (Hbad' : bad ∈ filter (fun db => db ∉ databases) requested).
  { apply list_elem_of_filter. split; [|exact Hbad]. intros Hin.
    apply Hmem in Hin as [Hin Hsys].
    destruct Hwhy as [Hno | [Hall Hres]]; [exact (Hno Hin)|].
    apply Hsys; [rewrite Hall; reflexivity | exact Hres]. }
  split; [exact Hbad'|].
  assert (Hgood_in : good ∈ databases).
  { apply Hmem. split; [exact Hgood|]. intros Hall. apply Hgood'.
    destruct (args_all args); [discriminate | reflexivity]. }
  unfold main. rewrite Hget, Hlist, Hreq.
  destruct databases as [|d ds]; [apply elem_of_nil in Hgood_in; contradiction|].
  destruct requested as [|r rs]; [apply elem_of_nil in Hbad; contradiction|].
  destruct (filter (fun db => db ∉ d :: ds) (r :: rs)) as [|i0 is0] eqn:Hf;
    [apply elem_of_nil in Hbad'; contradiction|].
  reflexivity.
Qed.

Lemma main_rejects_unknown_database_witness :
  let args := Args (lit "mongodb://localhost:27017") (Some [lit "app"; lit "admin"])
                   [lit "backups"] false false true in
  let E := demo_env [] true true in
  main ncurses_addstr_ok E args (Names [lit "admin"; lit "app"; lit "users"]) []
       (fresh_world [] [])
  = ([Err (DatabasesNotFound [lit "admin"]); Out (AvailableList [lit "app"; lit "users"])],
     Ok (MainExits 1), fresh_world [] []).
Proof.
  intros args E.
  destruct (main_rejects_unknown_database ncurses_addstr_ok E args
              [lit "admin"; lit "app"; lit "users"] [lit "app"; lit "admin"] []
              (fresh_world [] []) (lit "app") (lit "admin"))
    as (databases & invalid & Hget & Hinv & _ & Hmain).
  - reflexivity.
  - reflexivity.
  - split; [right; left|]. intros _ Hin.
    repeat (apply elem_of_cons in Hin as [Hin | Hin]; [discriminate|]).
    apply elem_of_nil in Hin. exact Hin.
  - right. left.
  - right. split; [reflexivity | left].
  - injection Hget as <-. rewrite Hinv in Hmain. exact Hmain.
Defined.

(** X15: whatever the command line, the server and the keys are, [main]
    either leaves the world as it was, or it ran [backup_databases] on a
    list that is not empty and holds only names the server listed, none of
    them reserved unless [--all] was given. *)
Theorem main_backs_up_only_listed_databases
    (addstr_ok : Z -> Z -> Z -> Z -> pystr -> bool) (E : env) (args : cli_args)
    (reply : server_reply) (frames : list frame_input) (w : world) :
  (main addstr_ok E args reply frames w).2 = w
  ∨ ∃ names selected,
      reply = Names names
      ∧ selected ≠ []
      ∧ (∀ db, db ∈ selected →
           db ∈ names ∧ (args_all args = false → db ∉ system_dbs))
      ∧ main addstr_ok E args reply frames w
        = main_backup E (Tool (args_url args) (args_output args)) selected
                      (args_zip args) w.
Proof.
  destruct reply as [names| | |]; try (left; reflexivity).
  destruct (get_databases_members (negb (args_all args)) names)
    as (databases & Hget & Hmem).
  assert (Hok : ∀ db, db ∈ databases →
            db ∈ names ∧ (args_all args = false → db ∉ system_dbs)).
  { intros db Hin. apply Hmem in Hin as [Hin Hsys]. split; [exact Hin|].
    intros Hall. apply Hsys. rewrite Hall. reflexivity. }
  unfold main. rewrite Hget.
  destruct databases as [|d ds]; [left; reflexivity|].
  destruct (args_list args); [left; reflexivity|].
  destruct (args_databases args) as [[|r rs]|].
  - destruct (checkbox_menu addstr_ok (d :: ds) frames) as [[sel|]| |] eqn:Hmenu;
      try (left; reflexivity).
    right. exists names, sel.
    destruct (menu_loop_returns_sublist addstr_ok _ _ _ _ Hmenu)
      as [Hne Hsub].
    repeat split; try assumption;
      apply (Hok db), (elem_of_sublist _ _ _ H Hsub).
  - destruct (filter (fun db => db ∉ d :: ds) (r :: rs)) as [|i0 is0] eqn:Hf;
      [|left; reflexivity].
    right. exists names, (r :: rs). split; [reflexivity|]. split; [discriminate|].
    split; [|reflexivity]. intros db Hin. apply Hok.
    destruct (decide (db ∈ d :: ds)) as [Hyes | Hno]; [exact Hyes|].
    exfalso. apply (filter_nil_not_elem_of _ _ db Hf Hno Hin).
  - destruct (checkbox_menu addstr_ok (d :: ds) frames) as [[sel|]| |] eqn:Hmenu;
      try (left; reflexivity).
    right. exists names, sel.
    destruct (menu_loop_returns_sublist addstr_ok _ _ _ _ Hmenu)
      as [Hne Hsub].
    repeat split; try assumption;
      apply (Hok db), (elem_of_sublist _ _ _ H Hsub).
Qed.

(** X16: with [--databases] and every name given among those the lister
    returned, [main] starts no selector and prints nothing itself: it is
    [backup_databases] on the names as given, in the order given, whatever
    keys are waiting on the terminal. *)
Theorem main_backs_up_requested_names_as_given
    (addstr_ok : Z -> Z -> Z -> Z -> pystr -> bool) (E : env) (args : cli_args)
    (names requested : list pystr) (frames : list frame_input) (w : world) :
  args_list args = false →
  args_databases args = Some requested →
  requested ≠ [] →
  (∀ db, db ∈ requested →
     db ∈ names ∧ (args_all args = false → db ∉ system_dbs)) →
  main addstr_ok E args (Names names) frames w
  = main_backup E (Tool (args_url args) (args_output args)) requested (args_zip args) w.
Proof.
  intros Hlist Hreq Hne Hall.
  destruct (get_databases_members (negb (args_all args)) names)
    as (databases & Hget & Hmem).
  assert (Hin : ∀ db, db ∈ requested → db ∈ databases).
  { intros db Hdb. apply Hmem. destruct (Hall db Hdb) as [H1 H2].
    split; [exact H1|]. intros Hx. apply H2.
    destruct (args_all args); [discriminate | reflexivity]. }
  unfold main. rewrite Hget, Hlist, Hreq.
  destruct requested as [|r rs]; [contradiction|].
  destruct databases as [|d ds].
  { specialize (Hin r ltac:(left)). apply elem_of_nil in Hin. contradiction. }
  destruct (filter (fun db => db ∉ d :: ds) (r :: rs)) as [|i0 is0] eqn:Hf;
    [reflexivity|].
  exfalso.
  assert (Hi : i0 ∈ filter (fun db => db ∉ d :: ds) (r :: rs))
    by (rewrite Hf; left).
  apply list_elem_of_filter in Hi as [Hno Hi]. exact (Hno (Hin _ Hi)).
Qed.

Lemma main_backs_up_requested_names_as_given_witness :
  let args := Args (lit "mongodb://localhost:27017") (Some [lit "users"; lit "app"])
                   [lit "backups"] false false false in
  let E := demo_env [Exited 0 [] []; Exited 0 [] []] true true in
  spawned (log (main ncurses_addstr_ok E args
                     (Names [lit "admin"; lit "users"; lit "logs"; lit "app"])
                     [Frame 24 80 (Key (ord "q"))] (fresh_world [] [])).2)
  = [dump_cmd (Tool (lit "mongodb://localhost:27017") [lit "backups"])
              (lit "20261104_090507") (lit "users");
     dump_cmd (Tool (lit "mongodb://localhost:27017") [lit "backups"])
              (lit "20261104_090507") (lit "app")].
Proof.
  intros args E.
  rewrite (main_backs_up_requested_names_as_given ncurses_addstr_ok E args
             [lit "admin"; lit "users"; lit "logs"; lit "app"]
             [lit "users"; lit "app"] [Frame 24 80 (Key (ord "q"))] (fresh_world [] [])).
  - vm_compute. reflexivity.
  - reflexivity.
  - reflexivity.
  - discriminate.
  - intros db Hdb. split.
    + repeat (apply elem_of_cons in Hdb as [-> | Hdb];
              [repeat first [apply list_elem_of_here | apply list_elem_of_further]|]).
      apply elem_of_nil in Hdb. contradiction.
    + intros _ Hin.
      repeat (apply elem_of_cons in Hdb as [-> | Hdb];
              [repeat (apply elem_of_cons in Hin as [Hin | Hin]; [discriminate|]);
               apply elem_of_nil in Hin; contradiction|]).
      apply elem_of_nil in Hdb. contradiction.
Defined.

(** The other ways through [main], on the fixtures: nothing usable on the
    server, the list mode, a cancelled selection, a selector that raises and
    a confirmed selection. *)
Example main_on_fixtures :
  let args dbs lst := Args (lit "mongodb://localhost:27017") dbs [lit "backups"]
                           false lst false in
  let E := demo_env [Exited 0 [] []; Exited 0 [] []] true true in
  let w0 := fresh_world [] [] in
  let server := Names [lit "users"; lit "admin"; lit "app"] in
  main ncurses_addstr_ok E (args None false) (Names [lit "admin"; lit "local"]) [] w0
  = ([Out NoDatabasesFound], Ok (MainExits 0), w0)
  ∧ main ncurses_addstr_ok E (args (Some [lit "nope"]) true) server [] w0
    = ([Out (AvailableDatabases 2); Out (Bullet (lit "app")); Out (Bullet (lit "users"))],
       Ok (MainExits 0), w0)
  ∧ main ncurses_addstr_ok E (args None false) server [Frame 24 120 (Key (ord "q"))] w0
    = ([Out BackupCancelled], Ok (MainExits 0), w0)
  ∧ main ncurses_addstr_ok E (args None false) server [Frame 24 20 (Key 10)] w0
    = ([Err (InteractiveError CursesError)], Ok (MainExits 1), w0)
  ∧ spawned (log (main ncurses_addstr_ok E (args None false) server
                       [Frame 24 120 (Key (ord " ")); Frame 24 120 (Key 10)] w0).2)
    = [dump_cmd demo_tool (lit "20261104_090507") (lit "users")].
Proof. vm_compute. repeat split. Qed.
